(** * Verification of the Zhipu content generator and the auth dialog

    A shallow embedding of [packages/core/src/core/zhipuContentGenerator.ts]
    (the tool-enabled generator) and of the escape handling of
    [AuthDialog.tsx], with the properties the specification states about them.

    Scope of the model.
    - Strings are sequences of 8-bit characters ([string]); text is assumed to
      be ASCII where a JavaScript built-in is sensitive to it
      ([String.prototype.trim] strips the ASCII white space only).
    - What arrives from the vendor is untyped: the code casts the result of
      [JSON.parse] to an interface without checking it, so the response side
      works on [JSValue], with property access that throws [TypeError] on
      [undefined] and [null], as the JavaScript it stands for.
    - Numbers are carried by their decimal literal; the code never computes
      with them (it tests truthiness and [length > 0] only), and rounding to a
      double is not modelled.
    - A [JSValue] is a JSON tree (what [JSON.parse] returns; the tools of a
      request are modelled as one too): none of its values can be called, so
      converting to a string an object that has a property [toString] of its
      own throws a [TypeError], in a template literal, in the argument of
      [JSON.parse] and in a comparison with a number alike.
    - The request side is typed as [@google/genai] types it.
    - Console output, telemetry, HTTP requests and yielded fragments are
      recorded, in order, in a trace of events. *)

From Stdlib Require Import String Ascii List Bool Arith ZArith Lia DecimalString.
Import ListNotations.
Local Open Scope string_scope.
Local Open Scope list_scope.

Set Implicit Arguments.
Set Warnings "-register-all".

(** ** JavaScript values and the built-ins the adapter calls *)
Module JS.

Inductive JSValue : Type :=
| JUndefined
| JNull
| JBool (b : bool)
| JNumber (lit : string)
| JString (s : string)
| JArray (elems : list JSValue)
| JObject (props : list (string * JSValue)).

(** Errors a modelled computation can throw. [Error prefix cause] is
    [new Error(prefix + cause.message)]. *)
Inductive JSError : Type :=
| SyntaxError
| TypeError
| Error (prefix : string) (cause : option JSError).

(** *** Strings *)

Definition nl : ascii := ascii_of_nat 10.

Fixpoint startsWith (p s : string) : bool :=
  match p, s with
  | EmptyString, _ => true
  | String a p', String b s' => Ascii.eqb a b && startsWith p' s'
  | String _ _, EmptyString => false
  end.

(** [s.slice(n)] for [0 <= n]. *)
Fixpoint slice (n : nat) (s : string) : string :=
  match n, s with
  | O, _ => s
  | S n', String _ s' => slice n' s'
  | S _, EmptyString => EmptyString
  end.

(** [s.split] on the newline character: never empty, the last element is what follows the last
    newline. *)
Fixpoint split_nl (s : string) : list string :=
  match s with
  | EmptyString => [EmptyString]
  | String c s' =>
      if Ascii.eqb c nl then EmptyString :: split_nl s'
      else match split_nl s' with
           | h :: t => String c h :: t
           | [] => [String c EmptyString]
           end
  end.

Definition is_trim_space (c : ascii) : bool :=
  let n := nat_of_ascii c in
  (Nat.leb 9 n && Nat.leb n 13) || Nat.eqb n 32.

Fixpoint trim_start (s : string) : string :=
  match s with
  | String c s' => if is_trim_space c then trim_start s' else s
  | EmptyString => EmptyString
  end.

(** Drops trailing white space: a character is kept when something that is
    kept follows it, or when it is not white space itself. *)
Fixpoint trim_end (s : string) : string :=
  match s with
  | EmptyString => EmptyString
  | String c s' =>
      match trim_end s' with
      | EmptyString => if is_trim_space c then EmptyString else String c EmptyString
      | r => String c r
      end
  end.

Definition trim (s : string) : string := trim_end (trim_start s).

Fixpoint join (sep : string) (l : list string) : string :=
  match l with
  | [] => EmptyString
  | [x] => x
  | x :: r => x ++ sep ++ join sep r
  end.

Definition string_of_nat (n : nat) : string :=
  NilEmpty.string_of_uint (Nat.to_uint n).

(** *** Dynamic operations *)

Definition truthy_number (lit : string) : bool :=
  (fix go (s : string) : bool :=
     match s with
     | EmptyString => false
     | String c s' =>
         if (Ascii.eqb c "e" || Ascii.eqb c "E")%char then false
         else if (Nat.leb 49 (nat_of_ascii c) && Nat.leb (nat_of_ascii c) 57) then true
         else go s'
     end) lit.

Definition truthy (v : JSValue) : bool :=
  match v with
  | JUndefined | JNull => false
  | JBool b => b
  | JNumber lit => truthy_number lit
  | JString s => negb (String.eqb s EmptyString)
  | JArray _ | JObject _ => true
  end.

Definition is_nullish (v : JSValue) : bool :=
  match v with JUndefined | JNull => true | _ => false end.

(** [v === 'k'] for a string constant. *)
Definition strict_eq_string (v : JSValue) (k : string) : bool :=
  match v with JString s => String.eqb s k | _ => false end.

Fixpoint lookup (k : string) (props : list (string * JSValue)) : option JSValue :=
  match props with
  | [] => None
  | (k', v) :: r => if String.eqb k k' then Some v else lookup k r
  end.

(** [o[k] = v] on the property list of an object: an existing key keeps its
    place. *)
Fixpoint set_prop (k : string) (v : JSValue) (props : list (string * JSValue))
  : list (string * JSValue) :=
  match props with
  | [] => [(k, v)]
  | (k', v') :: r =>
      if String.eqb k k' then (k, v) :: r else (k', v') :: set_prop k v r
  end.

(** [v.k] where [v] is not nullish. Only data properties matter: the names the
    adapter reads are none of the inherited ones, except [length]. *)
Definition own_prop (v : JSValue) (k : string) : JSValue :=
  match v with
  | JObject props => match lookup k props with Some x => x | None => JUndefined end
  | JArray l => if String.eqb k "length" then JNumber (string_of_nat (List.length l)) else JUndefined
  | JString s => if String.eqb k "length" then JNumber (string_of_nat (String.length s)) else JUndefined
  | _ => JUndefined
  end.

(** [ToString(v)], as [JSON.parse] applies it to an argument that is not a
    string. *)
Fixpoint to_string (v : JSValue) : string :=
  match v with
  | JUndefined => "undefined"
  | JNull => "null"
  | JBool true => "true"
  | JBool false => "false"
  | JNumber lit => lit
  | JString s => s
  | JArray l =>
      join ","
        ((fix go (l : list JSValue) : list string :=
            match l with
            | [] => []
            | x :: r => (if is_nullish x then EmptyString else to_string x) :: go r
            end) l)
  | JObject _ => "[object Object]"
  end.

(** Whether [ToString(v)] returns. An object of a JSON tree is printed by
    [Object.prototype.toString], unless it has a property [toString] of its
    own: that property cannot be called, [valueOf] gives no primitive
    either, and the conversion throws a [TypeError]. An array is printed by
    joining its elements, each converted the same way. *)
Fixpoint printable (v : JSValue) : bool :=
  match v with
  | JArray l =>
      (fix go (l : list JSValue) : bool :=
         match l with
         | [] => true
         | x :: r => printable x && go r
         end) l
  | JObject props =>
      match lookup "toString" props with
      | Some _ => false
      | None => true
      end
  | _ => true
  end.

(** *** JSON.parse *)

Definition is_json_space (c : ascii) : bool :=
  let n := nat_of_ascii c in
  Nat.eqb n 32 || Nat.eqb n 9 || Nat.eqb n 10 || Nat.eqb n 13.

Fixpoint skip_ws (s : string) : string :=
  match s with
  | String c s' => if is_json_space c then skip_ws s' else s
  | EmptyString => EmptyString
  end.

Definition is_digit (c : ascii) : bool :=
  Nat.leb 48 (nat_of_ascii c) && Nat.leb (nat_of_ascii c) 57.

Fixpoint span_digits (s : string) : string * string :=
  match s with
  | String c s' =>
      if is_digit c then let (d, r) := span_digits s' in (String c d, r)
      else (EmptyString, s)
  | EmptyString => (EmptyString, EmptyString)
  end.

Definition hex_value (c : ascii) : option nat :=
  let n := nat_of_ascii c in
  if Nat.leb 48 n && Nat.leb n 57 then Some (n - 48)
  else if Nat.leb 65 n && Nat.leb n 70 then Some (n - 55)
  else if Nat.leb 97 n && Nat.leb n 102 then Some (n - 87)
  else None.

(** The characters of the code unit [n] of a unicode escape, in UTF-8. *)
Definition code_unit_chars (n : nat) (rest : string) : string :=
  if Nat.ltb n 128 then String (ascii_of_nat n) rest
  else if Nat.ltb n 2048 then
    String (ascii_of_nat (192 + n / 64)) (String (ascii_of_nat (128 + n mod 64)) rest)
  else
    String (ascii_of_nat (224 + n / 4096))
      (String (ascii_of_nat (128 + (n / 64) mod 64))
         (String (ascii_of_nat (128 + n mod 64)) rest)).

Definition simple_escape (e : ascii) : option ascii :=
  let n := nat_of_ascii e in
  if Nat.eqb n 34 then Some e            (* quote *)
  else if Nat.eqb n 92 then Some e       (* backslash *)
  else if Nat.eqb n 47 then Some e       (* slash *)
  else if Nat.eqb n 98 then Some (ascii_of_nat 8)
  else if Nat.eqb n 102 then Some (ascii_of_nat 12)
  else if Nat.eqb n 110 then Some (ascii_of_nat 10)
  else if Nat.eqb n 114 then Some (ascii_of_nat 13)
  else if Nat.eqb n 116 then Some (ascii_of_nat 9)
  else None.

(** The characters of a string literal, after its opening quote. *)
Fixpoint parse_chars (s : string) : option (string * string) :=
  match s with
  | EmptyString => None
  | String c r =>
      if Nat.eqb (nat_of_ascii c) 34 then Some (EmptyString, r)
      else if Nat.eqb (nat_of_ascii c) 92 then
        match r with
        | EmptyString => None
        | String e r1 =>
            if Nat.eqb (nat_of_ascii e) 117 then
              match r1 with
              | String h1 (String h2 (String h3 (String h4 r2))) =>
                  match hex_value h1, hex_value h2, hex_value h3, hex_value h4 with
                  | Some a, Some b, Some c', Some d =>
                      match parse_chars r2 with
                      | Some (t, rest) =>
                          Some (code_unit_chars (((a * 16 + b) * 16 + c') * 16 + d) t, rest)
                      | None => None
                      end
                  | _, _, _, _ => None
                  end
              | _ => None
              end
            else
              match simple_escape e with
              | Some x =>
                  match parse_chars r1 with
                  | Some (t, rest) => Some (String x t, rest)
                  | None => None
                  end
              | None => None
              end
        end
      else if Nat.ltb (nat_of_ascii c) 32 then None
      else
        match parse_chars r with
        | Some (t, rest) => Some (String c t, rest)
        | None => None
        end
  end.

Definition parse_int (s : string) : option (string * string) :=
  match s with
  | String c r =>
      if Nat.eqb (nat_of_ascii c) 48 then Some ("0", r)
      else if is_digit c then let (d, r') := span_digits r in Some (String c d, r')
      else None
  | EmptyString => None
  end.

Definition parse_frac (s : string) : option (string * string) :=
  match s with
  | String c r =>
      if Nat.eqb (nat_of_ascii c) 46 then
        match span_digits r with
        | (EmptyString, _) => None
        | (d, r') => Some (String c d, r')
        end
      else Some (EmptyString, s)
  | EmptyString => Some (EmptyString, s)
  end.

Definition parse_exp (s : string) : option (string * string) :=
  match s with
  | String c r =>
      if Nat.eqb (nat_of_ascii c) 101 || Nat.eqb (nat_of_ascii c) 69 then
        let (sign, r1) :=
          match r with
          | String g r' =>
              if Nat.eqb (nat_of_ascii g) 43 || Nat.eqb (nat_of_ascii g) 45
              then (String g EmptyString, r') else (EmptyString, r)
          | EmptyString => (EmptyString, r)
          end in
        match span_digits r1 with
        | (EmptyString, _) => None
        | (d, r') => Some (String c (sign ++ d)%string, r')
        end
      else Some (EmptyString, s)
  | EmptyString => Some (EmptyString, s)
  end.

(** A JSON number: its literal and what follows it. *)
Definition parse_number (s : string) : option (string * string) :=
  let (sign, s1) :=
    match s with
    | String c r => if Nat.eqb (nat_of_ascii c) 45 then ("-", r) else (EmptyString, s)
    | EmptyString => (EmptyString, s)
    end in
  match parse_int s1 with
  | Some (i, s2) =>
      match parse_frac s2 with
      | Some (f, s3) =>
          match parse_exp s3 with
          | Some (e, s4) => Some ((sign ++ i ++ f ++ e)%string, s4)
          | None => None
          end
      | None => None
      end
  | None => None
  end.

Definition is_char (c : ascii) (n : nat) : bool := Nat.eqb (nat_of_ascii c) n.

Fixpoint parse_value (fuel : nat) (s : string) : option (JSValue * string) :=
  match fuel with
  | O => None
  | S f =>
      match skip_ws s with
      | EmptyString => None
      | String c r as s0 =>
          if is_char c 123 then
            match skip_ws r with
            | String c' r' =>
                if is_char c' 125 then Some (JObject [], r')
                else parse_members f (String c' r') []
            | EmptyString => None
            end
          else if is_char c 91 then
            match skip_ws r with
            | String c' r' =>
                if is_char c' 93 then Some (JArray [], r')
                else parse_elements f (String c' r') []
            | EmptyString => None
            end
          else if is_char c 34 then
            match parse_chars r with
            | Some (t, rest) => Some (JString t, rest)
            | None => None
            end
          else if startsWith "true" s0 then Some (JBool true, slice 4 s0)
          else if startsWith "false" s0 then Some (JBool false, slice 5 s0)
          else if startsWith "null" s0 then Some (JNull, slice 4 s0)
          else
            match parse_number s0 with
            | Some (lit, rest) => Some (JNumber lit, rest)
            | None => None
            end
      end
  end
with parse_elements (fuel : nat) (s : string) (acc : list JSValue)
  : option (JSValue * string) :=
  match fuel with
  | O => None
  | S f =>
      match parse_value f s with
      | Some (v, rest) =>
          match skip_ws rest with
          | String c r =>
              if is_char c 44 then parse_elements f r (acc ++ [v])
              else if is_char c 93 then Some (JArray (acc ++ [v]), r)
              else None
          | EmptyString => None
          end
      | None => None
      end
  end
with parse_members (fuel : nat) (s : string) (acc : list (string * JSValue))
  : option (JSValue * string) :=
  match fuel with
  | O => None
  | S f =>
      match skip_ws s with
      | String q r =>
          if is_char q 34 then
            match parse_chars r with
            | Some (k, rest) =>
                match skip_ws rest with
                | String c r2 =>
                    if is_char c 58 then
                      match parse_value f r2 with
                      | Some (v, rest2) =>
                          match skip_ws rest2 with
                          | String d r3 =>
                              if is_char d 44 then parse_members f r3 (set_prop k v acc)
                              else if is_char d 125 then Some (JObject (set_prop k v acc), r3)
                              else None
                          | EmptyString => None
                          end
                      | None => None
                      end
                    else None
                | EmptyString => None
                end
            | None => None
            end
          else None
      | EmptyString => None
      end
  end.

(** [JSON.parse(text)]: [None] stands for the [SyntaxError] it throws. *)
Definition JSON_parse (text : string) : option JSValue :=
  match parse_value (2 * String.length text + 2) text with
  | Some (v, rest) =>
      match skip_ws rest with
      | EmptyString => Some v
      | String _ _ => None
      end
  | None => None
  end.

(** The value of [JSON.parse(v)] for an argument of any type, which is
    converted to a string first; [None] when the call throws. *)
Definition JSON_parse_value (v : JSValue) : option JSValue :=
  if printable v then JSON_parse (to_string v) else None.

(** *** JSON.stringify *)

Definition hex_digit (n : nat) : ascii :=
  if Nat.ltb n 10 then ascii_of_nat (48 + n) else ascii_of_nat (87 + n).

Definition backslash : ascii := ascii_of_nat 92.

Definition esc (c : ascii) : string := String backslash (String c EmptyString).

Fixpoint escape (s : string) : string :=
  match s with
  | EmptyString => EmptyString
  | String c r =>
      let n := nat_of_ascii c in
      (if Nat.eqb n 34 then esc (ascii_of_nat 34)
       else if Nat.eqb n 92 then esc backslash
       else if Nat.eqb n 8 then esc "b"
       else if Nat.eqb n 12 then esc "f"
       else if Nat.eqb n 10 then esc "n"
       else if Nat.eqb n 13 then esc "r"
       else if Nat.eqb n 9 then esc "t"
       else if Nat.ltb n 32 then
         esc "u" ++ "00" ++ String (hex_digit (n / 16)) (String (hex_digit (n mod 16)) EmptyString)
       else String c EmptyString) ++ escape r
  end.

Definition quote (s : string) : string :=
  String (ascii_of_nat 34) (escape s ++ String (ascii_of_nat 34) EmptyString).

(** [JSON.stringify(v)]: [None] stands for [undefined]. *)
Fixpoint JSON_stringify (v : JSValue) : option string :=
  match v with
  | JUndefined => None
  | JNull => Some "null"
  | JBool true => Some "true"
  | JBool false => Some "false"
  | JNumber lit => Some lit
  | JString s => Some (quote s)
  | JArray l =>
      Some (String.append "[" (String.append (join ","
              ((fix go (l : list JSValue) : list string :=
                  match l with
                  | [] => []
                  | x :: r =>
                      match JSON_stringify x with
                      | Some t => t
                      | None => "null"
                      end :: go r
                  end) l)) "]"))
  | JObject ps =>
      Some (String.append "{" (String.append (join ","
              ((fix go (ps : list (string * JSValue)) : list string :=
                  match ps with
                  | [] => []
                  | (k, x) :: r =>
                      match JSON_stringify x with
                      | Some t => (quote k ++ ":" ++ t)%string :: go r
                      | None => go r
                      end
                  end) ps)) "}"))
  end.

(** *** Comparison with zero *)

Definition number_gt0 (lit : string) : bool :=
  negb (startsWith "-" lit) && truthy_number lit.

(** [ToNumber(s) > 0] for the strings that are decimal literals in JSON form;
    any other string counts as [NaN]. *)
Definition string_gt0 (s : string) : bool :=
  match parse_number (trim s) with
  | Some (lit, EmptyString) => number_gt0 lit
  | _ => false
  end.

(** The value of [v > 0] for a [v] that can be converted to a string (an
    array or an object is compared through its string). *)
Definition js_gt0 (v : JSValue) : bool :=
  match v with
  | JNumber lit => number_gt0 lit
  | JBool b => b
  | JString s => string_gt0 s
  | JArray _ => string_gt0 (to_string v)
  | JUndefined | JNull | JObject _ => false
  end.

End JS.

(** ** The adapter: data *)
Module Zhipu.
Import JS.

(** *** The request side, as [@google/genai] types it *)

Record FunctionCall : Type := {
  fc_id : option string;
  fc_name : option string;
  fc_args : JSValue            (* [JUndefined] when absent *)
}.

Record FunctionResponse : Type := {
  fr_id : option string;
  fr_name : option string;
  fr_response : JSValue        (* [JUndefined] when absent *)
}.

(** A [Part] object: each field may be missing, several may be present. *)
Record Part : Type := {
  text : option string;
  functionCall : option FunctionCall;
  functionResponse : option FunctionResponse
}.

(** [PartUnion = Part | string]. *)
Inductive PartUnion : Type :=
| PartString (s : string)
| PartObject (p : Part).

(** An optional property: the key is missing, or it is there and holds
    [undefined], or it holds a value. The [in] operator tells the first from
    the other two. *)
Inductive prop (A : Type) : Type :=
| absent
| undef
| val (a : A).
Arguments absent {A}.
Arguments undef {A}.

Definition has_key {A : Type} (p : prop A) : bool :=
  match p with absent => false | _ => true end.

Record Content : Type := {
  role : prop string;
  parts : prop (list PartUnion)
}.

(** What [request.contents] or one of its elements can be. *)
Inductive ContentItem : Type :=
| ItemString (s : string)
| ItemContent (c : Content)
| ItemPart (p : Part).

(** [ContentListUnion]: one item, or an array of them. *)
Inductive ContentListUnion : Type :=
| Single (item : ContentItem)
| Many (items : list ContentItem).

(** The request, as far as the adapter reads it: [config_tools] is
    [request.config?.tools], [JUndefined] when either is missing. *)
Record GenerateContentParameters : Type := {
  contents : ContentListUnion;
  config_tools : JSValue
}.

(** *** The vendor's messages *)

Inductive ZhipuRole : Type := user | assistant | system.

Inductive ZhipuItem : Type :=
| function_call (name : option string) (arguments : option string) (id : option string)
| function_response (name : option string) (content : option string) (id : option string)
| text_item (text : string).

Inductive ZhipuContent : Type :=
| ContentString (s : string)
| ContentItems (items : list ZhipuItem).

Record ZhipuMessage : Type := {
  msg_role : ZhipuRole;
  msg_content : ZhipuContent
}.

Record ZhipuTool : Type := {
  tool_name : JSValue;
  tool_description : JSValue;
  tool_parameters : JSValue
}.

Record ZhipuRequest : Type := {
  model : string;
  messages : list ZhipuMessage;
  stream : bool;
  tools : option (list ZhipuTool)
}.

(** *** The generic response *)

Inductive FinishReason : Type :=
| STOP
| MAX_TOKENS
| SAFETY
| FINISH_REASON_UNSPECIFIED.

(** A part of a response: its fields hold whatever the vendor's JSON held. *)
Inductive ResponsePart : Type :=
| TextPart (text : JSValue)
| FunctionCallPart (id name args : JSValue)
| FunctionResponsePart (id name response : JSValue).

Record Candidate : Type := {
  index : JSValue;
  content_role : string;
  content_parts : list ResponsePart;
  finishReason : FinishReason
}.

Record UsageMetadata : Type := {
  promptTokenCount : JSValue;
  candidatesTokenCount : JSValue;
  totalTokenCount : JSValue
}.

Record GenerateContentResponse : Type := {
  responseId : JSValue;
  modelVersion : JSValue;
  candidates : list Candidate;
  usageMetadata : option UsageMetadata
}.

(** *** Effects *)

(** What a call does besides returning: console output (the fixed text of the
    message and the values printed with it), the HTTP request, the telemetry
    event, fragments yielded by the stream generator, the release of the
    reader. The diagnostics that only print the request are left out. *)
Inductive Event : Type :=
| ConsoleLog (message : string) (values : list JSValue)
| ConsoleError (message : string) (error : JSError)
| Fetch (request : ZhipuRequest)
| LogApiResponse (usage : option UsageMetadata) (error : option JSError)
| Yield (fragment : GenerateContentResponse)
| ReleaseLock.

Inductive Outcome (A : Type) : Type :=
| Ok (a : A)
| Throw (e : JSError).
Arguments Throw {A} e.

(** A computation: the events it produced, then how it ended. *)
Definition M (A : Type) : Type := list Event * Outcome A.

Definition ret {A : Type} (a : A) : M A := ([], Ok a).

Definition throw {A : Type} (e : JSError) : M A := ([], Throw e).

Definition emit (ev : Event) : M unit := ([ev], Ok tt).

Definition bind {A B : Type} (m : M A) (k : A -> M B) : M B :=
  match m with
  | (evs, Ok a) => let (evs', r) := k a in (evs ++ evs', r)
  | (evs, Throw e) => (evs, Throw e)
  end.

(** [try { m } catch (e) { handler e }] *)
Definition try_catch {A : Type} (m : M A) (handler : JSError -> M A) : M A :=
  match m with
  | (evs, Ok a) => (evs, Ok a)
  | (evs, Throw e) => let (evs', r) := handler e in (evs ++ evs', r)
  end.

(** [try { m } finally { f }], for an [f] that does not throw. *)
Definition try_finally {A : Type} (m : M A) (f : list Event) : M A :=
  let (evs, r) := m in (evs ++ f, r).

Definition events {A : Type} (m : M A) : list Event := fst m.

Definition outcome {A : Type} (m : M A) : Outcome A := snd m.

Declare Scope js_scope.
Delimit Scope js_scope with js.
Notation "x <- c ;; k" := (bind c (fun x => k))
  (at level 61, c at next level, right associativity) : js_scope.
Notation "c ;; k" := (bind c (fun _ => k))
  (at level 61, right associativity) : js_scope.
Local Open Scope js_scope.

Fixpoint mapM {A B : Type} (f : A -> M B) (l : list A) : M (list B) :=
  match l with
  | [] => ret []
  | x :: r => y <- f x ;; ys <- mapM f r ;; ret (y :: ys)
  end.

Fixpoint forM {A : Type} (f : A -> M unit) (l : list A) : M unit :=
  match l with
  | [] => ret tt
  | x :: r => f x ;; forM f r
  end.

Fixpoint foldM {A S : Type} (f : S -> A -> M S) (l : list A) (s : S) : M S :=
  match l with
  | [] => ret s
  | x :: r => s' <- f s x ;; foldM f r s'
  end.

(** [v.k] *)
Definition get (v : JSValue) (k : string) : M JSValue :=
  if is_nullish v then throw TypeError else ret (own_prop v k).

(** [v?.k] *)
Definition get_opt (v : JSValue) (k : string) : JSValue :=
  if is_nullish v then JUndefined else own_prop v k.

(** [v.map(f)]: a value that is not an array has no [map] to call. *)
Definition array_map {B : Type} (v : JSValue) (f : JSValue -> M B) : M (list B) :=
  match v with
  | JArray l => mapM f l
  | _ => throw TypeError
  end.

(** [v.forEach((x, i) => f x i)] *)
Definition array_forEach (v : JSValue) (f : JSValue -> nat -> M unit) : M unit :=
  match v with
  | JArray l => forM (fun xi => f (fst xi) (snd xi)) (combine l (seq 0 (List.length l)))
  | _ => throw TypeError
  end.

Definition chars (s : string) : list JSValue :=
  map (fun c => JString (String c EmptyString)) (list_ascii_of_string s).

(** The values [for (const x of v)] runs through. *)
Definition iterate (v : JSValue) : M (list JSValue) :=
  match v with
  | JArray l => ret l
  | JString s => ret (chars s)
  | _ => throw TypeError
  end.

(** [ToString(v)], as a template literal and [JSON.parse] apply it. *)
Definition ToString (v : JSValue) : M string :=
  if printable v then ret (to_string v) else throw TypeError.

(** [v > 0]: an array or an object is converted as [ToString] does it, and
    the comparison throws where that conversion does. *)
Definition gt0 (v : JSValue) : M bool :=
  if printable v then ret (js_gt0 v) else throw TypeError.

(** [v.length > 0] where [v] is not nullish. *)
Definition length_gt0 (v : JSValue) : M bool :=
  match v with
  | JArray l => ret (match l with [] => false | _ :: _ => true end)
  | JString s => ret (negb (String.eqb s EmptyString))
  | _ => gt0 (own_prop v "length")
  end.

(** [v && v.length > 0] *)
Definition truthy_with_length (v : JSValue) : M bool :=
  if truthy v then length_gt0 v else ret false.

Definition JSON_parse_or_throw (v : JSValue) : M JSValue :=
  text <- ToString v ;;
  match JSON_parse text with
  | Some x => ret x
  | None => throw SyntaxError
  end.

(** ** The adapter: operations *)

(** *** convertToZhipuFormat *)

(** [content.role === 'user' ? 'user' : content.role === 'model' ? 'assistant' : 'system'] *)
Definition zhipu_role (r : prop string) : ZhipuRole :=
  match r with
  | val s =>
      if String.eqb s "user" then user
      else if String.eqb s "model" then assistant
      else system
  | _ => system
  end.

(** The three arrays the loop over the parts fills. *)
Record Buckets : Type := {
  functionCalls : list FunctionCall;
  functionResponses : list FunctionResponse;
  textParts : list string
}.

Definition no_buckets : Buckets :=
  {| functionCalls := []; functionResponses := []; textParts := [] |}.

Definition push_text (t : string) (b : Buckets) : Buckets :=
  {| functionCalls := functionCalls b;
     functionResponses := functionResponses b;
     textParts := textParts b ++ [t] |}.

Definition push_call (fc : FunctionCall) (b : Buckets) : Buckets :=
  {| functionCalls := functionCalls b ++ [fc];
     functionResponses := functionResponses b;
     textParts := textParts b |}.

Definition push_response (fr : FunctionResponse) (b : Buckets) : Buckets :=
  {| functionCalls := functionCalls b;
     functionResponses := functionResponses b ++ [fr];
     textParts := textParts b |}.

Definition nonempty_text (o : option string) : option string :=
  match o with
  | Some t => if String.eqb t EmptyString then None else Some t
  | None => None
  end.

(** The body of [for (const part of content.parts || [])]. *)
Definition sort_part (b : Buckets) (part : PartUnion) : Buckets :=
  match part with
  | PartString s => push_text s b
  | PartObject p =>
      match nonempty_text (text p) with
      | Some t => push_text t b
      | None =>
          match functionCall p with
          | Some fc => push_call fc b
          | None =>
              match functionResponse p with
              | Some fr => push_response fr b
              | None => b
              end
          end
      end
  end.

Definition function_call_item (fc : FunctionCall) : ZhipuItem :=
  function_call (fc_name fc) (JSON_stringify (fc_args fc)) (fc_id fc).

Definition function_response_item (fr : FunctionResponse) : ZhipuItem :=
  function_response (fr_name fr)
    (match fr_response fr with
     | JString s => Some s
     | r => JSON_stringify r
     end)
    (fr_id fr).

Definition is_nil {A : Type} (l : list A) : bool :=
  match l with [] => true | _ :: _ => false end.

(** The messages pushed for one content object that has a role and parts. *)
Definition push_content (messages : list ZhipuMessage) (c : Content) : list ZhipuMessage :=
  let b := fold_left sort_part (match parts c with val ps => ps | _ => [] end) no_buckets in
  let messages1 :=
    if is_nil (textParts b) then messages
    else messages ++ [{| msg_role := zhipu_role (role c);
                         msg_content := ContentString (String.concat EmptyString (textParts b)) |}] in
  let messages2 :=
    if is_nil (functionCalls b) then messages1
    else messages1 ++ [{| msg_role := zhipu_role (role c);
                          msg_content := ContentItems (map function_call_item (functionCalls b)) |}] in
  if is_nil (functionResponses b) then messages2
  else messages2 ++ [{| msg_role := zhipu_role (role c);
                        msg_content := ContentItems (map function_response_item (functionResponses b)) |}].

(** The body of [for (const content of request.contents)]. *)
Definition push_item (messages : list ZhipuMessage) (item : ContentItem) : list ZhipuMessage :=
  match item with
  | ItemString s => messages ++ [{| msg_role := user; msg_content := ContentString s |}]
  | ItemContent c =>
      if has_key (role c) && has_key (parts c) then push_content messages c else messages
  | ItemPart _ => messages
  end.

Definition convertToZhipuFormat (request : GenerateContentParameters) : list ZhipuMessage :=
  match contents request with
  | Many items => fold_left push_item items []
  | Single _ => []
  end.

(** *** convertZhipuResponseToParts *)

(** The body of [for (const item of content)]. *)
Definition push_content_item (parts : list ResponsePart) (item : JSValue)
  : M (list ResponsePart) :=
  ty <- get item "type" ;;
  if strict_eq_string ty "text" then
    t <- get item "text" ;;
    ret (parts ++ [TextPart t])
  else if strict_eq_string ty "function_call" then
    fc <- get item "function_call" ;;
    id <- get fc "id" ;;
    name <- get fc "name" ;;
    a <- get fc "arguments" ;;
    args <- JSON_parse_or_throw a ;;
    ret (parts ++ [FunctionCallPart id name args])
  else if strict_eq_string ty "function_response" then
    fr <- get item "function_response" ;;
    id <- get fr "id" ;;
    name <- get fr "name" ;;
    r <- get fr "content" ;;
    ret (parts ++ [FunctionResponsePart id name r])
  else ret parts.

(** The body of [for (const toolCall of toolCalls)]. *)
Definition push_tool_call (parts : list ResponsePart) (toolCall : JSValue)
  : M (list ResponsePart) :=
  try_catch
    (id <- get toolCall "id" ;;
     fn <- get toolCall "function" ;;
     name <- get fn "name" ;;
     a <- get fn "arguments" ;;
     args <- JSON_parse_or_throw a ;;
     ret (parts ++ [FunctionCallPart id name args]))
    (fun error =>
       emit (ConsoleError "Error parsing tool call arguments:" error) ;;
       id <- get toolCall "id" ;;
       fn <- get toolCall "function" ;;
       name <- get fn "name" ;;
       ret (parts ++ [FunctionCallPart id name (JObject [])])).

Definition convertZhipuResponseToParts (content toolCalls : JSValue)
  : M (list ResponsePart) :=
  parts <- (if truthy content then
              match content with
              | JString _ => ret [TextPart content]
              | JArray items => foldM push_content_item items []
              | _ => ret []
              end
            else ret []) ;;
  some <- truthy_with_length toolCalls ;;
  if some then
    l <- iterate toolCalls ;;
    foldM push_tool_call l parts
  else ret parts.

Definition convertZhipuContentToParts (content : JSValue) : M (list ResponsePart) :=
  convertZhipuResponseToParts content JUndefined.

(** *** mapZhipuFinishReason *)

Definition mapZhipuFinishReason (zhipuReason : JSValue) : FinishReason :=
  match zhipuReason with
  | JString s =>
      if String.eqb s "stop" then STOP
      else if String.eqb s "length" then MAX_TOKENS
      else if String.eqb s "content_filter" then SAFETY
      else FINISH_REASON_UNSPECIFIED
  | _ => FINISH_REASON_UNSPECIFIED
  end.

(** *** extractToolsFromRequest *)

Definition or_else (v d : JSValue) : JSValue := if truthy v then v else d.

(** The console output of this function is not recorded; the errors its
    diagnostics can throw are: reading the name of a declaration that is
    [null] or [undefined], and printing a name in the template literal
    [`ZHIPU: Adding tool: ${toolFunction.name}`]. *)
Definition extractToolsFromRequest (request : GenerateContentParameters)
  : M (option (list ZhipuTool)) :=
  let tools := config_tools request in
  if negb (truthy tools) then ret None
  else
    match own_prop tools "functionDeclarations" with
    | JArray decls =>
        l <- mapM (fun funcDecl =>
                     name <- get funcDecl "name" ;;
                     description <- get funcDecl "description" ;;
                     parameters <- get funcDecl "parameters" ;;
                     let toolFunction :=
                       {| tool_name := name;
                          tool_description := or_else description (JString EmptyString);
                          tool_parameters := or_else parameters (JObject []) |} in
                     ToString (tool_name toolFunction) ;;
                     ret toolFunction) decls ;;
        ret (Some l)
    | _ => ret None
    end.

(** *** The HTTP exchange *)

(** What the reader of a response body delivers: the decoded chunks, and after
    them the end of the stream, or the error a read is rejected with. *)
Record Body : Type := {
  delivered : list string;
  rejection : option JSError
}.

Record HttpResponse : Type := {
  ok : bool;
  status_line : string;              (* status and statusText, as the error message prints them *)
  json : option JSValue;             (* [response.json()]; [None] when the body is no JSON *)
  body : option Body                 (* [None] for a null body *)
}.

Inductive FetchResult : Type :=
| Rejected (e : JSError)
| Responded (response : HttpResponse).

Definition number_of_nat (n : nat) : JSValue := JNumber (string_of_nat n).

(** [usageMetadata], filled in when [zhipuResponse.usage] is truthy. *)
Definition usage_of (zhipuResponse : JSValue) : M (option UsageMetadata) :=
  usage <- get zhipuResponse "usage" ;;
  if truthy usage then
    p <- get usage "prompt_tokens" ;;
    c <- get usage "completion_tokens" ;;
    t <- get usage "total_tokens" ;;
    ret (Some {| promptTokenCount := p; candidatesTokenCount := c; totalTokenCount := t |})
  else ret None.

(** The candidate of a complete response: the message content, and the
    top-level tool calls after it. *)
Definition message_candidate (zhipuResponse choice : JSValue) : M Candidate :=
  i <- get choice "index" ;;
  message <- get choice "message" ;;
  tool_calls <- get zhipuResponse "tool_calls" ;;
  ps <- convertZhipuResponseToParts (get_opt message "content") tool_calls ;;
  reason <- get choice "finish_reason" ;;
  ret {| index := i; content_role := "model"; content_parts := ps;
         finishReason := mapZhipuFinishReason reason |}.

(** The candidate of a streamed fragment: the delta content only. *)
Definition delta_candidate (choice : JSValue) : M Candidate :=
  delta <- get choice "delta" ;;
  i <- get choice "index" ;;
  ps <- convertZhipuContentToParts (get_opt delta "content") ;;
  reason <- get choice "finish_reason" ;;
  ret {| index := i; content_role := "model"; content_parts := ps;
         finishReason := mapZhipuFinishReason reason |}.

(** *** generateContent *)

(** The callback of [tool_calls.forEach]: the name is printed in a template
    literal. *)
Definition log_tool_call (each : string) (toolCall : JSValue) (i : nat) : M unit :=
  fn <- get toolCall "function" ;;
  name <- get fn "name" ;;
  text <- ToString name ;;
  emit (ConsoleLog each [number_of_nat (i + 1); JString text]).

Definition log_tool_calls (received each : string) (none : option string)
    (zhipuResponse : JSValue) : M unit :=
  tool_calls <- get zhipuResponse "tool_calls" ;;
  some <- truthy_with_length tool_calls ;;
  if some then
    emit (ConsoleLog received [own_prop tool_calls "length"]) ;;
    array_forEach tool_calls (log_tool_call each)
  else
    match none with
    | Some message => emit (ConsoleLog message [])
    | None => ret tt
    end.

(** The request of a call. The diagnostics that print it afterwards are not
    recorded, and they cannot throw: the names of the tools they print in a
    template literal were printed by [extractToolsFromRequest] before. *)
Definition build_request (this_model : string) (streaming : bool)
    (request : GenerateContentParameters) : M ZhipuRequest :=
  let ms := convertToZhipuFormat request in
  ts <- extractToolsFromRequest request ;;
  ret {| model := this_model; messages := ms; stream := streaming; tools := ts |}.

Definition generateContent (this_model : string) (fetch : ZhipuRequest -> FetchResult)
    (request : GenerateContentParameters) : M GenerateContentResponse :=
  try_catch
    (zhipuRequest <- build_request this_model false request ;;
     emit (Fetch zhipuRequest) ;;
     match fetch zhipuRequest with
     | Rejected e => throw e
     | Responded response =>
         if negb (ok response) then
           throw (Error (String.append "Zhipu API error: " (status_line response)) None)
         else
           zhipuResponse <- match json response with
                            | Some v => ret v
                            | None => throw SyntaxError
                            end ;;
           log_tool_calls "ZHIPU: Received ${zhipuResponse.tool_calls.length} tool calls from API"
             "ZHIPU: Tool call ${index + 1}: ${toolCall.function.name}"
             (Some "ZHIPU: No tool calls received from API") zhipuResponse ;;
           i <- get zhipuResponse "id" ;;
           m <- get zhipuResponse "model" ;;
           choices <- get zhipuResponse "choices" ;;
           cs <- array_map choices (message_candidate zhipuResponse) ;;
           u <- usage_of zhipuResponse ;;
           emit (LogApiResponse u None) ;;
           ret {| responseId := i; modelVersion := m; candidates := cs; usageMetadata := u |}
     end)
    (fun error =>
       emit (LogApiResponse None (Some error)) ;;
       throw (Error "Zhipu API error: " (Some error))).

(** *** generateContentStream *)

(** The fragment built from the parsed payload of a [data: ] line. *)
Definition fragment_response (zhipuResponse : JSValue) : M GenerateContentResponse :=
  log_tool_calls "ZHIPU: Streaming - Received ${zhipuResponse.tool_calls.length} tool calls from API"
    "ZHIPU: Streaming - Tool call ${index + 1}: ${toolCall.function.name}"
    None zhipuResponse ;;
  i <- get zhipuResponse "id" ;;
  m <- get zhipuResponse "model" ;;
  choices <- get zhipuResponse "choices" ;;
  cs <- array_map choices delta_candidate ;;
  u <- usage_of zhipuResponse ;;
  ret {| responseId := i; modelVersion := m; candidates := cs; usageMetadata := u |}.

(** The [try] block run on the payload of a [data: ] line. *)
Definition stream_fragment (data : string) : M unit :=
  zhipuResponse <- JSON_parse_or_throw (JString data) ;;
  generateContentResponse <- fragment_response zhipuResponse ;;
  emit (Yield generateContentResponse).

(** The body of [for (const line of lines)]. *)
Definition process_line (line : string) : M unit :=
  if startsWith "data: " line then
    let data := slice 6 line in
    if String.eqb data "[DONE]" then ret tt
    else
      try_catch (stream_fragment data)
        (fun parseError => emit (ConsoleError "Error parsing Zhipu streaming response:" parseError))
  else ret tt.

(** [lines.pop() || ''] and what is left of [lines]. *)
Definition pop (lines : list string) : list string * string :=
  (removelast lines, last lines EmptyString).

(** The [while (true)] loop: one round per chunk, until the reader is done or
    a read is rejected; the rejection of [await reader.read()] is thrown. *)
Fixpoint read_loop (chunks : list string) (rejection : option JSError) (buffer : string)
  : M string :=
  match chunks with
  | [] =>
      match rejection with
      | None => ret buffer
      | Some e => throw e
      end
  | value :: rest =>
      let (lines, buffer') := pop (split_nl (buffer ++ value)) in
      forM process_line lines ;;
      read_loop rest rejection buffer'
  end.

(** The fragment built from what the buffer still holds at the end. *)
Definition final_response (zhipuResponse : JSValue) : M GenerateContentResponse :=
  i <- get zhipuResponse "id" ;;
  m <- get zhipuResponse "model" ;;
  choices <- get zhipuResponse "choices" ;;
  cs <- array_map choices (message_candidate zhipuResponse) ;;
  ret {| responseId := i; modelVersion := m; candidates := cs; usageMetadata := None |}.

(** The [try] block run on what the buffer still holds at the end. *)
Definition final_fragment (trimmed : string) : M unit :=
  zhipuResponse <- JSON_parse_or_throw (JString trimmed) ;;
  generateContentResponse <- final_response zhipuResponse ;;
  emit (Yield generateContentResponse).

Definition flush (buffer : string) : M unit :=
  if negb (String.eqb (trim buffer) EmptyString) then
    try_catch (final_fragment (trim buffer))
      (fun parseError => emit (ConsoleError "Error parsing final Zhipu response:" parseError))
  else ret tt.

(** The generator, run to its end on the chunks the reader delivers and the
    way the reading ends. The outer [try] has no [catch]: a rejected read
    leaves the generator as a throw, after the reader is released. *)
Definition streamGenerator (chunks : list string) (rejection : option JSError) : M unit :=
  try_finally
    (buffer <- read_loop chunks rejection EmptyString ;; flush buffer)
    [ReleaseLock].

(** The call returns the generator; nothing is read before it is run. *)
Definition generateContentStream (this_model : string) (fetch : ZhipuRequest -> FetchResult)
    (request : GenerateContentParameters) : M (M unit) :=
  try_catch
    (zhipuRequest <- build_request this_model true request ;;
     emit (Fetch zhipuRequest) ;;
     match fetch zhipuRequest with
     | Rejected e => throw e
     | Responded response =>
         if negb (ok response) then
           throw (Error (String.append "Zhipu API error: " (status_line response)) None)
         else
           match body response with
           | None => throw (Error "Zhipu API response body is null" None)
           | Some b => ret (streamGenerator (delivered b) (rejection b))
           end
     end)
    (fun error =>
       emit (LogApiResponse None (Some error)) ;;
       throw (Error "Zhipu API streaming error: " (Some error))).

(** Console output. *)
Definition console_event (ev : Event) : Prop :=
  match ev with
  | ConsoleLog _ _ | ConsoleError _ _ => True
  | _ => False
  end.

(** The fragments among the events of a run. *)
Definition yields (evs : list Event) : list GenerateContentResponse :=
  flat_map (fun ev => match ev with Yield r => [r] | _ => [] end) evs.

(** The requests among the events of a call. *)
Definition requests_sent (evs : list Event) : list ZhipuRequest :=
  flat_map (fun ev => match ev with Fetch r => [r] | _ => [] end) evs.

(** How a message content reads as a JavaScript value. *)
Definition js_of_option (o : option string) : JSValue :=
  match o with Some s => JString s | None => JUndefined end.

Definition js_of_item (it : ZhipuItem) : JSValue :=
  match it with
  | text_item t => JObject [("type", JString "text"); ("text", JString t)]
  | function_call n a i =>
      JObject [("type", JString "function_call");
               ("function_call",
                JObject [("name", js_of_option n); ("arguments", js_of_option a);
                         ("id", js_of_option i)])]
  | function_response n c i =>
      JObject [("type", JString "function_response");
               ("function_response",
                JObject [("name", js_of_option n); ("content", js_of_option c);
                         ("id", js_of_option i)])]
  end.

Definition js_of_content (c : ZhipuContent) : JSValue :=
  match c with
  | ContentString s => JString s
  | ContentItems l => JArray (map js_of_item l)
  end.

End Zhipu.

(** ** The auth dialog: escape handling *)
Module AuthDialog.

(** The members of [AuthType] the dialog names (the enumeration itself is
    declared in the core package). *)
Inductive AuthType : Type :=
| LOGIN_WITH_GOOGLE
| USE_GEMINI
| USE_OPENAI
| USE_ZHIPU.

Inductive SettingScope : Type := User.

(** The three [useState] cells. *)
Record State : Type := {
  errorMessage : option string;
  showOpenAIKeyPrompt : bool;
  showZhipuKeyPrompt : bool
}.

(** The props and the environment the handlers read. *)
Record Env : Type := {
  selectedAuthType : option AuthType;          (* settings.merged.selectedAuthType *)
  validateAuthMethod : AuthType -> option string;
  OPENAI_API_KEY : option string;
  ZHIPU_API_KEY : option string
}.

(** Calls the handlers make to the outside. *)
Inductive Call : Type :=
| onSelect (authMethod : option AuthType) (scope : SettingScope)
| setOpenAIApiKey (apiKey : string)
| setOpenAIBaseUrl (baseUrl : string)
| setOpenAIModel (model : string)
| setZhipuApiKey (apiKey : string)
| setZhipuModel (model : string).

Record Key : Type := { escape : bool }.

(** Truthiness of a [string | null] (or [string | undefined]). *)
Definition truthy_string (o : option string) : bool :=
  match o with
  | Some s => negb (String.eqb s EmptyString)
  | None => false
  end.

Definition setErrorMessage (m : option string) (st : State) : State :=
  {| errorMessage := m;
     showOpenAIKeyPrompt := showOpenAIKeyPrompt st;
     showZhipuKeyPrompt := showZhipuKeyPrompt st |}.

Definition setShowOpenAIKeyPrompt (b : bool) (st : State) : State :=
  {| errorMessage := errorMessage st;
     showOpenAIKeyPrompt := b;
     showZhipuKeyPrompt := showZhipuKeyPrompt st |}.

Definition setShowZhipuKeyPrompt (b : bool) (st : State) : State :=
  {| errorMessage := errorMessage st;
     showOpenAIKeyPrompt := showOpenAIKeyPrompt st;
     showZhipuKeyPrompt := b |}.

Definition must_select : string :=
  "You must select an auth method to proceed. Press Ctrl+C twice to exit.".

(** The callback given to [useInput]: the state after it and the calls it made. *)
Definition useInput (env : Env) (st : State) (key : Key) : State * list Call :=
  if showOpenAIKeyPrompt st then (st, [])
  else if escape key then
    if truthy_string (errorMessage st) then (st, [])
    else
      match selectedAuthType env with
      | None => (setErrorMessage (Some must_select) st, [])
      | Some _ => (st, [onSelect None User])
      end
  else (st, []).

Definition is_openai (a : AuthType) : bool :=
  match a with USE_OPENAI => true | _ => false end.

Definition is_zhipu (a : AuthType) : bool :=
  match a with USE_ZHIPU => true | _ => false end.

Definition handleAuthSelect (env : Env) (st : State) (authMethod : AuthType)
  : State * list Call :=
  let error := validateAuthMethod env authMethod in
  if truthy_string error then
    if is_openai authMethod && negb (truthy_string (OPENAI_API_KEY env)) then
      (setErrorMessage None (setShowOpenAIKeyPrompt true st), [])
    else if is_zhipu authMethod && negb (truthy_string (ZHIPU_API_KEY env)) then
      (setErrorMessage None (setShowZhipuKeyPrompt true st), [])
    else (setErrorMessage error st, [])
  else (setErrorMessage None st, [onSelect (Some authMethod) User]).

Definition handleOpenAIKeySubmit (st : State) (apiKey baseUrl model : string)
  : State * list Call :=
  (setShowOpenAIKeyPrompt false st,
   [setOpenAIApiKey apiKey; setOpenAIBaseUrl baseUrl; setOpenAIModel model;
    onSelect (Some USE_OPENAI) User]).

Definition handleOpenAIKeyCancel (st : State) : State * list Call :=
  (setErrorMessage (Some "OpenAI API key is required to use OpenAI authentication.")
     (setShowOpenAIKeyPrompt false st), []).

Definition handleZhipuKeySubmit (st : State) (apiKey : string) (model : option string)
  : State * list Call :=
  (setShowZhipuKeyPrompt false st,
   [setZhipuApiKey apiKey] ++
   (match model with
    | Some m => if truthy_string model then [setZhipuModel m] else []
    | None => []
    end) ++
   [onSelect (Some USE_ZHIPU) User]).

Definition handleZhipuKeyCancel (st : State) : State * list Call :=
  (setErrorMessage (Some "Zhipu AI API key is required to use Zhipu AI authentication.")
     (setShowZhipuKeyPrompt false st), []).

(** The state the dialog starts in: [initialErrorMessage || null]. *)
Definition initial (initialErrorMessage : option string) : State :=
  {| errorMessage := if truthy_string initialErrorMessage then initialErrorMessage else None;
     showOpenAIKeyPrompt := false;
     showZhipuKeyPrompt := false |}.

(** Whether a call is [onSelect]. *)
Definition is_onSelect (c : Call) : bool :=
  match c with onSelect _ _ => true | _ => false end.

Definition escape_key : Key := {| escape := true |}.

(** A user who has Zhipu configured and no OpenAI key, with the validation
    the dialog would get for it. *)
Definition zhipu_user : Env :=
  {| selectedAuthType := Some USE_ZHIPU;
     validateAuthMethod :=
       fun a => if is_openai a then Some "OPENAI_API_KEY environment variable not found."
                else None;
     OPENAI_API_KEY := None;
     ZHIPU_API_KEY := Some "key" |}.

(** A user with nothing configured. *)
Definition new_user : Env :=
  {| selectedAuthType := None;
     validateAuthMethod :=
       fun a => if is_openai a then Some "OPENAI_API_KEY environment variable not found."
                else None;
     OPENAI_API_KEY := None;
     ZHIPU_API_KEY := None |}.

(** The dialog while it shows the OpenAI key prompt. *)
Definition prompting : State :=
  {| errorMessage := None; showOpenAIKeyPrompt := true; showZhipuKeyPrompt := false |}.

End AuthDialog.

(** ** Vocabulary of the statements *)
Module Spec.
Import JS Zhipu.
Local Open Scope js_scope.

(** *** Streams *)

(** The text the reader delivers, whatever the chunking. *)
Definition stream_body (chunks : list string) : string :=
  fold_right String.append EmptyString chunks.

Fixpoint has_newline (s : string) : bool :=
  match s with
  | EmptyString => false
  | String c s' => Ascii.eqb c nl || has_newline s'
  end.

(** Lines, each ended by a newline. *)
Fixpoint unlines (ls : list string) : string :=
  match ls with
  | [] => EmptyString
  | l :: r => l ++ String nl (unlines r)
  end.

(** The lines of a body that a newline completes, and what follows the last
    newline. *)
Definition complete_lines (body : string) : list string := removelast (split_nl body).

Definition remainder (body : string) : string := last (split_nl body) EmptyString.

Definition sentinel : string := "data: [DONE]".

(** The end of a stream after its last line: any number of newlines. *)
Fixpoint newlines (n : nat) : string :=
  match n with
  | 0 => EmptyString
  | S n' => String nl (newlines n')
  end.

(** The fragments a line stands for: one for a [data: ] line that is not the
    sentinel, whose payload parses as JSON and whose parsed value the
    conversion accepts; none for any other line. *)
Definition line_fragments (line : string) : list GenerateContentResponse :=
  if startsWith "data: " line then
    if String.eqb (slice 6 line) "[DONE]" then []
    else
      match JSON_parse (slice 6 line) with
      | Some v =>
          match outcome (fragment_response v) with
          | Ok r => [r]
          | Throw _ => []
          end
      | None => []
      end
  else [].

(** The fragment the end of the stream stands for. *)
Definition remainder_fragments (buffer : string) : list GenerateContentResponse :=
  match JSON_parse (trim buffer) with
  | Some v =>
      match outcome (final_response v) with
      | Ok r => [r]
      | Throw _ => []
      end
  | None => []
  end.

(** A streamed payload of the shape the [ZhipuResponse] interface declares for
    the stream: an object whose [tool_calls], if any, is an array of objects
    that each have a [function] object with a name that can be printed (the
    interface declares a string), and whose [choices] is an array of objects,
    each with no delta or a delta whose content is a string or missing. *)
Definition declared_tool_call (toolCall : JSValue) : bool :=
  match toolCall with
  | JObject ps =>
      match lookup "function" ps with
      | Some (JObject _) => true
      | _ => false
      end
  | _ => false
  end.

Definition named_tool_call (toolCall : JSValue) : bool :=
  declared_tool_call toolCall &&
  printable (own_prop (own_prop toolCall "function") "name").

Definition declared_tool_calls (tool_calls : option JSValue) : bool :=
  match tool_calls with
  | None | Some JUndefined => true
  | Some (JArray l) => forallb named_tool_call l
  | _ => false
  end.

Definition declared_delta (delta : JSValue) : bool :=
  match delta with
  | JUndefined => true
  | JObject ps =>
      match lookup "content" ps with
      | None | Some JUndefined | Some (JString _) => true
      | _ => false
      end
  | _ => false
  end.

Definition declared_choice (choice : JSValue) : bool :=
  match choice with
  | JObject ps =>
      match lookup "delta" ps with
      | None => true
      | Some d => declared_delta d
      end
  | _ => false
  end.

Definition declared_fragment (v : JSValue) : bool :=
  match v with
  | JObject ps =>
      match lookup "choices" ps with
      | Some (JArray cs) =>
          declared_tool_calls (lookup "tool_calls" ps) && forallb declared_choice cs
      | _ => false
      end
  | _ => false
  end.

(** *** Requests *)

(** Where the loop over the parts puts a part. *)
Inductive Sorted : Type :=
| AsText (t : string)
| AsCall (fc : FunctionCall)
| AsResponse (fr : FunctionResponse)
| Dropped.

Definition sorted_as (part : PartUnion) : Sorted :=
  match part with
  | PartString s => AsText s
  | PartObject p =>
      match text p, functionCall p, functionResponse p with
      | Some t, fc, fr =>
          if String.eqb t EmptyString then
            match fc, fr with
            | Some c, _ => AsCall c
            | None, Some r => AsResponse r
            | None, None => Dropped
            end
          else AsText t
      | None, Some c, _ => AsCall c
      | None, None, Some r => AsResponse r
      | None, None, None => Dropped
      end
  end.

Definition texts_of (ps : list PartUnion) : list string :=
  flat_map (fun p => match sorted_as p with AsText t => [t] | _ => [] end) ps.

Definition calls_of (ps : list PartUnion) : list FunctionCall :=
  flat_map (fun p => match sorted_as p with AsCall c => [c] | _ => [] end) ps.

Definition responses_of (ps : list PartUnion) : list FunctionResponse :=
  flat_map (fun p => match sorted_as p with AsResponse r => [r] | _ => [] end) ps.

Definition parts_of (c : Content) : list PartUnion :=
  match parts c with val ps => ps | _ => [] end.

Definition message (r : ZhipuRole) (c : ZhipuContent) : ZhipuMessage :=
  {| msg_role := r; msg_content := c |}.

(** The messages of one content object: at most one of each kind, text first,
    then function calls, then function responses. *)
Definition content_messages (c : Content) : list ZhipuMessage :=
  let r := zhipu_role (role c) in
  let ps := parts_of c in
  (if is_nil (texts_of ps) then []
   else [message r (ContentString (String.concat EmptyString (texts_of ps)))]) ++
  (if is_nil (calls_of ps) then []
   else [message r (ContentItems (map function_call_item (calls_of ps)))]) ++
  (if is_nil (responses_of ps) then []
   else [message r (ContentItems (map function_response_item (responses_of ps)))]).

Definition item_messages (item : ContentItem) : list ZhipuMessage :=
  match item with
  | ItemString s => [message user (ContentString s)]
  | ItemContent c => if has_key (role c) && has_key (parts c) then content_messages c else []
  | ItemPart _ => []
  end.

(** The kinds of messages, to speak of their order. *)
Inductive Kind : Type := KText | KCall | KResponse.

Definition kind_eqb (a b : Kind) : bool :=
  match a, b with
  | KText, KText | KCall, KCall | KResponse, KResponse => true
  | _, _ => false
  end.

Definition part_kind (p : PartUnion) : list Kind :=
  match sorted_as p with
  | AsText _ => [KText]
  | AsCall _ => [KCall]
  | AsResponse _ => [KResponse]
  | Dropped => []
  end.

Definition message_kind (m : ZhipuMessage) : list Kind :=
  match msg_content m with
  | ContentString _ => [KText]
  | ContentItems (function_call _ _ _ :: _) => [KCall]
  | ContentItems (function_response _ _ _ :: _) => [KResponse]
  | ContentItems _ => []
  end.

(** The kinds of a list in the order of their first occurrence. *)
Fixpoint first_occurrences (seen ks : list Kind) : list Kind :=
  match ks with
  | [] => []
  | k :: r =>
      if existsb (kind_eqb k) seen then first_occurrences seen r
      else k :: first_occurrences (k :: seen) r
  end.

(** The kinds of the parts of a content. *)
Definition has_kind (k : Kind) (ps : list PartUnion) : bool :=
  existsb (kind_eqb k) (flat_map part_kind ps).

(** The order of the parts, kind by kind. *)
Definition kinds_in_part_order (ps : list PartUnion) : list Kind :=
  first_occurrences [] (flat_map part_kind ps).

(** *** Text-only contents *)

Definition text_only_part (p : PartUnion) : bool :=
  match p with
  | PartString _ => true
  | PartObject o =>
      match text o, functionCall o, functionResponse o with
      | Some _, None, None => true
      | _, _, _ => false
      end
  end.

(** The parts of a content that are nothing but text. *)
Definition text_only (c : Content) : bool :=
  match parts c with
  | val ps => forallb text_only_part ps
  | _ => true
  end.

Definition text_only_item (item : ContentItem) : bool :=
  match item with
  | ItemString _ => true
  | ItemContent c => text_only c
  | ItemPart p => text_only_part (PartObject p)
  end.

(** The items of [request.contents], and those the loop runs over. *)
Definition all_items (request : GenerateContentParameters) : list ContentItem :=
  match contents request with
  | Single item => [item]
  | Many items => items
  end.

Definition array_items (request : GenerateContentParameters) : list ContentItem :=
  match contents request with
  | Single _ => []
  | Many items => items
  end.

(** A request whose contents hold nothing but text. *)
Definition text_only_request (request : GenerateContentParameters) : bool :=
  forallb text_only_item (all_items request).

Definition part_text (p : PartUnion) : string :=
  match p with
  | PartString s => s
  | PartObject o => match text o with Some t => t | None => EmptyString end
  end.

(** The original text of a content: the texts of its parts, in order. *)
Definition content_text (c : Content) : string :=
  String.concat EmptyString (map part_text (parts_of c)).

(** The original text of an item, and the role its messages should carry. *)
Definition item_text (item : ContentItem) : string :=
  match item with
  | ItemString s => s
  | ItemContent c => content_text c
  | ItemPart p => part_text (PartObject p)
  end.

Definition item_role (item : ContentItem) : ZhipuRole :=
  match item with
  | ItemContent c => zhipu_role (role c)
  | _ => user
  end.

(** A text as parts: one text part, none for the empty text. *)
Definition text_parts (t : string) : list ResponsePart :=
  if String.eqb t EmptyString then [] else [TextPart (JString t)].

(** A part the loop counts as text: a string, or a part with a text that is
    not empty. *)
Definition carries_text (p : PartUnion) : bool :=
  match p with
  | PartString _ => true
  | PartObject o =>
      match text o with
      | Some t => negb (String.eqb t EmptyString)
      | None => false
      end
  end.

(** The items whose text is sent, among items that hold nothing but text: a
    string, and a content that has a role and parts, one of which counts as
    text. An item of another shape, a content without a role or without
    parts, or a bare part, is passed over. *)
Definition converted_item (item : ContentItem) : bool :=
  match item with
  | ItemString _ => true
  | ItemContent c =>
      has_key (role c) && has_key (parts c) && existsb carries_text (parts_of c)
  | ItemPart _ => false
  end.

(** The message of a converted item: its mapped role and its text. *)
Definition text_message (item : ContentItem) : ZhipuMessage :=
  message (item_role item) (ContentString (item_text item)).

Definition request_of (items : list ContentItem) (tools : JSValue) : GenerateContentParameters :=
  {| contents := Many items; config_tools := tools |}.

(** The message content taken back to parts. *)
Definition back_to_parts (m : ZhipuMessage) : M (list ResponsePart) :=
  convertZhipuResponseToParts (js_of_content (msg_content m)) JUndefined.

(** *** Events *)

(** [quiet m]: the events of [m] are console output, so that it yields no
    fragment and sends no request. *)
Definition quiet {A : Type} (m : M A) : Prop := Forall console_event (events m).

(** [no_requests m]: no request among the events of [m]. *)
Definition no_requests {A : Type} (m : M A) : Prop := requests_sent (events m) = [].

(** The part a well-formed top-level tool call becomes. *)
Definition tool_call_part (toolCall : JSValue) : ResponsePart :=
  FunctionCallPart (own_prop toolCall "id")
    (own_prop (own_prop toolCall "function") "name")
    (match JSON_parse_value (own_prop (own_prop toolCall "function") "arguments") with
     | Some args => args
     | None => JObject []
     end).

(** *** Examples *)

(** Text of a JSON value, to write payloads down. *)
Definition json_text (v : JSValue) : string :=
  match JSON_stringify v with Some t => t | None => EmptyString end.

Definition delta_payload (t : string) : JSValue :=
  JObject [("choices",
            JArray [JObject [("index", JNumber "0");
                             ("delta", JObject [("content", JString t)])]])].

Definition delta_fragment (t : string) : GenerateContentResponse :=
  {| responseId := JUndefined; modelVersion := JUndefined;
     candidates := [{| index := JNumber "0"; content_role := "model";
                       content_parts := [TextPart (JString t)];
                       finishReason := FINISH_REASON_UNSPECIFIED |}];
     usageMetadata := None |}.

Definition example_lines : list string :=
  [ ("data: " ++ json_text (delta_payload "he"))%string;
    "data: {oops";
    EmptyString;
    ": keep-alive";
    ("data: " ++ json_text (delta_payload "llo"))%string ].

(** A complete response with one top-level tool call. *)
Definition tool_call (arguments : string) : JSValue :=
  JObject [("id", JString "call_1"); ("type", JString "function");
           ("function", JObject [("name", JString "get_weather");
                                 ("arguments", JString arguments)])].

Definition message_payload (content : JSValue) (tool_calls : list JSValue) : JSValue :=
  JObject [("id", JString "r1"); ("model", JString "glm-4");
           ("choices",
            JArray [JObject [("index", JNumber "0");
                             ("message", JObject [("role", JString "assistant");
                                                  ("content", content)]);
                             ("delta", JObject [("content", content)]);
                             ("finish_reason", JString "stop")]]);
           ("tool_calls", JArray tool_calls)].

(** A message content that carries a function call as an item. *)
Definition function_call_content (arguments : string) : JSValue :=
  JArray [JObject [("type", JString "function_call");
                   ("function_call",
                    JObject [("id", JString "call_1"); ("name", JString "get_weather");
                             ("arguments", JString arguments)])]].

Definition hello_request : GenerateContentParameters :=
  request_of
    [ItemContent {| role := val "user";
                    parts := val [PartObject {| text := Some "hi"; functionCall := None;
                                                functionResponse := None |}] |}]
    JUndefined.

(** A vendor that answers every request with the given JSON. *)
Definition answering (v : JSValue) (request : ZhipuRequest) : FetchResult :=
  Responded {| ok := true; status_line := "200 OK"; json := Some v; body := None |}.

(** A content whose function call comes before its text. *)
Definition weather_call : FunctionCall :=
  {| fc_id := Some "call_1"; fc_name := Some "get_weather";
     fc_args := JObject [("city", JString "Paris")] |}.

Definition call_then_text : Content :=
  {| role := val "model";
     parts := val [PartObject {| text := None; functionCall := Some weather_call;
                                 functionResponse := None |};
                   PartObject {| text := Some "done"; functionCall := None;
                                 functionResponse := None |}] |}.

(** Contents with text parts only, one of them with no text. *)
Definition text_part (t : string) : PartUnion :=
  PartObject {| text := Some t; functionCall := None; functionResponse := None |}.

(** Text that is not sent: a content without a role, and a bare part. *)
Definition passed_over : list ContentItem :=
  [ ItemContent {| role := absent; parts := val [PartString "hi"] |};
    ItemPart {| text := Some "hi"; functionCall := None; functionResponse := None |} ].

Definition text_contents : list Content :=
  [ {| role := val "user"; parts := val [PartString "Hello, "; text_part "world"] |};
    {| role := val "model"; parts := val [text_part EmptyString] |};
    {| role := val "system"; parts := val [text_part "be brief"] |} ].

(** The text of [example_lines] and the sentinel, cut in the middle of lines. *)
Definition example_chunks : list string :=
  [ "data: {";
    slice 7 (unlines example_lines);
    "data: [D"; "ONE]" ].

End Spec.

(** ** embedContent *)
Module Embedding.
Import JS Zhipu.
Local Open Scope js_scope.

(** [input: string | string[]] *)
Inductive EmbeddingInput : Type :=
| InputString (s : string)
| InputStrings (l : list string).

Record ZhipuEmbeddingRequest : Type := {
  embedding_model : string;
  input : EmbeddingInput
}.

Record ContentEmbedding : Type := { values : JSValue }.

Record EmbedContentResponse : Type := { embeddings : list ContentEmbedding }.

(** [this.embeddingModel], set by the constructor. *)
Definition embeddingModel : string := "embedding-2".

(** [this.isTextPart(part) ? part.text : typeof part === 'string' ? part : ''];
    a text that is [undefined] joins as the empty string. *)
Definition embedded_text (part : PartUnion) : string :=
  match part with
  | PartObject p => match text p with Some t => t | None => EmptyString end
  | PartString s => s
  end.

(** [content.parts.map(...).join('')], for a content that has the key. *)
Definition joined_parts (ps : prop (list PartUnion)) : M string :=
  match ps with
  | val l => ret (String.concat EmptyString (map embedded_text l))
  | _ => throw TypeError
  end.

(** The callback of [request.contents.map]. *)
Definition item_input (content : ContentItem) : M string :=
  match content with
  | ItemString s => ret s
  | ItemContent c => if has_key (parts c) then joined_parts (parts c) else ret EmptyString
  | ItemPart _ => ret EmptyString
  end.

(** The [input] of the request, from [request.contents]. *)
Definition embedding_input (contents : ContentListUnion) : M EmbeddingInput :=
  match contents with
  | Many items => l <- mapM item_input items ;; ret (InputStrings l)
  | Single (ItemString s) => ret (InputString s)
  | Single (ItemContent c) =>
      if has_key (parts c) then t <- joined_parts (parts c) ;; ret (InputString t)
      else ret (InputString EmptyString)
  | Single (ItemPart _) => ret (InputString EmptyString)
  end.

Definition embedContent (fetch : ZhipuEmbeddingRequest -> FetchResult)
    (contents : ContentListUnion) : M EmbedContentResponse :=
  try_catch
    (i <- embedding_input contents ;;
     match fetch {| embedding_model := embeddingModel; input := i |} with
     | Rejected e => throw e
     | Responded response =>
         if negb (ok response) then
           throw (Error (String.append "Zhipu Embedding API error: " (status_line response))
                    None)
         else
           zhipuResponse <- match json response with
                            | Some v => ret v
                            | None => throw SyntaxError
                            end ;;
           data <- get zhipuResponse "data" ;;
           l <- array_map data (fun item =>
                  e <- get item "embedding" ;; ret {| values := e |}) ;;
           ret {| embeddings := l |}
     end)
    (fun error => throw (Error "Zhipu Embedding API error: " (Some error))).

(** [countTokens]: no request is made. *)
Definition countTokens : M nat := ret 0.

End Embedding.

(** ** The generator without tools *)
Module Simple.
Import JS Zhipu.
Local Open Scope js_scope.

(** [part => this.isTextPart(part) ? part.text : (typeof part === 'string' ? part : '')] *)
Definition part_string (part : PartUnion) : string :=
  match part with
  | PartObject p => match text p with Some t => t | None => EmptyString end
  | PartString s => s
  end.

(** The callback of [contents.map]. *)
Definition message_of (content : ContentItem) : ZhipuMessage :=
  match content with
  | ItemString s => {| msg_role := user; msg_content := ContentString s |}
  | ItemContent c =>
      {| msg_role := zhipu_role (role c);
         msg_content :=
           ContentString
             (match parts c with
              | val ps => String.concat EmptyString (map part_string ps)
              | _ => EmptyString
              end) |}
  | ItemPart _ => {| msg_role := system; msg_content := ContentString EmptyString |}
  end.

(** [!request.contents]: of the values the type allows, only the empty string
    is falsy. *)
Definition no_contents (contents : ContentListUnion) : bool :=
  match contents with
  | Single (ItemString s) => String.eqb s EmptyString
  | _ => false
  end.

Definition convertToZhipuFormat (request : GenerateContentParameters) : list ZhipuMessage :=
  if no_contents (contents request) then []
  else
    map message_of
      (match contents request with
       | Many items => items
       | Single item => [item]
       end).

(** The candidate of a choice: always one text part. *)
Definition candidate_of (choice : JSValue) : M Candidate :=
  i <- get choice "index" ;;
  message <- get choice "message" ;;
  reason <- get choice "finish_reason" ;;
  ret {| index := i; content_role := "model";
         content_parts := [TextPart (or_else (get_opt message "content") (JString EmptyString))];
         finishReason := mapZhipuFinishReason reason |}.

Definition generateContent (this_model : string) (fetch : ZhipuRequest -> FetchResult)
    (request : GenerateContentParameters) : M GenerateContentResponse :=
  try_catch
    (let zhipuRequest := {| model := this_model; messages := convertToZhipuFormat request;
                            stream := false; tools := None |} in
     emit (Fetch zhipuRequest) ;;
     match fetch zhipuRequest with
     | Rejected e => throw e
     | Responded response =>
         if negb (ok response) then
           throw (Error (String.append "Zhipu API error: " (status_line response)) None)
         else
           zhipuResponse <- match json response with
                            | Some v => ret v
                            | None => throw SyntaxError
                            end ;;
           i <- get zhipuResponse "id" ;;
           m <- get zhipuResponse "model" ;;
           choices <- get zhipuResponse "choices" ;;
           cs <- array_map choices candidate_of ;;
           u <- usage_of zhipuResponse ;;
           emit (LogApiResponse u None) ;;
           ret {| responseId := i; modelVersion := m; candidates := cs; usageMetadata := u |}
     end)
    (fun error =>
       emit (LogApiResponse None (Some error)) ;;
       throw (Error "Zhipu API error: " (Some error))).

End Simple.

(** ** The auth dialog: what is shown and what can happen *)
Module AuthFlow.
Import AuthDialog.

(** What the component returns. *)
Inductive View : Type :=
| KeyPromptOpenAI
| KeyPromptZhipu
| AuthList.

Definition view (st : State) : View :=
  if showOpenAIKeyPrompt st then KeyPromptOpenAI
  else if showZhipuKeyPrompt st then KeyPromptZhipu
  else AuthList.

(** What the user can do: press a key (the input hook is always mounted),
    pick an item of the list, submit or cancel a key prompt. *)
Inductive Action : Type :=
| Press (key : Key)
| Pick (authMethod : AuthType)
| SubmitOpenAIKey (apiKey baseUrl model : string)
| CancelOpenAIKey
| SubmitZhipuKey (apiKey : string) (model : option string)
| CancelZhipuKey.

(** The values of [items]. *)
Definition listed (a : AuthType) : bool := is_openai a || is_zhipu a.

(** An action is possible when the component that offers it is rendered. *)
Definition possible (st : State) (act : Action) : bool :=
  match act, view st with
  | Press _, _ => true
  | Pick a, AuthList => listed a
  | SubmitOpenAIKey _ _ _, KeyPromptOpenAI => true
  | CancelOpenAIKey, KeyPromptOpenAI => true
  | SubmitZhipuKey _ _, KeyPromptZhipu => true
  | CancelZhipuKey, KeyPromptZhipu => true
  | _, _ => false
  end.

Definition handle (env : Env) (st : State) (act : Action) : State * list Call :=
  match act with
  | Press key => useInput env st key
  | Pick a => handleAuthSelect env st a
  | SubmitOpenAIKey k u m => handleOpenAIKeySubmit st k u m
  | CancelOpenAIKey => handleOpenAIKeyCancel st
  | SubmitZhipuKey k m => handleZhipuKeySubmit st k m
  | CancelZhipuKey => handleZhipuKeyCancel st
  end.

(** The states the dialog can be in. *)
Inductive reachable (env : Env) (initialErrorMessage : option string) : State -> Prop :=
| reachable_initial : reachable env initialErrorMessage (initial initialErrorMessage)
| reachable_step (st : State) (act : Action) :
    reachable env initialErrorMessage st ->
    possible st act = true ->
    reachable env initialErrorMessage (fst (handle env st act)).

(** The [onSelect] calls among the calls of a handler. *)
Definition selections (calls : list Call) : list (option AuthType) :=
  flat_map (fun c => match c with onSelect a _ => [a] | _ => [] end) calls.

(** A user with nothing configured and no key, for whom no method validates. *)
Definition keyless_user : Env :=
  {| selectedAuthType := None;
     validateAuthMethod := fun _ => Some "API key not found.";
     OPENAI_API_KEY := None;
     ZHIPU_API_KEY := None |}.

End AuthFlow.

(** ** The auth dialog: the item selected at first *)
Module InitialIndex.

Section Enumeration.
(** The values of the members of [AuthType], declared in the core package. *)
Variables USE_OPENAI USE_ZHIPU USE_GEMINI LOGIN_WITH_GOOGLE : string.
(** [Object.values(AuthType)] *)
Variable auth_values : list string.

Definition truthy_string (o : option string) : bool :=
  match o with
  | Some s => negb (String.eqb s EmptyString)
  | None => false
  end.

Definition parseDefaultAuthType (defaultAuthType : option string) : option string :=
  match defaultAuthType with
  | Some s =>
      if negb (String.eqb s EmptyString) && existsb (String.eqb s) auth_values
      then Some s else None
  | None => None
  end.

(** The values of [items]. *)
Definition items : list string := [USE_OPENAI; USE_ZHIPU].

(** [array.findIndex(p)]: the first index where [p] holds, or -1. *)
Fixpoint findIndex (p : string -> bool) (l : list string) : Z :=
  match l with
  | [] => (-1)%Z
  | x :: r =>
      if p x then 0%Z
      else match findIndex p r with
           | Zneg _ => (-1)%Z
           | i => (i + 1)%Z
           end
  end.

(** The callback of [items.findIndex]. *)
Definition chosen (selectedAuthType GEMINI_DEFAULT_AUTH_TYPE GEMINI_API_KEY : option string)
    (value : string) : bool :=
  if truthy_string selectedAuthType then
    match selectedAuthType with
    | Some s => String.eqb value s
    | None => false
    end
  else
    match parseDefaultAuthType GEMINI_DEFAULT_AUTH_TYPE with
    | Some d => String.eqb value d
    | None =>
        if truthy_string GEMINI_API_KEY then String.eqb value USE_GEMINI
        else String.eqb value LOGIN_WITH_GOOGLE
    end.

Definition initialAuthIndex
    (selectedAuthType GEMINI_DEFAULT_AUTH_TYPE GEMINI_API_KEY : option string) : Z :=
  Z.max 0 (findIndex (chosen selectedAuthType GEMINI_DEFAULT_AUTH_TYPE GEMINI_API_KEY) items).

(** The value the callback compares the items with. *)
Definition wanted (selectedAuthType GEMINI_DEFAULT_AUTH_TYPE GEMINI_API_KEY : option string)
  : string :=
  if truthy_string selectedAuthType then
    match selectedAuthType with Some s => s | None => EmptyString end
  else
    match parseDefaultAuthType GEMINI_DEFAULT_AUTH_TYPE with
    | Some d => d
    | None => if truthy_string GEMINI_API_KEY then USE_GEMINI else LOGIN_WITH_GOOGLE
    end.

End Enumeration.

End InitialIndex.

(** ** More vocabulary *)
Module Spec2.
Import JS Zhipu Spec.
Local Open Scope js_scope.

(** The telemetry events among the events of a call. *)
Definition telemetry (evs : list Event) : list (option UsageMetadata * option JSError) :=
  flat_map (fun ev => match ev with LogApiResponse u e => [(u, e)] | _ => [] end) evs.

(** The releases of the reader among the events of a run. *)
Definition releases (evs : list Event) : nat :=
  List.length (filter (fun ev => match ev with ReleaseLock => true | _ => false end) evs).

(** What a run of the generator produces before it releases the reader:
    console output and fragments. *)
Definition stream_event (ev : Event) : Prop :=
  match ev with
  | ConsoleLog _ _ | ConsoleError _ _ | Yield _ => True
  | _ => False
  end.

(** [reports m]: a call that succeeds reports the usage it returns, once; a
    call that throws has reported nothing yet. *)
Definition reports (m : M GenerateContentResponse) : Prop :=
  telemetry (events m) =
  match outcome m with
  | Ok r => [(usageMetadata r, None)]
  | Throw _ => []
  end.

(** A candidate carries what its choice holds. *)
Definition carries (choice : JSValue) (c : Candidate) : Prop :=
  index c = own_prop choice "index" /\
  content_role c = "model" /\
  finishReason c = mapZhipuFinishReason (own_prop choice "finish_reason").

(** The usage counters of a response, copied when [usage] is truthy. *)
Definition copied_usage (v : JSValue) : option UsageMetadata :=
  if truthy (own_prop v "usage") then
    Some {| promptTokenCount := own_prop (own_prop v "usage") "prompt_tokens";
            candidatesTokenCount := own_prop (own_prop v "usage") "completion_tokens";
            totalTokenCount := own_prop (own_prop v "usage") "total_tokens" |}
  else None.

(** The tool a declaration becomes. *)
Definition tool_of (funcDecl : JSValue) : ZhipuTool :=
  {| tool_name := own_prop funcDecl "name";
     tool_description := or_else (own_prop funcDecl "description") (JString EmptyString);
     tool_parameters := or_else (own_prop funcDecl "parameters") (JObject []) |}.

(** The part a function response comes back as: its payload is the text that
    was sent, the string itself or its JSON. *)
Definition response_text (fr : FunctionResponse) : option string :=
  match fr_response fr with
  | JString s => Some s
  | r => JSON_stringify r
  end.

Definition response_part_back (fr : FunctionResponse) : ResponsePart :=
  FunctionResponsePart (js_of_option (fr_id fr)) (js_of_option (fr_name fr))
    (js_of_option (response_text fr)).

(** The arguments a function call comes back with: the JSON of its arguments,
    parsed again. *)
Definition call_arguments (fc : FunctionCall) : option JSValue :=
  JSON_parse_value (js_of_option (JSON_stringify (fc_args fc))).

Definition call_part_back (fc : FunctionCall) (args : JSValue) : ResponsePart :=
  FunctionCallPart (js_of_option (fc_id fc)) (js_of_option (fc_name fc)) args.

(** Function calls with and without arguments. *)
Definition call_without_args : FunctionCall :=
  {| fc_id := None; fc_name := Some "now"; fc_args := JUndefined |}.

(** A streamed payload with text, and a tool call that has no [function]. *)
Definition nameless_payload : JSValue :=
  JObject [("choices",
            JArray [JObject [("index", JNumber "0");
                             ("delta", JObject [("content", JString "he")])]]);
           ("tool_calls", JArray [JObject [("id", JString "call_1")]])].

(** A tool declaration list as the adapter reads it, and as the library
    types it. *)
(** A declaration the conversion accepts: it is not [null] or [undefined],
    and its name can be printed. *)
Definition printable_declaration (funcDecl : JSValue) : bool :=
  negb (is_nullish funcDecl) && printable (own_prop funcDecl "name").

(** A declaration whose name has a [toString] of its own. *)
Definition unprintable_declaration : JSValue :=
  JObject [("name", JObject [("toString", JNumber "0")])].

Definition weather_declaration : JSValue :=
  JObject [("name", JString "get_weather");
           ("parameters", JObject [("type", JString "object")])].

Definition tools_object : JSValue :=
  JObject [("functionDeclarations", JArray [weather_declaration])].

Definition tools_array : JSValue := JArray [tools_object].

(** The text embedded for an item of the contents: a string as it is, the
    joined text of a content, nothing for a bare part. *)
Definition embedded (item : ContentItem) : string :=
  match item with
  | ItemString s => s
  | ItemContent c => content_text c
  | ItemPart _ => EmptyString
  end.

(** A content whose [parts] key holds [undefined] has no parts to map. *)
Definition parts_defined (item : ContentItem) : bool :=
  match item with
  | ItemContent c => match parts c with undef => false | _ => true end
  | _ => true
  end.

Definition embedding_error (cause : JSError) : JSError :=
  Error "Zhipu Embedding API error: " (Some cause).

(** A request of embeddings and an answer to it. *)
Definition embedding_answer : HttpResponse :=
  {| ok := true; status_line := "200 OK";
     json := Some (JObject [("data",
                             JArray [JObject [("embedding",
                                               JArray [JNumber "1"; JNumber "2"])]])]);
     body := None |}.

Definition bare_part : Part :=
  {| text := Some "lost"; functionCall := None; functionResponse := None |}.

Definition greeting : Content :=
  {| role := val "user";
     parts := val [PartObject {| text := Some "good "; functionCall := None;
                                 functionResponse := None |};
                   PartString "day"] |}.


(** The one part of a candidate of the generator without tools. *)
Definition only_part (choice : JSValue) : ResponsePart :=
  TextPart (or_else (get_opt (own_prop choice "message") "content") (JString EmptyString)).

End Spec2.

(** ** Facts about the effect monad *)
Import JS Zhipu Spec.
Unset Implicit Arguments.
Local Open Scope js_scope.

Section MonadLaws.
Context {A B C : Type}.

Lemma bind_ret_l (a : A) (k : A -> M B) : bind (ret a) k = k a.
Proof. unfold bind, ret. destruct (k a). reflexivity. Qed.

Lemma bind_ret_r (m : M A) : bind m ret = m.
Proof.
  destruct m as [evs [a | e]]; cbn; [rewrite app_nil_r|]; reflexivity.
Qed.

Lemma bind_assoc (m : M A) (k : A -> M B) (h : B -> M C) :
  bind (bind m k) h = bind m (fun a => bind (k a) h).
Proof.
  destruct m as [evs [a | e]]; cbn; [|reflexivity].
  destruct (k a) as [evs1 [b | e1]]; cbn; [|reflexivity].
  destruct (h b) as [evs2 r]. rewrite app_assoc. reflexivity.
Qed.

Lemma bind_throw (e : JSError) (k : A -> M B) : bind (throw e) k = throw e.
Proof. reflexivity. Qed.

Lemma events_bind (m : M A) (k : A -> M B) :
  events (bind m k) =
  events m ++ match outcome m with Ok a => events (k a) | Throw _ => [] end.
Proof.
  destruct m as [evs [a | e]]; cbn; [|rewrite app_nil_r; reflexivity].
  destruct (k a). reflexivity.
Qed.

Lemma outcome_bind (m : M A) (k : A -> M B) :
  outcome (bind m k) =
  match outcome m with Ok a => outcome (k a) | Throw e => Throw e end.
Proof.
  destruct m as [evs [a | e]]; cbn; [|reflexivity].
  destruct (k a). reflexivity.
Qed.
End MonadLaws.

Lemma forM_app {A : Type} (f : A -> M unit) (l1 l2 : list A) :
  forM f (l1 ++ l2) = (forM f l1 ;; forM f l2).
Proof.
  induction l1 as [|x l1 IH]; cbn [forM app].
  - rewrite bind_ret_l. reflexivity.
  - rewrite bind_assoc. rewrite IH. reflexivity.
Qed.

(** ** Facts about splitting into lines *)

Lemma split_nl_nonempty (s : string) : split_nl s <> [].
Proof.
  destruct s as [|c s]; cbn [split_nl]; [intro H; discriminate H|].
  destruct (Ascii.eqb c nl); [intro H; discriminate H|].
  destruct (split_nl s); intro H; discriminate H.
Qed.

Lemma split_nl_cons (c : ascii) (s : string) :
  Ascii.eqb c nl = false ->
  split_nl (String c s) =
  String c (hd EmptyString (split_nl s)) :: tl (split_nl s).
Proof.
  intros Hc. cbn [split_nl]. rewrite Hc.
  destruct (split_nl s) eqn:E; [|reflexivity].
  exfalso. exact (split_nl_nonempty s E).
Qed.

Lemma split_nl_no_newline (s : string) :
  has_newline s = false -> split_nl s = [s].
Proof.
  induction s as [|c s IH]; cbn [split_nl has_newline]; [reflexivity|].
  intros H. apply orb_false_iff in H. destruct H as [Hc Hs].
  rewrite Hc, (IH Hs). reflexivity.
Qed.

(** What follows the last newline holds no newline. *)
Lemma remainder_no_newline (s : string) : has_newline (remainder s) = false.
Proof.
  unfold remainder. induction s as [|c s IH]; [reflexivity|].
  destruct (Ascii.eqb c nl) eqn:Hc.
  - cbn [split_nl]. rewrite Hc.
    destruct (split_nl s) eqn:E; [exfalso; exact (split_nl_nonempty s E)|].
    exact IH.
  - rewrite (split_nl_cons c s Hc).
    destruct (split_nl s) as [|h [|h' t]] eqn:E.
    + exfalso; exact (split_nl_nonempty s E).
    + cbn [hd tl last has_newline] in *. rewrite Hc, IH. reflexivity.
    + exact IH.
Qed.

(** Splitting a text that arrives in two pieces: the lines the first piece
    completes, then the lines of the rest of the first piece followed by the
    second. *)
Lemma split_nl_app (a b : string) :
  split_nl (a ++ b) = complete_lines a ++ split_nl (remainder a ++ b).
Proof.
  unfold complete_lines, remainder.
  induction a as [|c a IH]; [reflexivity|].
  change (String c a ++ b)%string with (String c (a ++ b)).
  destruct (Ascii.eqb c nl) eqn:Hc.
  - cbn [split_nl]. rewrite Hc, IH.
    destruct (split_nl a) eqn:E; [exfalso; exact (split_nl_nonempty a E)|].
    reflexivity.
  - rewrite (split_nl_cons c (a ++ b) Hc), (split_nl_cons c a Hc), IH.
    destruct (split_nl a) as [|h [|h' t]] eqn:E.
    + exfalso; exact (split_nl_nonempty a E).
    + cbn [removelast last hd tl app].
      change (String c h ++ b)%string with (String c (h ++ b)).
      rewrite (split_nl_cons c (h ++ b) Hc). reflexivity.
    + reflexivity.
Qed.

Lemma string_app_assoc (a b c : string) : ((a ++ b) ++ c = a ++ (b ++ c))%string.
Proof. induction a as [|x a IH]; cbn; [reflexivity|]. rewrite IH. reflexivity. Qed.

Lemma string_app_nil_r (a : string) : (a ++ EmptyString)%string = a.
Proof. induction a as [|x a IH]; cbn; [reflexivity|]. rewrite IH. reflexivity. Qed.

Lemma complete_lines_app (a b : string) :
  complete_lines (a ++ b) = complete_lines a ++ complete_lines (remainder a ++ b).
Proof.
  unfold complete_lines at 1. rewrite split_nl_app.
  apply removelast_app, split_nl_nonempty.
Qed.

Lemma last_app_nonempty {A : Type} (l1 l2 : list A) (d : A) :
  l2 <> [] -> last (l1 ++ l2) d = last l2 d.
Proof.
  intros H. induction l1 as [|x l1 IH]; [reflexivity|].
  cbn [app last]. destruct (l1 ++ l2) eqn:E; [|exact IH].
  apply app_eq_nil in E. destruct E as [_ E]. contradiction.
Qed.

Lemma remainder_app (a b : string) :
  remainder (a ++ b) = remainder (remainder a ++ b).
Proof.
  unfold remainder at 1. rewrite split_nl_app.
  apply last_app_nonempty, split_nl_nonempty.
Qed.

(** A line without a newline, ended by one, is the first line of the text. *)
Lemma split_nl_line (l rest : string) :
  has_newline l = false ->
  split_nl (l ++ String nl rest) = l :: split_nl rest.
Proof.
  induction l as [|c l IH]; cbn [has_newline]; intros H.
  - cbn [append split_nl]. rewrite Ascii.eqb_refl. reflexivity.
  - apply orb_false_iff in H. destruct H as [Hc Hl].
    change (String c l ++ String nl rest)%string with (String c (l ++ String nl rest)).
    rewrite (split_nl_cons c _ Hc), (IH Hl). reflexivity.
Qed.

Lemma split_nl_unlines (ls : list string) (rest : string) :
  forallb (fun l => negb (has_newline l)) ls = true ->
  split_nl (unlines ls ++ rest) = ls ++ split_nl rest.
Proof.
  induction ls as [|l ls IH]; cbn [unlines forallb]; intros H; [reflexivity|].
  apply andb_true_iff in H. destruct H as [Hl Hls].
  rewrite string_app_assoc.
  change (String nl (unlines ls) ++ rest)%string with (String nl (unlines ls ++ rest)).
  rewrite split_nl_line by (now apply negb_true_iff).
  rewrite (IH Hls). reflexivity.
Qed.

(** ** Computations that only write to the console *)

Lemma yields_app (a b : list Event) : yields (a ++ b) = yields a ++ yields b.
Proof. apply flat_map_app. Qed.

Lemma requests_sent_app (a b : list Event) :
  requests_sent (a ++ b) = requests_sent a ++ requests_sent b.
Proof. apply flat_map_app. Qed.

Lemma quiet_yields {A : Type} (m : M A) : quiet m -> yields (events m) = [].
Proof.
  unfold quiet. induction 1 as [|ev evs Hev _ IH]; [reflexivity|].
  cbn [yields flat_map]. fold (yields evs). rewrite IH.
  destruct ev; try contradiction; reflexivity.
Qed.

Lemma quiet_requests {A : Type} (m : M A) : quiet m -> requests_sent (events m) = [].
Proof.
  unfold quiet. induction 1 as [|ev evs Hev _ IH]; [reflexivity|].
  cbn [requests_sent flat_map]. fold (requests_sent evs). rewrite IH.
  destruct ev; try contradiction; reflexivity.
Qed.

Lemma quiet_ret {A : Type} (a : A) : quiet (ret a).
Proof. constructor. Qed.

Lemma quiet_throw {A : Type} (e : JSError) : quiet (@throw A e).
Proof. constructor. Qed.

Lemma quiet_log (t : string) (vs : list JSValue) : quiet (emit (ConsoleLog t vs)).
Proof. repeat constructor. Qed.

Lemma quiet_error (t : string) (e : JSError) : quiet (emit (ConsoleError t e)).
Proof. repeat constructor. Qed.

Lemma quiet_bind {A B : Type} (m : M A) (k : A -> M B) :
  quiet m -> (forall a, quiet (k a)) -> quiet (bind m k).
Proof.
  unfold quiet. intros Hm Hk. rewrite events_bind. apply Forall_app. split; [exact Hm|].
  destruct (outcome m); [apply Hk | constructor].
Qed.

Lemma quiet_try_catch {A : Type} (m : M A) (h : JSError -> M A) :
  quiet m -> (forall e, quiet (h e)) -> quiet (try_catch m h).
Proof.
  unfold quiet. intros Hm Hh. destruct m as [evs [a | e]]; [exact Hm|].
  specialize (Hh e). unfold try_catch. destruct (h e) as [evs' r].
  unfold events in *. cbn [fst] in *. apply Forall_app. split; assumption.
Qed.

Lemma quiet_mapM {A B : Type} (f : A -> M B) (l : list A) :
  (forall a, quiet (f a)) -> quiet (mapM f l).
Proof.
  intros Hf. induction l as [|x l IH]; cbn [mapM]; [apply quiet_ret|].
  apply quiet_bind; [apply Hf|]. intros y.
  apply quiet_bind; [exact IH|]. intros ys. apply quiet_ret.
Qed.

Lemma quiet_forM {A : Type} (f : A -> M unit) (l : list A) :
  (forall a, quiet (f a)) -> quiet (forM f l).
Proof.
  intros Hf. induction l as [|x l IH]; cbn [forM]; [apply quiet_ret|].
  apply quiet_bind; [apply Hf|]. intros _. exact IH.
Qed.

Lemma quiet_foldM {A S : Type} (f : S -> A -> M S) (l : list A) (s : S) :
  (forall s a, quiet (f s a)) -> quiet (foldM f l s).
Proof.
  intros Hf. revert s. induction l as [|x l IH]; intros s; cbn [foldM]; [apply quiet_ret|].
  apply quiet_bind; [apply Hf|]. intros s'. apply IH.
Qed.

Lemma quiet_get (v : JSValue) (k : string) : quiet (get v k).
Proof. unfold get. destruct (is_nullish v); constructor. Qed.

Lemma quiet_ToString (v : JSValue) : quiet (ToString v).
Proof. unfold ToString. destruct (printable v); constructor. Qed.

Lemma quiet_truthy_with_length (v : JSValue) : quiet (truthy_with_length v).
Proof.
  unfold truthy_with_length, length_gt0, gt0.
  destruct (truthy v); [|constructor].
  destruct v; try constructor; destruct (printable _); constructor.
Qed.

Lemma quiet_parse (v : JSValue) : quiet (JSON_parse_or_throw v).
Proof.
  unfold JSON_parse_or_throw. apply quiet_bind; [apply quiet_ToString|].
  intros text. destruct (JSON_parse text); constructor.
Qed.

Lemma quiet_iterate (v : JSValue) : quiet (iterate v).
Proof. destruct v; constructor. Qed.

Create HintDb quiet.

#[local] Hint Resolve quiet_ret quiet_throw quiet_log quiet_error quiet_get quiet_parse
  quiet_iterate quiet_ToString quiet_truthy_with_length : quiet.

(** Splits a computation along its binds and branches, closing the leaves. *)
Ltac quiet_steps :=
  repeat first
    [ progress auto with quiet
    | apply quiet_bind; [|intros]
    | apply quiet_try_catch; [|intros]
    | apply quiet_mapM; intros
    | apply quiet_forM; intros
    | apply quiet_foldM; intros
    | match goal with
      | |- quiet (if ?b then _ else _) => destruct b
      | |- quiet (match ?x with _ => _ end) => destruct x
      end ].

Lemma quiet_array_map {B : Type} (v : JSValue) (f : JSValue -> M B) :
  (forall x, quiet (f x)) -> quiet (array_map v f).
Proof. intros Hf. destruct v; cbn [array_map]; quiet_steps. Qed.

Lemma quiet_array_forEach (v : JSValue) (f : JSValue -> nat -> M unit) :
  (forall x i, quiet (f x i)) -> quiet (array_forEach v f).
Proof. intros Hf. destruct v; cbn [array_forEach]; quiet_steps. Qed.

Lemma quiet_push_content_item (ps : list ResponsePart) (item : JSValue) :
  quiet (push_content_item ps item).
Proof. unfold push_content_item. quiet_steps. Qed.

Lemma quiet_push_tool_call (ps : list ResponsePart) (toolCall : JSValue) :
  quiet (push_tool_call ps toolCall).
Proof. unfold push_tool_call. quiet_steps. Qed.

#[local] Hint Resolve quiet_push_content_item quiet_push_tool_call : quiet.

Lemma quiet_convertZhipuResponseToParts (content toolCalls : JSValue) :
  quiet (convertZhipuResponseToParts content toolCalls).
Proof. unfold convertZhipuResponseToParts. quiet_steps. Qed.

#[local] Hint Resolve quiet_convertZhipuResponseToParts : quiet.

Lemma quiet_usage_of (v : JSValue) : quiet (usage_of v).
Proof. unfold usage_of. quiet_steps. Qed.

Lemma quiet_message_candidate (v choice : JSValue) : quiet (message_candidate v choice).
Proof. unfold message_candidate. quiet_steps. Qed.

Lemma quiet_delta_candidate (choice : JSValue) : quiet (delta_candidate choice).
Proof. unfold delta_candidate, convertZhipuContentToParts. quiet_steps. Qed.

Lemma quiet_log_tool_calls (r e : string) (n : option string) (v : JSValue) :
  quiet (log_tool_calls r e n v).
Proof.
  unfold log_tool_calls. quiet_steps.
  apply quiet_array_forEach. intros. quiet_steps.
Qed.

#[local] Hint Resolve quiet_usage_of quiet_message_candidate quiet_delta_candidate
  quiet_log_tool_calls : quiet.

Lemma quiet_fragment_response (v : JSValue) : quiet (fragment_response v).
Proof.
  unfold fragment_response. quiet_steps.
  apply quiet_array_map. intros. quiet_steps.
Qed.

Lemma quiet_final_response (v : JSValue) : quiet (final_response v).
Proof.
  unfold final_response. quiet_steps.
  apply quiet_array_map. intros. quiet_steps.
Qed.

Lemma quiet_extractToolsFromRequest (request : GenerateContentParameters) :
  quiet (extractToolsFromRequest request).
Proof. unfold extractToolsFromRequest. quiet_steps. Qed.

(** ** The stream generator, line by line *)

(** A [try] block that ends by yielding what it built, with a handler that
    logs: it never throws, and it yields exactly when the block succeeds. *)
Lemma try_yield_run (m : M GenerateContentResponse) (t : string) :
  try_catch (r <- m ;; emit (Yield r)) (fun e => emit (ConsoleError t e)) =
  (events m ++ match outcome m with
               | Ok r => [Yield r]
               | Throw e => [ConsoleError t e]
               end, Ok tt).
Proof. destruct m as [evs [r | e]]; reflexivity. Qed.

Lemma parse_string_or_throw (data : string) :
  JSON_parse_or_throw (JString data) =
  match JSON_parse data with Some v => ret v | None => throw SyntaxError end.
Proof. unfold JSON_parse_or_throw, ToString. cbn [printable to_string]. apply bind_ret_l. Qed.

Lemma stream_fragment_bind (data : string) :
  stream_fragment data =
  (r <- (v <- JSON_parse_or_throw (JString data) ;; fragment_response v) ;; emit (Yield r)).
Proof. unfold stream_fragment. rewrite bind_assoc. reflexivity. Qed.

Lemma final_fragment_bind (trimmed : string) :
  final_fragment trimmed =
  (r <- (v <- JSON_parse_or_throw (JString trimmed) ;; final_response v) ;; emit (Yield r)).
Proof. unfold final_fragment. rewrite bind_assoc. reflexivity. Qed.

(** What the loop does with one line. *)
Lemma process_line_run (line : string) :
  process_line line =
  if startsWith "data: " line then
    if String.eqb (slice 6 line) "[DONE]" then ret tt
    else
      match JSON_parse (slice 6 line) with
      | Some v =>
          (events (fragment_response v) ++
           match outcome (fragment_response v) with
           | Ok r => [Yield r]
           | Throw e => [ConsoleError "Error parsing Zhipu streaming response:" e]
           end, Ok tt)
      | None => ([ConsoleError "Error parsing Zhipu streaming response:" SyntaxError], Ok tt)
      end
  else ret tt.
Proof.
  unfold process_line.
  destruct (startsWith "data: " line); [|reflexivity].
  destruct (String.eqb (slice 6 line) "[DONE]"); [reflexivity|].
  rewrite stream_fragment_bind, try_yield_run, parse_string_or_throw.
  destruct (JSON_parse (slice 6 line)) as [v|]; [|reflexivity].
  rewrite bind_ret_l. reflexivity.
Qed.

Lemma process_line_outcome (line : string) : outcome (process_line line) = Ok tt.
Proof.
  rewrite process_line_run.
  destruct (startsWith "data: " line); [|reflexivity].
  destruct (String.eqb (slice 6 line) "[DONE]"); [reflexivity|].
  destruct (JSON_parse (slice 6 line)); reflexivity.
Qed.

Lemma yields_process_line (line : string) :
  yields (events (process_line line)) = line_fragments line.
Proof.
  rewrite process_line_run. unfold line_fragments.
  destruct (startsWith "data: " line); [|reflexivity].
  destruct (String.eqb (slice 6 line) "[DONE]"); [reflexivity|].
  destruct (JSON_parse (slice 6 line)) as [v|]; [|reflexivity].
  unfold events at 1. cbn [fst]. rewrite yields_app, (quiet_yields _ (quiet_fragment_response v)).
  destruct (outcome (fragment_response v)); reflexivity.
Qed.

Lemma forM_process_line_outcome (ls : list string) :
  outcome (forM process_line ls) = Ok tt.
Proof.
  induction ls as [|l ls IH]; cbn [forM]; [reflexivity|].
  rewrite outcome_bind, process_line_outcome. exact IH.
Qed.

Lemma forM_process_line_events (ls : list string) :
  events (forM process_line ls) = flat_map (fun l => events (process_line l)) ls.
Proof.
  induction ls as [|l ls IH]; cbn [forM flat_map]; [reflexivity|].
  rewrite events_bind, process_line_outcome, IH. reflexivity.
Qed.

Lemma yields_forM_process_line (ls : list string) :
  yields (events (forM process_line ls)) = flat_map line_fragments ls.
Proof.
  rewrite forM_process_line_events.
  induction ls as [|l ls IH]; cbn [flat_map]; [reflexivity|].
  rewrite yields_app, yields_process_line, IH. reflexivity.
Qed.

(** What the end of the stream does with the buffer. *)
Lemma flush_run (buffer : string) :
  flush buffer =
  if String.eqb (trim buffer) EmptyString then ret tt
  else
    match JSON_parse (trim buffer) with
    | Some v =>
        (events (final_response v) ++
         match outcome (final_response v) with
         | Ok r => [Yield r]
         | Throw e => [ConsoleError "Error parsing final Zhipu response:" e]
         end, Ok tt)
    | None => ([ConsoleError "Error parsing final Zhipu response:" SyntaxError], Ok tt)
    end.
Proof.
  unfold flush.
  destruct (String.eqb (trim buffer) EmptyString); [reflexivity|].
  cbn [negb]. rewrite final_fragment_bind, try_yield_run, parse_string_or_throw.
  destruct (JSON_parse (trim buffer)) as [v|]; [|reflexivity].
  rewrite bind_ret_l. reflexivity.
Qed.

Lemma flush_outcome (buffer : string) : outcome (flush buffer) = Ok tt.
Proof.
  rewrite flush_run.
  destruct (String.eqb (trim buffer) EmptyString); [reflexivity|].
  destruct (JSON_parse (trim buffer)); reflexivity.
Qed.

Lemma yields_flush (buffer : string) :
  yields (events (flush buffer)) = remainder_fragments buffer.
Proof.
  rewrite flush_run. unfold remainder_fragments.
  destruct (String.eqb (trim buffer) EmptyString) eqn:E.
  - apply String.eqb_eq in E. rewrite E. reflexivity.
  - destruct (JSON_parse (trim buffer)) as [v|]; [|reflexivity].
    unfold events at 1. cbn [fst]. rewrite yields_app, (quiet_yields _ (quiet_final_response v)).
    destruct (outcome (final_response v)); reflexivity.
Qed.

(** The rounds of the reading loop hand the loop body the complete lines of
    the text read so far, whatever the chunking, and keep what follows the
    last newline; a rejected read is thrown after the lines of the chunks
    before it. *)
Lemma read_loop_lines (chunks : list string) (rejection : option JSError) (buffer : string) :
  has_newline buffer = false ->
  read_loop chunks rejection buffer =
  (forM process_line (complete_lines (buffer ++ stream_body chunks)) ;;
   match rejection with
   | None => ret (remainder (buffer ++ stream_body chunks))
   | Some e => throw e
   end).
Proof.
  revert buffer. induction chunks as [|value rest IH]; intros buffer Hb.
  - cbn [read_loop stream_body fold_right]. rewrite string_app_nil_r.
    unfold complete_lines, remainder. rewrite (split_nl_no_newline buffer Hb).
    cbn [removelast forM last]. rewrite bind_ret_l. reflexivity.
  - cbn [read_loop stream_body fold_right]. unfold pop.
    fold (complete_lines (buffer ++ value)). fold (remainder (buffer ++ value)).
    rewrite (IH _ (remainder_no_newline (buffer ++ value))).
    fold (stream_body rest).
    rewrite <- string_app_assoc.
    rewrite (complete_lines_app (buffer ++ value)), (remainder_app (buffer ++ value)).
    rewrite forM_app, bind_assoc. reflexivity.
Qed.

Lemma streamGenerator_lines (chunks : list string) (rejection : option JSError) :
  streamGenerator chunks rejection =
  try_finally
    (forM process_line (complete_lines (stream_body chunks)) ;;
     match rejection with
     | None => flush (remainder (stream_body chunks))
     | Some e => throw e
     end)
    [ReleaseLock].
Proof.
  unfold streamGenerator. rewrite (read_loop_lines chunks rejection EmptyString eq_refl).
  cbn [append]. rewrite bind_assoc.
  destruct rejection as [e|]; [reflexivity|]. rewrite bind_ret_l. reflexivity.
Qed.

(** ** The whole stream *)

Lemma try_finally_events {A : Type} (m : M A) (f : list Event) :
  events (try_finally m f) = events m ++ f.
Proof. destruct m. reflexivity. Qed.

Lemma try_finally_outcome {A : Type} (m : M A) (f : list Event) :
  outcome (try_finally m f) = outcome m.
Proof. destruct m. reflexivity. Qed.

(** The generator throws exactly when a read is rejected. *)
Lemma streamGenerator_ends (chunks : list string) (rejection : option JSError) :
  outcome (streamGenerator chunks rejection) =
  match rejection with
  | None => Ok tt
  | Some e => Throw e
  end.
Proof.
  rewrite streamGenerator_lines, try_finally_outcome, outcome_bind.
  rewrite forM_process_line_outcome.
  destruct rejection; [reflexivity | apply flush_outcome].
Qed.

Lemma streamGenerator_outcome (chunks : list string) :
  outcome (streamGenerator chunks None) = Ok tt.
Proof. apply streamGenerator_ends. Qed.

Lemma streamGenerator_run (chunks : list string) (rejection : option JSError) :
  events (streamGenerator chunks rejection) =
  flat_map (fun l => events (process_line l)) (complete_lines (stream_body chunks)) ++
  match rejection with
  | None => events (flush (remainder (stream_body chunks)))
  | Some _ => []
  end ++ [ReleaseLock].
Proof.
  rewrite streamGenerator_lines, try_finally_events, events_bind.
  rewrite forM_process_line_outcome, forM_process_line_events.
  rewrite <- app_assoc. destruct rejection; reflexivity.
Qed.

Lemma streamGenerator_events (chunks : list string) :
  events (streamGenerator chunks None) =
  flat_map (fun l => events (process_line l)) (complete_lines (stream_body chunks)) ++
  events (flush (remainder (stream_body chunks))) ++ [ReleaseLock].
Proof. apply streamGenerator_run. Qed.

Lemma streamGenerator_yields (chunks : list string) :
  yields (events (streamGenerator chunks None)) =
  flat_map line_fragments (complete_lines (stream_body chunks)) ++
  remainder_fragments (remainder (stream_body chunks)).
Proof.
  rewrite streamGenerator_lines, try_finally_events, events_bind.
  rewrite forM_process_line_outcome.
  rewrite !yields_app, yields_forM_process_line, yields_flush.
  cbn [yields flat_map]. rewrite app_nil_r. reflexivity.
Qed.

(** ** Payloads of the declared shape are accepted *)

Lemma get_not_nullish (v : JSValue) (k : string) :
  is_nullish v = false -> get v k = ret (own_prop v k).
Proof. intros H. unfold get. rewrite H. reflexivity. Qed.

Lemma truthy_not_nullish (v : JSValue) : truthy v = true -> is_nullish v = false.
Proof. destruct v; cbn; congruence. Qed.

Lemma mapM_accepts {A B : Type} (f : A -> M B) (l : list A) :
  (forall x, In x l -> exists y, f x = ret y) -> exists ys, mapM f l = ret ys.
Proof.
  induction l as [|x l IH]; intros H; cbn [mapM]; [eexists; reflexivity|].
  destruct (H x (or_introl eq_refl)) as [y Hy].
  destruct IH as [ys Hys]; [intros z Hz; apply H; right; exact Hz|].
  exists (y :: ys). rewrite Hy, bind_ret_l, Hys, bind_ret_l. reflexivity.
Qed.

Lemma usage_of_object (ps : list (string * JSValue)) :
  exists u, usage_of (JObject ps) = ret u.
Proof.
  unfold usage_of. rewrite get_not_nullish by reflexivity. rewrite bind_ret_l.
  destruct (truthy (own_prop (JObject ps) "usage")) eqn:E; [|eexists; reflexivity].
  apply truthy_not_nullish in E.
  rewrite !(get_not_nullish _ _ E), !bind_ret_l. eexists; reflexivity.
Qed.

Lemma delta_candidate_declared (choice : JSValue) :
  declared_choice choice = true -> exists c, delta_candidate choice = ret c.
Proof.
  destruct choice as [| | | | | |ps]; try discriminate. intros H.
  unfold delta_candidate. rewrite !get_not_nullish by reflexivity.
  rewrite !bind_ret_l.
  assert (Hc : exists parts,
             convertZhipuContentToParts
               (get_opt (own_prop (JObject ps) "delta") "content") = ret parts).
  { unfold declared_choice in H. cbn [own_prop].
    destruct (lookup "delta" ps) as [d|]; [|eexists; reflexivity].
    destruct d as [| | | | | |qs]; try discriminate; [eexists; reflexivity|].
    cbn [declared_delta] in H. cbn [get_opt is_nullish own_prop].
    destruct (lookup "content" qs) as [c|]; [|eexists; reflexivity].
    destruct c as [| | | |s| |]; try discriminate; [eexists; reflexivity|].
    unfold convertZhipuContentToParts, convertZhipuResponseToParts.
    destruct (truthy (JString s)); eexists; reflexivity. }
  destruct Hc as [parts Hc]. rewrite Hc, !bind_ret_l.
  eexists; reflexivity.
Qed.

Lemma ToString_printable (v : JSValue) :
  printable v = true -> ToString v = ret (to_string v).
Proof. intros H. unfold ToString. rewrite H. reflexivity. Qed.

Lemma ToString_unprintable (v : JSValue) :
  printable v = false -> ToString v = throw TypeError.
Proof. intros H. unfold ToString. rewrite H. reflexivity. Qed.

Lemma truthy_with_length_array (l : list JSValue) :
  truthy_with_length (JArray l) = ret (negb (is_nil l)).
Proof. destruct l; reflexivity. Qed.

Lemma truthy_with_length_falsy (v : JSValue) :
  truthy v = false -> truthy_with_length v = ret false.
Proof. intros H. unfold truthy_with_length. rewrite H. reflexivity. Qed.

(** A tool call with a [function] object and a name that can be printed is
    logged. *)
Lemma log_tool_call_named (each : string) (tc : JSValue) (i : nat) :
  named_tool_call tc = true -> outcome (log_tool_call each tc i) = Ok tt.
Proof.
  unfold named_tool_call. intros H. apply andb_true_iff in H. destruct H as [Hd Hp].
  destruct tc as [| | | | | |ps]; try discriminate.
  cbn [declared_tool_call] in Hd. cbn [own_prop] in Hp.
  unfold log_tool_call. rewrite get_not_nullish by reflexivity.
  rewrite bind_ret_l. cbn [own_prop].
  destruct (lookup "function" ps) as [fn|]; [|discriminate].
  destruct fn; try discriminate.
  rewrite get_not_nullish by reflexivity. rewrite bind_ret_l.
  rewrite (ToString_printable _ Hp), bind_ret_l. reflexivity.
Qed.

(** Logging a tool call throws nothing but a [TypeError]. *)
Lemma log_tool_call_ends (each : string) (tc : JSValue) (i : nat) :
  outcome (log_tool_call each tc i) = Ok tt \/
  outcome (log_tool_call each tc i) = Throw TypeError.
Proof.
  unfold log_tool_call, get, ToString.
  destruct (is_nullish tc); [right; reflexivity|]. rewrite bind_ret_l.
  destruct (is_nullish (own_prop tc "function")); [right; reflexivity|]. rewrite bind_ret_l.
  destruct (printable _); [left | right]; reflexivity.
Qed.

Lemma forM_tool_call_log (each : string) (l : list (JSValue * nat)) :
  forallb named_tool_call (map fst l) = true ->
  outcome (forM (fun xi : JSValue * nat => log_tool_call each (fst xi) (snd xi)) l) = Ok tt.
Proof.
  induction l as [|[tc i] l IH]; cbn [map forallb forM fst snd]; [reflexivity|].
  intros H. apply andb_true_iff in H. destruct H as [Htc Hl].
  rewrite outcome_bind, (log_tool_call_named each tc i Htc). exact (IH Hl).
Qed.

Lemma map_fst_combine_seq {A : Type} (l : list A) (n : nat) :
  map fst (combine l (seq n (List.length l))) = l.
Proof.
  revert n. induction l as [|x l IH]; intros n; [reflexivity|].
  cbn [List.length seq combine map fst]. rewrite IH. reflexivity.
Qed.

Lemma log_tool_calls_declared (received each : string) (none : option string)
    (ps : list (string * JSValue)) :
  declared_tool_calls (lookup "tool_calls" ps) = true ->
  outcome (log_tool_calls received each none (JObject ps)) = Ok tt.
Proof.
  intros H. unfold log_tool_calls.
  rewrite get_not_nullish by reflexivity. rewrite bind_ret_l. cbn [own_prop].
  assert (Hnone : outcome (match none with
                           | Some message => emit (ConsoleLog message [])
                           | None => ret tt
                           end) = Ok tt) by (destruct none; reflexivity).
  destruct (lookup "tool_calls" ps) as [tc|];
    [|rewrite truthy_with_length_falsy, bind_ret_l by reflexivity; exact Hnone].
  destruct tc as [| | | | |l|]; try discriminate;
    [rewrite truthy_with_length_falsy, bind_ret_l by reflexivity; exact Hnone|].
  cbn [declared_tool_calls] in H.
  rewrite truthy_with_length_array, bind_ret_l.
  destruct l as [|x l]; [exact Hnone|]. cbn [is_nil negb].
  rewrite outcome_bind. cbn [emit outcome snd]. cbn [array_forEach].
  apply forM_tool_call_log. rewrite map_fst_combine_seq. exact H.
Qed.

Lemma fragment_response_declared (v : JSValue) :
  declared_fragment v = true -> exists r, outcome (fragment_response v) = Ok r.
Proof.
  destruct v as [| | | | | |ps]; try discriminate. intros H.
  cbn [declared_fragment] in H.
  destruct (lookup "choices" ps) as [cs|] eqn:Ec; [|discriminate].
  destruct cs as [| | | | |cs|]; try discriminate.
  apply andb_true_iff in H. destruct H as [Ht H].
  unfold fragment_response.
  rewrite outcome_bind, (log_tool_calls_declared _ _ None ps Ht).
  rewrite !get_not_nullish by reflexivity. rewrite !bind_ret_l.
  cbn [own_prop]. rewrite Ec. cbn [array_map].
  destruct (mapM_accepts delta_candidate cs) as [cands Hcs].
  { intros x Hx. apply delta_candidate_declared.
    rewrite forallb_forall in H. exact (H x Hx). }
  rewrite Hcs, bind_ret_l.
  destruct (usage_of_object ps) as [u Hu].
  change (match lookup "usage" ps with Some x => x | None => JUndefined end)
    with (own_prop (JObject ps) "usage") in *.
  rewrite Hu, bind_ret_l.
  eexists; reflexivity.
Qed.

Lemma data_line_payload (payload : string) :
  slice 6 ("data: " ++ payload) = payload /\ startsWith "data: " ("data: " ++ payload) = true.
Proof. split; reflexivity. Qed.

Lemma line_fragments_at_most_one (line : string) : List.length (line_fragments line) <= 1.
Proof.
  unfold line_fragments.
  destruct (startsWith "data: " line); [|cbn; lia].
  destruct (String.eqb (slice 6 line) "[DONE]"); [cbn; lia|].
  destruct (JSON_parse (slice 6 line)) as [v|]; [|cbn; lia].
  destruct (outcome (fragment_response v)); cbn; lia.
Qed.

(** ** Lines that are no [data: ] lines *)


Lemma process_line_other (line : string) :
  startsWith "data: " line = false -> process_line line = ret tt.
Proof. intros H. unfold process_line. rewrite H. reflexivity. Qed.

Lemma complete_lines_unlines (ls : list string) (rest : string) :
  forallb (fun l => negb (has_newline l)) ls = true ->
  complete_lines (unlines ls ++ rest) = ls ++ complete_lines rest.
Proof.
  intros H. unfold complete_lines. rewrite (split_nl_unlines ls rest H).
  apply removelast_app, split_nl_nonempty.
Qed.

Lemma remainder_unlines (ls : list string) (rest : string) :
  forallb (fun l => negb (has_newline l)) ls = true ->
  remainder (unlines ls ++ rest) = remainder rest.
Proof.
  intros H. unfold remainder. rewrite (split_nl_unlines ls rest H).
  apply last_app_nonempty, split_nl_nonempty.
Qed.

(** ** Streams ended by the sentinel *)

Lemma split_nl_newlines (n : nat) : split_nl (newlines n) = repeat EmptyString (S n).
Proof.
  induction n as [|n IH]; [reflexivity|].
  cbn [newlines split_nl]. rewrite Ascii.eqb_refl, IH. reflexivity.
Qed.

Lemma removelast_repeat {A : Type} (x : A) (n : nat) :
  removelast (repeat x (S n)) = repeat x n.
Proof.
  induction n as [|n IH]; [reflexivity|].
  change (repeat x (S (S n))) with (x :: repeat x (S n)).
  cbn [removelast]. rewrite IH. reflexivity.
Qed.

Lemma last_repeat {A : Type} (x d : A) (n : nat) : last (repeat x (S n)) d = x.
Proof.
  induction n as [|n IH]; [reflexivity|].
  change (repeat x (S (S n))) with (x :: repeat x (S n)).
  cbn [last]. exact IH.
Qed.

(** What the loop sees of a stream that ends with the sentinel: the lines,
    and then either the sentinel as a line, followed by empty lines, or the
    sentinel as the remainder when no newline follows it. *)
Lemma sentinel_ended_lines (ls : list string) (n : nat) :
  forallb (fun l => negb (has_newline l)) ls = true ->
  complete_lines (unlines ls ++ sentinel ++ newlines n) =
    ls ++ match n with
          | 0 => []
          | S k => sentinel :: repeat EmptyString k
          end /\
  remainder (unlines ls ++ sentinel ++ newlines n) =
    match n with
    | 0 => sentinel
    | S _ => EmptyString
    end.
Proof.
  intros Hls.
  rewrite (complete_lines_unlines ls _ Hls), (remainder_unlines ls _ Hls).
  destruct n as [|k].
  - cbn [newlines]. rewrite string_app_nil_r. split; reflexivity.
  - cbn [newlines]. unfold complete_lines, remainder.
    rewrite (split_nl_line sentinel (newlines k) eq_refl), split_nl_newlines.
    change (sentinel :: repeat EmptyString (S k))
      with ([sentinel] ++ repeat EmptyString (S k)).
    rewrite removelast_app by (intro H; discriminate H).
    rewrite removelast_repeat.
    rewrite last_app_nonempty by (intro H; discriminate H).
    rewrite last_repeat. split; reflexivity.
Qed.

Lemma flat_map_repeat_nil {A B : Type} (f : A -> list B) (x : A) (n : nat) :
  f x = [] -> flat_map f (repeat x n) = [].
Proof.
  intros H. induction n as [|n IH]; [reflexivity|].
  cbn [repeat flat_map]. rewrite H, IH. reflexivity.
Qed.

Lemma sentinel_ended_stream (ls : list string) (n : nat) :
  forallb (fun l => negb (has_newline l)) ls = true ->
  flat_map line_fragments (complete_lines (unlines ls ++ sentinel ++ newlines n)) ++
  remainder_fragments (remainder (unlines ls ++ sentinel ++ newlines n)) =
  flat_map line_fragments ls.
Proof.
  intros Hls. destruct (sentinel_ended_lines ls n Hls) as [-> ->].
  destruct n as [|k].
  - rewrite !app_nil_r. reflexivity.
  - rewrite flat_map_app. cbn [flat_map].
    rewrite (flat_map_repeat_nil line_fragments EmptyString k eq_refl).
    change (line_fragments sentinel) with (@nil GenerateContentResponse).
    change (remainder_fragments EmptyString) with (@nil GenerateContentResponse).
    rewrite !app_nil_r. reflexivity.
Qed.

Lemma sentinel_ended_events (ls : list string) (n : nat) :
  forallb (fun l => negb (has_newline l)) ls = true ->
  flat_map (fun l => events (process_line l))
    (complete_lines (unlines ls ++ sentinel ++ newlines n)) ++
  events (flush (remainder (unlines ls ++ sentinel ++ newlines n))) =
  flat_map (fun l => events (process_line l)) ls ++
  match n with
  | 0 => [ConsoleError "Error parsing final Zhipu response:" SyntaxError]
  | S _ => []
  end.
Proof.
  intros Hls. destruct (sentinel_ended_lines ls n Hls) as [-> ->].
  destruct n as [|k].
  - rewrite app_nil_r. reflexivity.
  - rewrite flat_map_app. cbn [flat_map].
    rewrite (flat_map_repeat_nil (fun l => events (process_line l)) EmptyString k eq_refl).
    change (events (process_line sentinel)) with (@nil Event).
    change (events (flush EmptyString)) with (@nil Event).
    rewrite !app_nil_r. reflexivity.
Qed.

Lemma startsWith_slice (p s : string) :
  startsWith p s = true -> s = (p ++ slice (String.length p) s)%string.
Proof.
  revert s. induction p as [|a p IH]; intros s H; [reflexivity|].
  destruct s as [|b s]; [discriminate H|].
  cbn [startsWith] in H. apply andb_true_iff in H. destruct H as [Hab H].
  apply Ascii.eqb_eq in Hab. subst b.
  cbn [String.length slice append]. rewrite <- (IH s H). reflexivity.
Qed.

(** What the loop does with a [data: ] line that is not the sentinel. *)
Lemma process_data_line (payload : string) :
  payload <> "[DONE]" ->
  line_fragments ("data: " ++ payload) =
    match JSON_parse payload with
    | Some v => match outcome (fragment_response v) with Ok r => [r] | Throw _ => [] end
    | None => []
    end /\
  process_line ("data: " ++ payload) =
    match JSON_parse payload with
    | Some v =>
        (events (fragment_response v) ++
         match outcome (fragment_response v) with
         | Ok r => [Yield r]
         | Throw e => [ConsoleError "Error parsing Zhipu streaming response:" e]
         end, Ok tt)
    | None => ([ConsoleError "Error parsing Zhipu streaming response:" SyntaxError], Ok tt)
    end.
Proof.
  intros Hne. apply String.eqb_neq in Hne.
  rewrite process_line_run. unfold line_fragments.
  destruct (data_line_payload payload) as [-> ->]. rewrite Hne.
  split; reflexivity.
Qed.

(** C3 (as amended). For a body whose lines are each ended by a newline and
    followed by the sentinel line [data: [DONE]] and any number of newlines,
    delivered in full, whatever the chunking: the generator does not throw;
    the fragments it yields are, in arrival order, those of the lines, where
    a line stands for one fragment when it is a [data: ] line other than the
    sentinel whose payload parses as JSON and is converted without error, and
    for none otherwise; and its events are those of the lines, then the
    release of the reader, with one parse error logged in between for the
    sentinel when no newline follows it (it is then left to the final
    flush). The sentinel as a line produces no event. A payload that is
    malformed JSON yields no fragment and is logged as a syntax error. A
    payload that parses yields its fragment when the conversion succeeds;
    when the conversion throws it yields none, and the error is logged after
    whatever the conversion printed. A payload of the shape the interface
    declares is converted without error. A line that is no [data: ] line
    yields none and produces no event, every other line is [data: ] followed
    by its payload, and no line yields more than one. *)
Theorem C3_stream_yields_one_fragment_per_accepted_line
    (ls : list string) (n : nat) (chunks : list string) :
  forallb (fun l => negb (has_newline l)) ls = true ->
  stream_body chunks = (unlines ls ++ sentinel ++ newlines n)%string ->
  outcome (streamGenerator chunks None) = Ok tt /\
  yields (events (streamGenerator chunks None)) = flat_map line_fragments ls /\
  events (streamGenerator chunks None) =
    flat_map (fun l => events (process_line l)) ls ++
    match n with
    | 0 => [ConsoleError "Error parsing final Zhipu response:" SyntaxError]
    | S _ => []
    end ++ [ReleaseLock] /\
  line_fragments sentinel = [] /\
  process_line sentinel = ([], Ok tt) /\
  (forall payload, JSON_parse payload = None ->
     line_fragments ("data: " ++ payload) = []) /\
  (forall payload, payload <> "[DONE]" -> JSON_parse payload = None ->
     process_line ("data: " ++ payload) =
     ([ConsoleError "Error parsing Zhipu streaming response:" SyntaxError], Ok tt)) /\
  (forall payload v, payload <> "[DONE]" -> JSON_parse payload = Some v ->
     (forall e, outcome (fragment_response v) = Throw e ->
        line_fragments ("data: " ++ payload) = [] /\
        process_line ("data: " ++ payload) =
        (events (fragment_response v) ++
         [ConsoleError "Error parsing Zhipu streaming response:" e], Ok tt) /\
        Forall console_event (events (fragment_response v))) /\
     (forall r, outcome (fragment_response v) = Ok r ->
        line_fragments ("data: " ++ payload) = [r] /\
        process_line ("data: " ++ payload) =
        (events (fragment_response v) ++ [Yield r], Ok tt) /\
        Forall console_event (events (fragment_response v))) /\
     (declared_fragment v = true ->
        exists r, outcome (fragment_response v) = Ok r /\
                  line_fragments ("data: " ++ payload) = [r])) /\
  (forall line, startsWith "data: " line = false ->
     line_fragments line = [] /\ process_line line = ([], Ok tt)) /\
  (forall line, startsWith "data: " line = true ->
     line = ("data: " ++ slice 6 line)%string) /\
  (forall line, List.length (line_fragments line) <= 1).
Proof.
  intros Hls Hbody.
  split; [apply streamGenerator_outcome|].
  split; [rewrite streamGenerator_yields, Hbody; apply sentinel_ended_stream; assumption|].
  split.
  { rewrite streamGenerator_events, Hbody, app_assoc, (sentinel_ended_events ls n Hls).
    rewrite <- app_assoc. reflexivity. }
  split; [reflexivity|].
  split; [reflexivity|].
  split.
  { intros payload Hp. unfold line_fragments.
    destruct (data_line_payload payload) as [-> ->].
    rewrite Hp. destruct (String.eqb payload "[DONE]"); reflexivity. }
  split.
  { intros payload Hne Hp. rewrite (proj2 (process_data_line payload Hne)), Hp.
    reflexivity. }
  split; [|split; [|split; [|apply line_fragments_at_most_one]]].
  - intros payload v Hne Hp.
    destruct (process_data_line payload Hne) as [Hl Hr]. rewrite Hp in Hl, Hr.
    split; [|split].
    + intros e He. rewrite Hl, Hr, He. repeat split. apply quiet_fragment_response.
    + intros r Ho. rewrite Hl, Hr, Ho. repeat split. apply quiet_fragment_response.
    + intros Hd. destruct (fragment_response_declared v Hd) as [r Ho].
      exists r. rewrite Hl, Ho. split; reflexivity.
  - intros line H. unfold line_fragments. rewrite H.
    split; [reflexivity | exact (process_line_other line H)].
  - intros line H. exact (startsWith_slice "data: " line H).
Qed.

Lemma C3_stream_witness :
  outcome (streamGenerator example_chunks None) = Ok tt /\
  yields (events (streamGenerator example_chunks None)) =
    flat_map line_fragments example_lines /\
  events (streamGenerator example_chunks None) =
    flat_map (fun l => events (process_line l)) example_lines ++
    [ConsoleError "Error parsing final Zhipu response:" SyntaxError] ++ [ReleaseLock].
Proof.
  pose proof (C3_stream_yields_one_fragment_per_accepted_line
                example_lines 0 example_chunks eq_refl eq_refl) as H.
  exact (conj (proj1 H) (conj (proj1 (proj2 H)) (proj1 (proj2 (proj2 H))))).
Defined.

Example example_stream_fragments :
  yields (events (streamGenerator example_chunks None)) =
  [delta_fragment "he"; delta_fragment "llo"].
Proof. vm_compute. reflexivity. Qed.

Example example_stream_run :
  streamGenerator example_chunks None =
  ([Yield (delta_fragment "he");
    ConsoleError "Error parsing Zhipu streaming response:" SyntaxError;
    Yield (delta_fragment "llo");
    ConsoleError "Error parsing final Zhipu response:" SyntaxError;
    ReleaseLock], Ok tt).
Proof. vm_compute. reflexivity. Qed.

(** C3, as stated, fails: a [data: ] line whose payload is valid JSON but has
    no [choices] array is not the sentinel, and yields no fragment. *)
Lemma C3_valid_json_line_without_fragment :
  JSON_parse "{}" = Some (JObject []) /\
  streamGenerator [unlines ["data: {}"; sentinel]] None =
  ([ConsoleError "Error parsing Zhipu streaming response:" TypeError; ReleaseLock], Ok tt) /\
  yields (events (streamGenerator [unlines ["data: {}"; sentinel]] None)) = [].
Proof. repeat split; vm_compute; reflexivity. Qed.

(** C10. A complete line that does not begin with [data: ] (an empty line,
    another event-stream field) is skipped silently: processing it produces no
    event at all (no fragment, no console output) and does not throw, and the
    run of the generator is, event for event, the run on the same stream with
    that line taken out, whatever the chunking of either and whether the
    reading ends or is rejected after it. *)
Theorem C10_other_lines_are_skipped
    (before : list string) (line rest : string) (chunks chunks' : list string) :
  startsWith "data: " line = false ->
  has_newline line = false ->
  forallb (fun l => negb (has_newline l)) before = true ->
  stream_body chunks = (unlines before ++ line ++ String nl rest)%string ->
  stream_body chunks' = (unlines before ++ rest)%string ->
  process_line line = ([], Ok tt) /\
  forall rejection, streamGenerator chunks rejection = streamGenerator chunks' rejection.
Proof.
  intros Hline Hnl Hbefore Hc Hc'.
  split; [exact (process_line_other line Hline)|]. intros rejection.
  rewrite !streamGenerator_lines, Hc, Hc'.
  replace (line ++ String nl rest)%string with (unlines [line] ++ rest)%string
    by (cbn [unlines]; rewrite string_app_assoc; reflexivity).
  rewrite !(complete_lines_unlines before _ Hbefore), !(remainder_unlines before _ Hbefore).
  assert (H1 : forallb (fun l => negb (has_newline l)) [line] = true)
    by (cbn [forallb]; rewrite Hnl; reflexivity).
  rewrite (complete_lines_unlines [line] rest H1), (remainder_unlines [line] rest H1).
  rewrite !forM_app. cbn [app forM].
  rewrite (process_line_other line Hline), !bind_ret_l. reflexivity.
Qed.

Lemma C10_skipped_witness :
  process_line "event: ping" = ([], Ok tt) /\
  streamGenerator
    [unlines [List.hd EmptyString example_lines]; unlines ["event: ping"; sentinel]] None =
  streamGenerator
    [unlines [List.hd EmptyString example_lines]; unlines [sentinel]] None.
Proof.
  pose proof (C10_other_lines_are_skipped
                [List.hd EmptyString example_lines] "event: ping" (unlines [sentinel])
                [unlines [List.hd EmptyString example_lines];
                 unlines ["event: ping"; sentinel]]
                [unlines [List.hd EmptyString example_lines]; unlines [sentinel]]
                eq_refl eq_refl eq_refl eq_refl eq_refl) as H.
  exact (conj (proj1 H) (proj2 H None)).
Defined.

(** ** Reading a computation that succeeded backwards *)

Lemma outcome_bind_ok {A B : Type} (m : M A) (k : A -> M B) (b : B) :
  outcome (bind m k) = Ok b -> exists a, outcome m = Ok a /\ outcome (k a) = Ok b.
Proof.
  rewrite outcome_bind. destruct (outcome m) as [a|e]; [|discriminate].
  intros H. exists a. split; [reflexivity | exact H].
Qed.

Lemma outcome_ret_ok {A : Type} (a b : A) : outcome (ret a) = Ok b -> a = b.
Proof. cbn. congruence. Qed.

Lemma outcome_get_ok (v : JSValue) (k : string) (x : JSValue) :
  outcome (get v k) = Ok x -> x = own_prop v k.
Proof. unfold get. destruct (is_nullish v); cbn; congruence. Qed.

Lemma outcome_mapM_ok {A B : Type} (f : A -> M B) (l : list A) (ys : list B) :
  outcome (mapM f l) = Ok ys -> Forall2 (fun x y => outcome (f x) = Ok y) l ys.
Proof.
  revert ys. induction l as [|x l IH]; intros ys; cbn [mapM].
  - intros H. apply outcome_ret_ok in H. subst. constructor.
  - intros H. apply outcome_bind_ok in H. destruct H as (y & Hy & H).
    apply outcome_bind_ok in H. destruct H as (ys' & Hys & H).
    apply outcome_ret_ok in H. subst. constructor; [exact Hy | exact (IH _ Hys)].
Qed.

Lemma outcome_array_map_ok {B : Type} (v : JSValue) (f : JSValue -> M B) (ys : list B) :
  outcome (array_map v f) = Ok ys ->
  exists l, v = JArray l /\ Forall2 (fun x y => outcome (f x) = Ok y) l ys.
Proof.
  destruct v; cbn [array_map]; try discriminate.
  intros H. eexists. split; [reflexivity | exact (outcome_mapM_ok _ _ _ H)].
Qed.

(** The parts of the candidates of a streamed fragment come from the delta
    content alone. *)
Lemma delta_candidate_parts (choice : JSValue) (c : Candidate) :
  outcome (delta_candidate choice) = Ok c ->
  outcome (convertZhipuResponseToParts
             (get_opt (own_prop choice "delta") "content") JUndefined)
  = Ok (content_parts c).
Proof.
  unfold delta_candidate, convertZhipuContentToParts. intros H.
  apply outcome_bind_ok in H. destruct H as (delta & Hd & H).
  apply outcome_bind_ok in H. destruct H as (i & _ & H).
  apply outcome_bind_ok in H. destruct H as (ps & Hps & H).
  apply outcome_bind_ok in H. destruct H as (reason & _ & H).
  apply outcome_ret_ok in H. subst c. cbn [content_parts].
  apply outcome_get_ok in Hd. subst delta. exact Hps.
Qed.

Lemma fragment_response_parts (v : JSValue) (r : GenerateContentResponse) :
  outcome (fragment_response v) = Ok r ->
  exists choices,
    own_prop v "choices" = JArray choices /\
    Forall2 (fun choice c =>
               outcome (convertZhipuResponseToParts
                          (get_opt (own_prop choice "delta") "content") JUndefined)
               = Ok (content_parts c))
            choices (candidates r).
Proof.
  unfold fragment_response. intros H.
  apply outcome_bind_ok in H. destruct H as (_ & _ & H).
  apply outcome_bind_ok in H. destruct H as (i & _ & H).
  apply outcome_bind_ok in H. destruct H as (m & _ & H).
  apply outcome_bind_ok in H. destruct H as (choices & Hch & H).
  apply outcome_bind_ok in H. destruct H as (cs & Hcs & H).
  apply outcome_bind_ok in H. destruct H as (u & _ & H).
  apply outcome_ret_ok in H. subst r. cbn [candidates].
  apply outcome_get_ok in Hch. subst choices.
  apply outcome_array_map_ok in Hcs. destruct Hcs as (l & Hl & Hall).
  exists l. split; [exact Hl|].
  eapply Forall2_impl; [|exact Hall].
  intros choice c Hc. exact (delta_candidate_parts choice c Hc).
Qed.

(** The parts of the candidates of the final fragment come from the message
    content and the top-level tool calls. *)
Lemma message_candidate_parts (v choice : JSValue) (c : Candidate) :
  outcome (message_candidate v choice) = Ok c ->
  outcome (convertZhipuResponseToParts
             (get_opt (own_prop choice "message") "content") (own_prop v "tool_calls"))
  = Ok (content_parts c).
Proof.
  unfold message_candidate. intros H.
  apply outcome_bind_ok in H. destruct H as (i & _ & H).
  apply outcome_bind_ok in H. destruct H as (message & Hm & H).
  apply outcome_bind_ok in H. destruct H as (tc & Htc & H).
  apply outcome_bind_ok in H. destruct H as (ps & Hps & H).
  apply outcome_bind_ok in H. destruct H as (reason & _ & H).
  apply outcome_ret_ok in H. subst c. cbn [content_parts].
  apply outcome_get_ok in Hm. apply outcome_get_ok in Htc. subst. exact Hps.
Qed.

Lemma final_response_parts (v : JSValue) (r : GenerateContentResponse) :
  outcome (final_response v) = Ok r ->
  exists choices,
    own_prop v "choices" = JArray choices /\
    Forall2 (fun choice c =>
               outcome (convertZhipuResponseToParts
                          (get_opt (own_prop choice "message") "content")
                          (own_prop v "tool_calls"))
               = Ok (content_parts c))
            choices (candidates r).
Proof.
  unfold final_response. intros H.
  apply outcome_bind_ok in H. destruct H as (i & _ & H).
  apply outcome_bind_ok in H. destruct H as (m & _ & H).
  apply outcome_bind_ok in H. destruct H as (choices & Hch & H).
  apply outcome_bind_ok in H. destruct H as (cs & Hcs & H).
  apply outcome_ret_ok in H. subst r. cbn [candidates].
  apply outcome_get_ok in Hch. subst choices.
  apply outcome_array_map_ok in Hcs. destruct Hcs as (l & Hl & Hall).
  exists l. split; [exact Hl|].
  eapply Forall2_impl; [|exact Hall].
  intros choice c Hc. exact (message_candidate_parts v choice c Hc).
Qed.

(** ** The end of the stream *)

(** A text that begins with the letter d is no JSON. *)
Lemma JSON_parse_d (rest : string) : JSON_parse (String "d" rest) = None.
Proof.
  unfold JSON_parse.
  replace (2 * String.length (String "d" rest) + 2) with (S (2 * String.length rest + 3))
    by (cbn [String.length]; lia).
  reflexivity.
Qed.

Lemma trim_data_prefix (buffer : string) :
  startsWith "data: " buffer = true -> exists rest, trim buffer = String "d" rest.
Proof.
  destruct buffer as [|c b]; [discriminate|].
  cbn [startsWith]. intros H. apply andb_true_iff in H. destruct H as [Hc _].
  apply Ascii.eqb_eq in Hc. subst c.
  unfold trim. cbn [trim_start].
  change (is_trim_space "d") with false. cbn iota.
  cbn [trim_end]. change (is_trim_space "d") with false.
  destruct (trim_end b); eexists; reflexivity.
Qed.

Lemma flush_data_prefix (buffer : string) :
  startsWith "data: " buffer = true ->
  JSON_parse (trim buffer) = None /\
  flush buffer = ([ConsoleError "Error parsing final Zhipu response:" SyntaxError], Ok tt).
Proof.
  intros H. destruct (trim_data_prefix buffer H) as [rest Hrest].
  rewrite flush_run, Hrest, JSON_parse_d. split; reflexivity.
Qed.

Lemma quiet_no_yield {A : Type} (m : M A) (r : GenerateContentResponse) :
  quiet m -> ~ In (Yield r) (events m).
Proof.
  unfold quiet. intros Hq Hin. rewrite Forall_forall in Hq. exact (Hq _ Hin).
Qed.

(** A fragment yielded at the end of the stream is the conversion of the
    parsed remainder. *)
Lemma flush_yield (buffer : string) (r : GenerateContentResponse) :
  In (Yield r) (events (flush buffer)) ->
  exists v, JSON_parse (trim buffer) = Some v /\ outcome (final_response v) = Ok r.
Proof.
  rewrite flush_run.
  destruct (String.eqb (trim buffer) EmptyString); [intros []|].
  destruct (JSON_parse (trim buffer)) as [v|].
  - unfold events at 1. cbn [fst]. intros H. apply in_app_or in H.
    destruct H as [H|H]; [exfalso; exact (quiet_no_yield _ r (quiet_final_response v) H)|].
    exists v. split; [reflexivity|].
    destruct (outcome (final_response v)) as [r'|e].
    + destruct H as [H|[]]. congruence.
    + destruct H as [H|[]]. discriminate H.
  - intros [H|[]]. discriminate H.
Qed.

(** C4 (as amended). Every fragment yielded for a line has the parts of its
    candidates built from the delta content of the choices alone, by
    [convertZhipuResponseToParts] with no tool calls. After the stream has
    ended, a remainder that is empty once trimmed gets no parse attempt; any
    other gets exactly one, of its trimmed text: malformed JSON is logged,
    and JSON that parses is yielded as the one final fragment, after the
    fragments of the lines, when its conversion succeeds, and logged when
    the conversion throws. *)
Theorem C4_delta_parts_and_final_flush :
  (forall v r, outcome (fragment_response v) = Ok r ->
     exists choices,
       own_prop v "choices" = JArray choices /\
       Forall2 (fun choice c =>
                  outcome (convertZhipuResponseToParts
                             (get_opt (own_prop choice "delta") "content") JUndefined)
                  = Ok (content_parts c))
               choices (candidates r)) /\
  (forall chunks,
     yields (events (streamGenerator chunks None)) =
     flat_map line_fragments (complete_lines (stream_body chunks)) ++
     yields (events (flush (remainder (stream_body chunks))))) /\
  (forall buffer, trim buffer = EmptyString -> flush buffer = ([], Ok tt)) /\
  (forall buffer, trim buffer <> EmptyString -> JSON_parse (trim buffer) = None ->
     flush buffer =
     ([ConsoleError "Error parsing final Zhipu response:" SyntaxError], Ok tt)) /\
  (forall buffer v r, trim buffer <> EmptyString -> JSON_parse (trim buffer) = Some v ->
     outcome (final_response v) = Ok r ->
     flush buffer = (events (final_response v) ++ [Yield r], Ok tt) /\
     yields (events (flush buffer)) = [r]) /\
  (forall buffer v e, trim buffer <> EmptyString -> JSON_parse (trim buffer) = Some v ->
     outcome (final_response v) = Throw e ->
     flush buffer =
     (events (final_response v) ++ [ConsoleError "Error parsing final Zhipu response:" e],
      Ok tt) /\
     yields (events (flush buffer)) = []).
Proof.
  split; [exact fragment_response_parts|].
  split; [intros chunks; rewrite yields_flush; apply streamGenerator_yields|].
  split.
  { intros buffer H. rewrite flush_run, H. reflexivity. }
  split.
  { intros buffer H Hp. apply String.eqb_neq in H. rewrite flush_run, H, Hp. reflexivity. }
  split.
  - intros buffer v r H Hp Hr. apply String.eqb_neq in H.
    rewrite yields_flush. unfold remainder_fragments.
    rewrite flush_run, H, Hp, Hr. split; reflexivity.
  - intros buffer v e H Hp He. apply String.eqb_neq in H.
    rewrite yields_flush. unfold remainder_fragments.
    rewrite flush_run, H, Hp, He. split; reflexivity.
Qed.

(** C4, as stated, fails at the end of the stream: a remainder that parses
    as JSON but has no [choices] array is not emitted, and a remainder of
    white space, although not empty, gets no parse attempt (nothing is
    logged). *)
Lemma C4_parsed_remainder_without_fragment :
  JSON_parse (trim "{}") = Some (JObject []) /\
  streamGenerator ["{}"] None =
  ([ConsoleError "Error parsing final Zhipu response:" TypeError; ReleaseLock], Ok tt) /\
  streamGenerator ["  "] None = ([ReleaseLock], Ok tt).
Proof. repeat split; vm_compute; reflexivity. Qed.

Lemma C4_final_fragment_witness :
  yields (events (flush (json_text (message_payload (JString "hi") [])))) =
  [{| responseId := JString "r1"; modelVersion := JString "glm-4";
      candidates := [{| index := JNumber "0"; content_role := "model";
                        content_parts := [TextPart (JString "hi")];
                        finishReason := STOP |}];
      usageMetadata := None |}].
Proof.
  refine (proj2 (proj1 (proj2 (proj2 (proj2 (proj2 C4_delta_parts_and_final_flush))))
                   (json_text (message_payload (JString "hi") []))
                   (message_payload (JString "hi") []) _ _ _ _)).
  - vm_compute. intros H. discriminate H.
  - vm_compute. reflexivity.
  - vm_compute. reflexivity.
Defined.

(** C9. The flush parses the trimmed remainder as it is: a remainder that
    begins with [data: ] (the sentinel included) is no JSON, so it is logged
    as a parse error and yields no fragment, also when the line it carries
    would have yielded one had a newline completed it. A fragment that the
    flush does yield is the conversion of the remainder parsed as JSON, with
    the parts of each candidate built from the message content of the choice
    and the top-level tool calls; the fragment of a line has the parts of the
    delta content only. *)
Theorem C9_flush_parses_the_raw_remainder :
  (forall buffer, startsWith "data: " buffer = true ->
     JSON_parse (trim buffer) = None /\
     flush buffer =
     ([ConsoleError "Error parsing final Zhipu response:" SyntaxError], Ok tt)) /\
  flush sentinel =
  ([ConsoleError "Error parsing final Zhipu response:" SyntaxError], Ok tt) /\
  (forall chunks, startsWith "data: " (remainder (stream_body chunks)) = true ->
     yields (events (streamGenerator chunks None)) =
     flat_map line_fragments (complete_lines (stream_body chunks))) /\
  (forall buffer r, In (Yield r) (events (flush buffer)) ->
     exists v,
       JSON_parse (trim buffer) = Some v /\
       outcome (final_response v) = Ok r /\
       exists choices,
         own_prop v "choices" = JArray choices /\
         Forall2 (fun choice c =>
                    outcome (convertZhipuResponseToParts
                               (get_opt (own_prop choice "message") "content")
                               (own_prop v "tool_calls"))
                    = Ok (content_parts c))
                 choices (candidates r)) /\
  (let v := message_payload (JString "hi") [tool_call "{}"] in
   map (fun r => map content_parts (candidates r))
       (yields (events (flush (json_text v)))) =
   [[[TextPart (JString "hi");
      FunctionCallPart (JString "call_1") (JString "get_weather") (JObject [])]]] /\
   map (fun r => map content_parts (candidates r))
       (yields (events (process_line ("data: " ++ json_text v)))) =
   [[[TextPart (JString "hi")]]] /\
   yields (events (flush ("data: " ++ json_text v))) = []).
Proof.
  split; [exact flush_data_prefix|].
  split; [exact (proj2 (flush_data_prefix sentinel eq_refl))|].
  split.
  { intros chunks H. rewrite streamGenerator_yields.
    unfold remainder_fragments.
    rewrite (proj1 (flush_data_prefix _ H)). apply app_nil_r. }
  split.
  { intros buffer r H. destruct (flush_yield buffer r H) as (v & Hp & Hr).
    exists v. split; [exact Hp|]. split; [exact Hr|].
    exact (final_response_parts v r Hr). }
  repeat split; vm_compute; reflexivity.
Qed.

Lemma C9_flush_witness :
  flush ("data: " ++ json_text (delta_payload "he")) =
  ([ConsoleError "Error parsing final Zhipu response:" SyntaxError], Ok tt).
Proof.
  exact (proj2 (proj1 C9_flush_parses_the_raw_remainder
                  ("data: " ++ json_text (delta_payload "he"))%string eq_refl)).
Defined.

(** ** Tool calls whose arguments are no JSON *)

(** [JSON.parse] of a value: it returns the parsed value, or throws a syntax
    error for a text that is no JSON and a type error for a value that has no
    text. *)
Lemma JSON_parse_or_throw_run (v : JSValue) :
  JSON_parse_or_throw v =
  match JSON_parse_value v with
  | Some x => ret x
  | None => throw (if printable v then SyntaxError else TypeError)
  end.
Proof.
  unfold JSON_parse_or_throw, JSON_parse_value, ToString.
  destruct (printable v); [|reflexivity].
  rewrite bind_ret_l. destruct (JSON_parse (to_string v)); reflexivity.
Qed.

(** A top-level tool call that has a [function] degrades to empty arguments
    when its arguments do not parse. *)
Lemma push_tool_call_bad_arguments (parts : list ResponsePart) (toolCall : JSValue) :
  is_nullish toolCall = false ->
  is_nullish (own_prop toolCall "function") = false ->
  JSON_parse_value (own_prop (own_prop toolCall "function") "arguments") = None ->
  push_tool_call parts toolCall =
  ([ConsoleError "Error parsing tool call arguments:"
      (if printable (own_prop (own_prop toolCall "function") "arguments")
       then SyntaxError else TypeError)],
   Ok (parts ++ [FunctionCallPart (own_prop toolCall "id")
                   (own_prop (own_prop toolCall "function") "name") (JObject [])])).
Proof.
  intros Ht Hf Hp. unfold push_tool_call.
  rewrite !(get_not_nullish toolCall _ Ht). rewrite !bind_ret_l.
  rewrite !(get_not_nullish _ _ Hf). rewrite !bind_ret_l.
  rewrite JSON_parse_or_throw_run, Hp. reflexivity.
Qed.

Lemma push_tool_call_good_arguments (parts : list ResponsePart) (toolCall args : JSValue) :
  is_nullish toolCall = false ->
  is_nullish (own_prop toolCall "function") = false ->
  JSON_parse_value (own_prop (own_prop toolCall "function") "arguments") = Some args ->
  push_tool_call parts toolCall =
  ret (parts ++ [FunctionCallPart (own_prop toolCall "id")
                   (own_prop (own_prop toolCall "function") "name") args]).
Proof.
  intros Ht Hf Hp. unfold push_tool_call.
  rewrite !(get_not_nullish toolCall _ Ht). rewrite !bind_ret_l.
  rewrite !(get_not_nullish _ _ Hf). rewrite !bind_ret_l.
  rewrite JSON_parse_or_throw_run, Hp. reflexivity.
Qed.

(** The loop over the top-level tool calls never aborts on arguments: every
    tool call that has a [function] becomes one function-call part. *)
Lemma tool_calls_never_abort (l : list JSValue) (parts : list ResponsePart) :
  Forall (fun tc => is_nullish tc = false /\ is_nullish (own_prop tc "function") = false) l ->
  outcome (foldM push_tool_call l parts) = Ok (parts ++ map tool_call_part l).
Proof.
  intros H. revert parts. induction H as [|tc l [Ht Hf] _ IH]; intros parts.
  - cbn. rewrite app_nil_r. reflexivity.
  - cbn [foldM map]. rewrite outcome_bind.
    assert (Hs : outcome (push_tool_call parts tc) = Ok (parts ++ [tool_call_part tc])).
    { unfold tool_call_part.
      destruct (JSON_parse_value (own_prop (own_prop tc "function") "arguments")) eqn:E.
      - rewrite (push_tool_call_good_arguments parts tc _ Ht Hf E). reflexivity.
      - rewrite (push_tool_call_bad_arguments parts tc Ht Hf E). reflexivity. }
    rewrite Hs, IH, <- app_assoc. reflexivity.
Qed.

(** C1 (the code at the failing input). The arguments text [{city] is no
    JSON. As the arguments of a top-level tool call it gives a function-call
    part with the empty object for arguments, and [generateContent] returns;
    as the arguments of a [function_call] item of the message content it makes
    [convertZhipuResponseToParts] throw, and [generateContent] with it. *)
Theorem C1_function_call_item_with_bad_arguments_throws :
  JSON_parse "{city" = None /\
  convertZhipuResponseToParts JUndefined (JArray [tool_call "{city"]) =
  ([ConsoleError "Error parsing tool call arguments:" SyntaxError],
   Ok [FunctionCallPart (JString "call_1") (JString "get_weather") (JObject [])]) /\
  (exists r,
     outcome (generateContent "glm-4"
                (answering (message_payload JUndefined [tool_call "{city"])) hello_request)
     = Ok r) /\
  convertZhipuResponseToParts (function_call_content "{city") JUndefined =
  ([], Throw SyntaxError) /\
  outcome (generateContent "glm-4"
             (answering (message_payload (function_call_content "{city") [])) hello_request)
  = Throw (Error "Zhipu API error: " (Some SyntaxError)).
Proof.
  split; [vm_compute; reflexivity|].
  split; [vm_compute; reflexivity|].
  split; [eexists; vm_compute; reflexivity|].
  split; vm_compute; reflexivity.
Qed.

(** ** convertToZhipuFormat *)

Lemma sort_part_sorted_as (b : Buckets) (p : PartUnion) :
  sort_part b p =
  match sorted_as p with
  | AsText t => push_text t b
  | AsCall c => push_call c b
  | AsResponse r => push_response r b
  | Dropped => b
  end.
Proof.
  destruct p as [s | [t fc fr]]; [reflexivity|].
  unfold sort_part, sorted_as, nonempty_text. cbn [text functionCall functionResponse].
  destruct t as [t|]; [destruct (String.eqb t EmptyString)|];
    destruct fc, fr; reflexivity.
Qed.

(** The loop over the parts appends to each array the parts of its kind, in
    the order of the parts. *)
Lemma fold_sort_part (ps : list PartUnion) (b : Buckets) :
  fold_left sort_part ps b =
  {| functionCalls := functionCalls b ++ calls_of ps;
     functionResponses := functionResponses b ++ responses_of ps;
     textParts := textParts b ++ texts_of ps |}.
Proof.
  revert b. induction ps as [|p ps IH]; intros b.
  - cbn. rewrite !app_nil_r. destruct b; reflexivity.
  - cbn [fold_left]. rewrite IH, sort_part_sorted_as.
    unfold calls_of, responses_of, texts_of. cbn [flat_map].
    destruct (sorted_as p); cbn [push_text push_call push_response functionCalls
                                   functionResponses textParts app];
      rewrite <- ?app_assoc; reflexivity.
Qed.

Lemma push_content_messages (messages : list ZhipuMessage) (c : Content) :
  push_content messages c = messages ++ content_messages c.
Proof.
  unfold push_content, content_messages, parts_of, message.
  rewrite fold_sort_part. cbn [no_buckets functionCalls functionResponses textParts app].
  destruct (is_nil (texts_of _)), (is_nil (calls_of _)), (is_nil (responses_of _));
    cbn [app]; rewrite <- ?app_assoc, ?app_nil_r; reflexivity.
Qed.

Lemma push_item_messages (messages : list ZhipuMessage) (item : ContentItem) :
  push_item messages item = messages ++ item_messages item.
Proof.
  destruct item as [s | c | p]; cbn [push_item item_messages].
  - reflexivity.
  - destruct (has_key (role c) && has_key (parts c)).
    + apply push_content_messages.
    + symmetry. apply app_nil_r.
  - symmetry. apply app_nil_r.
Qed.

Lemma fold_push_item (items : list ContentItem) (messages : list ZhipuMessage) :
  fold_left push_item items messages = messages ++ flat_map item_messages items.
Proof.
  revert messages. induction items as [|item items IH]; intros messages.
  - cbn. symmetry. apply app_nil_r.
  - cbn [fold_left flat_map]. rewrite IH, push_item_messages, app_assoc. reflexivity.
Qed.

Lemma convertToZhipuFormat_items (items : list ContentItem) (tools : JSValue) :
  convertToZhipuFormat (request_of items tools) = flat_map item_messages items.
Proof. unfold convertToZhipuFormat, request_of. cbn [contents]. apply fold_push_item. Qed.

Lemma content_messages_roles (c : Content) :
  Forall (fun m => msg_role m = zhipu_role (role c)) (content_messages c).
Proof.
  unfold content_messages.
  repeat (apply Forall_app; split);
    match goal with |- Forall _ (if ?b then _ else _) => destruct b end;
    repeat constructor.
Qed.

Lemma is_nil_texts_of (ps : list PartUnion) : is_nil (texts_of ps) = negb (has_kind KText ps).
Proof.
  unfold has_kind, texts_of, part_kind.
  induction ps as [|p ps IH]; [reflexivity|]. cbn [flat_map].
  destruct (sorted_as p); cbn [app is_nil existsb kind_eqb orb negb]; auto.
Qed.

Lemma is_nil_calls_of (ps : list PartUnion) : is_nil (calls_of ps) = negb (has_kind KCall ps).
Proof.
  unfold has_kind, calls_of, part_kind.
  induction ps as [|p ps IH]; [reflexivity|]. cbn [flat_map].
  destruct (sorted_as p); cbn [app is_nil existsb kind_eqb orb negb]; auto.
Qed.

Lemma is_nil_responses_of (ps : list PartUnion) :
  is_nil (responses_of ps) = negb (has_kind KResponse ps).
Proof.
  unfold has_kind, responses_of, part_kind.
  induction ps as [|p ps IH]; [reflexivity|]. cbn [flat_map].
  destruct (sorted_as p); cbn [app is_nil existsb kind_eqb orb negb]; auto.
Qed.

Lemma content_messages_kinds (c : Content) :
  flat_map message_kind (content_messages c) =
  filter (fun k => has_kind k (parts_of c)) [KText; KCall; KResponse].
Proof.
  unfold content_messages. rewrite !flat_map_app.
  rewrite is_nil_texts_of, is_nil_calls_of, is_nil_responses_of.
  cbn [filter].
  assert (Hc : has_kind KCall (parts_of c) = true ->
               exists x l, map function_call_item (calls_of (parts_of c)) =
                           function_call_item x :: l).
  { rewrite <- (negb_involutive (has_kind KCall _)), <- is_nil_calls_of.
    destruct (calls_of (parts_of c)) as [|x l]; [discriminate|].
    intros _. exists x, (map function_call_item l). reflexivity. }
  assert (Hr : has_kind KResponse (parts_of c) = true ->
               exists x l, map function_response_item (responses_of (parts_of c)) =
                           function_response_item x :: l).
  { rewrite <- (negb_involutive (has_kind KResponse _)), <- is_nil_responses_of.
    destruct (responses_of (parts_of c)) as [|x l]; [discriminate|].
    intros _. exists x, (map function_response_item l). reflexivity. }
  destruct (has_kind KText (parts_of c));
    destruct (has_kind KCall (parts_of c));
    destruct (has_kind KResponse (parts_of c));
    cbn [negb flat_map app message_kind message msg_content];
    try (destruct (Hc eq_refl) as (x & l & ->));
    try (destruct (Hr eq_refl) as (y & l' & ->));
    reflexivity.
Qed.

(** C2 (as amended). The messages of a request are those of its items, in
    the order of the items. A content object with a role and parts gives at
    most one message of each kind, in the fixed order text, function calls,
    function responses, whatever the order of its parts: the kinds present
    among the messages are the kinds present among the parts; the text
    message joins the text parts, the other two list the function calls and
    the function responses, each in the order of the parts; every message
    carries the mapped role of the content. *)
Theorem C2_messages_grouped_by_kind (items : list ContentItem) (tools : JSValue) :
  convertToZhipuFormat (request_of items tools) = flat_map item_messages items /\
  (forall c,
     item_messages (ItemContent c) =
       (if has_key (role c) && has_key (parts c) then content_messages c else []) /\
     content_messages c =
       (if has_kind KText (parts_of c)
        then [message (zhipu_role (role c))
                (ContentString (String.concat EmptyString (texts_of (parts_of c))))]
        else []) ++
       (if has_kind KCall (parts_of c)
        then [message (zhipu_role (role c))
                (ContentItems (map function_call_item (calls_of (parts_of c))))]
        else []) ++
       (if has_kind KResponse (parts_of c)
        then [message (zhipu_role (role c))
                (ContentItems (map function_response_item (responses_of (parts_of c))))]
        else []) /\
     Forall (fun m => msg_role m = zhipu_role (role c)) (content_messages c) /\
     flat_map message_kind (content_messages c) =
       filter (fun k => has_kind k (parts_of c)) [KText; KCall; KResponse]).
Proof.
  split; [apply convertToZhipuFormat_items|].
  intros c. split; [reflexivity|].
  split.
  { unfold content_messages.
    rewrite is_nil_texts_of, is_nil_calls_of, is_nil_responses_of.
    destruct (has_kind KText _), (has_kind KCall _), (has_kind KResponse _); reflexivity. }
  split; [apply content_messages_roles | apply content_messages_kinds].
Qed.

(** C2, as stated, fails: with a function call before a text part, the text
    message comes first. *)
Lemma C2_function_call_before_text :
  convertToZhipuFormat (request_of [ItemContent call_then_text] JUndefined) =
  [message assistant (ContentString "done");
   message assistant (ContentItems [function_call_item weather_call])] /\
  flat_map message_kind
    (convertToZhipuFormat (request_of [ItemContent call_then_text] JUndefined)) =
  [KText; KCall] /\
  kinds_in_part_order (parts_of call_then_text) = [KCall; KText].
Proof. repeat split; vm_compute; reflexivity. Qed.

(** ** Text-only contents, there and back *)

Lemma concat_cons (x : string) (l : list string) :
  String.concat EmptyString (x :: l) = (x ++ String.concat EmptyString l)%string.
Proof.
  destruct l as [|y l]; cbn [String.concat]; [|reflexivity].
  symmetry. apply string_app_nil_r.
Qed.

Lemma text_only_sorted (ps : list PartUnion) :
  forallb text_only_part ps = true ->
  calls_of ps = [] /\ responses_of ps = [] /\
  String.concat EmptyString (texts_of ps) = String.concat EmptyString (map part_text ps).
Proof.
  unfold calls_of, responses_of, texts_of.
  induction ps as [|p ps IH]; [intros _; repeat split|].
  cbn [forallb]. intros H. apply andb_true_iff in H. destruct H as [Hp Hps].
  destruct (IH Hps) as (IHc & IHr & IHt). cbn [flat_map map].
  rewrite IHc, IHr, (concat_cons (part_text p)).
  destruct p as [s | [t fc fr]].
  - cbn [sorted_as app part_text]. rewrite concat_cons, IHt. repeat split.
  - cbn [text_only_part text functionCall functionResponse] in Hp.
    destruct t as [t|], fc, fr; try discriminate.
    cbn [sorted_as part_text text functionCall functionResponse].
    destruct (String.eqb t EmptyString) eqn:E.
    + apply String.eqb_eq in E. subst t. cbn [app append]. rewrite IHt. repeat split.
    + cbn [app]. rewrite concat_cons, IHt. repeat split.
Qed.

Lemma content_messages_text_only (c : Content) :
  text_only c = true ->
  content_messages c =
  if is_nil (texts_of (parts_of c)) then []
  else [message (zhipu_role (role c)) (ContentString (content_text c))].
Proof.
  unfold text_only, content_messages, content_text, parts_of.
  destruct (parts c) as [| |ps]; [reflexivity | reflexivity |].
  intros H. destruct (text_only_sorted ps H) as (Hc & Hr & Ht).
  rewrite Hc, Hr, Ht. cbn [is_nil app]. rewrite app_nil_r. reflexivity.
Qed.


Lemma back_to_parts_text (r : ZhipuRole) (s : string) :
  back_to_parts (message r (ContentString s)) = ret (text_parts s).
Proof.
  unfold back_to_parts, message, convertZhipuResponseToParts, text_parts.
  cbn [msg_content js_of_content truthy].
  destruct (String.eqb s EmptyString); reflexivity.
Qed.

Lemma is_nil_texts_carried (ps : list PartUnion) :
  is_nil (texts_of ps) = negb (existsb carries_text ps).
Proof.
  unfold texts_of. induction ps as [|p ps IH]; [reflexivity|].
  cbn [flat_map existsb].
  destruct p as [t | [t fc fr]]; cbn [sorted_as carries_text text functionCall
                                       functionResponse];
    [reflexivity|].
  destruct t as [t|].
  - destruct (String.eqb t EmptyString); cbn [negb orb]; [|reflexivity].
    destruct fc, fr; exact IH.
  - destruct fc, fr; exact IH.
Qed.

(** The messages of an item that holds nothing but text: the message of its
    text when the item is converted, none otherwise. *)
Lemma text_item_messages (item : ContentItem) :
  text_only_item item = true ->
  item_messages item = if converted_item item then [text_message item] else [].
Proof.
  destruct item as [t | c | p];
    cbn [text_only_item item_messages converted_item]; [reflexivity | | reflexivity].
  intros H. destruct (has_key (role c) && has_key (parts c)); [|reflexivity].
  rewrite (content_messages_text_only c H), is_nil_texts_carried. cbn [andb].
  destruct (existsb carries_text (parts_of c)); reflexivity.
Qed.

Lemma text_items_messages (items : list ContentItem) :
  forallb text_only_item items = true ->
  flat_map item_messages items = map text_message (filter converted_item items).
Proof.
  induction items as [|item items IH]; [reflexivity|].
  cbn [forallb flat_map filter]. intros H. apply andb_true_iff in H. destruct H as [Hi H].
  rewrite (text_item_messages item Hi), (IH H).
  destruct (converted_item item); reflexivity.
Qed.

(** C5 (as amended). For a request whose contents hold nothing but text, the
    messages are, in order, those of the converted items of the array: a
    string, and a content that has a role and parts of which at least one is
    a string or carries a text that is not empty; each gives exactly one
    message, with the mapped role of the item (user to user, model to
    assistant, system to system; a bare string counts as user) and the text
    of the item, the texts of its parts joined, as its content. The content
    of such a message taken back to parts is one text part with that text, or
    no part when the text is empty. Every other item, a content without a
    role or without parts, a content none of whose parts counts as text, a
    bare part, gives no message, and contents that are no array give no
    message at all: their text does not come back. *)
Theorem C5_text_contents_round_trip (request : GenerateContentParameters) :
  text_only_request request = true ->
  convertToZhipuFormat request =
    map text_message (filter converted_item (array_items request)) /\
  map (fun m => (msg_role m, back_to_parts m)) (convertToZhipuFormat request) =
    map (fun item => (item_role item, ret (text_parts (item_text item))))
      (filter converted_item (array_items request)) /\
  (forall t, t <> EmptyString -> text_parts t = [TextPart (JString t)]) /\
  text_parts EmptyString = [] /\
  (filter converted_item (array_items request) = [] -> convertToZhipuFormat request = []) /\
  (forall item, contents request = Single item -> convertToZhipuFormat request = []) /\
  zhipu_role (val "user") = user /\
  zhipu_role (val "model") = assistant /\
  zhipu_role (val "system") = system.
Proof.
  intros H. unfold text_only_request in H.
  assert (Harray : forallb text_only_item (array_items request) = true).
  { unfold all_items in H. unfold array_items.
    destruct (contents request); [reflexivity | exact H]. }
  assert (Hm : convertToZhipuFormat request =
               map text_message (filter converted_item (array_items request))).
  { rewrite <- (text_items_messages _ Harray).
    unfold convertToZhipuFormat, array_items.
    destruct (contents request); [reflexivity | apply fold_push_item]. }
  split; [exact Hm|].
  split.
  { rewrite Hm, map_map. apply map_ext. intros item.
    unfold text_message. rewrite back_to_parts_text. reflexivity. }
  split.
  { intros t Hne. unfold text_parts. apply String.eqb_neq in Hne. rewrite Hne. reflexivity. }
  split; [reflexivity|].
  split.
  { intros Hnone. rewrite Hm, Hnone. reflexivity. }
  split.
  { intros item Hs. unfold convertToZhipuFormat. rewrite Hs. reflexivity. }
  repeat split.
Qed.

Lemma C5_round_trip_witness :
  convertToZhipuFormat (request_of (map ItemContent text_contents) JUndefined) =
    map text_message (filter converted_item (map ItemContent text_contents)) /\
  map (fun m => (msg_role m, back_to_parts m))
    (convertToZhipuFormat (request_of (map ItemContent text_contents) JUndefined)) =
    map (fun item => (item_role item, ret (text_parts (item_text item))))
      (filter converted_item (map ItemContent text_contents)).
Proof.
  pose proof (C5_text_contents_round_trip
                (request_of (map ItemContent text_contents) JUndefined) eq_refl) as H.
  exact (conj (proj1 H) (proj1 (proj2 H))).
Defined.

Example text_contents_round_trip :
  map (fun m => (msg_role m, back_to_parts m))
      (convertToZhipuFormat (request_of (map ItemContent text_contents) JUndefined)) =
  [(user, ret [TextPart (JString "Hello, world")]);
   (system, ret [TextPart (JString "be brief")])].
Proof. vm_compute. reflexivity. Qed.

(** C5, as stated, fails: text outside an array, in a content without a role
    and in a bare part is text of a request that holds nothing but text, and
    no message carries it. *)
Lemma C5_text_that_does_not_come_back :
  text_only_request {| contents := Single (ItemString "hi"); config_tools := JUndefined |}
  = true /\
  convertToZhipuFormat {| contents := Single (ItemString "hi"); config_tools := JUndefined |}
  = [] /\
  text_only_request (request_of passed_over JUndefined) = true /\
  map item_text passed_over = ["hi"; "hi"] /\
  convertToZhipuFormat (request_of passed_over JUndefined) = [].
Proof. repeat split. Qed.

(** ** mapZhipuFinishReason *)

(** C6. [mapZhipuFinishReason] is a total function: [stop] maps to [STOP],
    [length] to [MAX_TOKENS], [content_filter] to [SAFETY], every other
    string, and every value that is no string, to the unspecified reason. *)
Theorem C6_mapZhipuFinishReason_total :
  mapZhipuFinishReason (JString "stop") = STOP /\
  mapZhipuFinishReason (JString "length") = MAX_TOKENS /\
  mapZhipuFinishReason (JString "content_filter") = SAFETY /\
  (forall s, s <> "stop" -> s <> "length" -> s <> "content_filter" ->
     mapZhipuFinishReason (JString s) = FINISH_REASON_UNSPECIFIED) /\
  (forall v, (forall s, v <> JString s) ->
     mapZhipuFinishReason v = FINISH_REASON_UNSPECIFIED).
Proof.
  repeat split.
  - intros s H1 H2 H3. unfold mapZhipuFinishReason.
    apply String.eqb_neq in H1, H2, H3. rewrite H1, H2, H3. reflexivity.
  - intros v H. destruct v; try reflexivity. exfalso. exact (H s eq_refl).
Qed.

Lemma C6_other_reason_witness :
  mapZhipuFinishReason (JString "tool_calls") = FINISH_REASON_UNSPECIFIED.
Proof.
  refine (proj1 (proj2 (proj2 (proj2 C6_mapZhipuFinishReason_total))) "tool_calls" _ _ _);
    intros H; discriminate H.
Defined.

(** ** The request that is sent *)

Lemma no_requests_quiet {A : Type} (m : M A) : quiet m -> no_requests m.
Proof. apply quiet_requests. Qed.

Lemma no_requests_bind {A B : Type} (m : M A) (k : A -> M B) :
  no_requests m -> (forall a, no_requests (k a)) -> no_requests (bind m k).
Proof.
  unfold no_requests. intros Hm Hk. rewrite events_bind, requests_sent_app, Hm.
  destruct (outcome m); [apply Hk | reflexivity].
Qed.

Lemma events_try_catch {A : Type} (m : M A) (h : JSError -> M A) :
  events (try_catch m h) =
  events m ++ match outcome m with Ok _ => [] | Throw e => events (h e) end.
Proof.
  destruct m as [evs [a|e]]; unfold try_catch, events, outcome; cbn [fst snd].
  - rewrite app_nil_r. reflexivity.
  - destruct (h e). reflexivity.
Qed.

(** A call that builds a request, sends it and handles the answer, all in a
    [try] block: the request is sent once, unless building it throws. *)
Lemma requests_of_call {A : Type} (pre : M ZhipuRequest) (K : ZhipuRequest -> M A)
    (h : JSError -> M A) :
  quiet pre -> (forall zr, no_requests (K zr)) -> (forall e, no_requests (h e)) ->
  requests_sent (events (try_catch (zr <- pre ;; emit (Fetch zr) ;; K zr) h)) =
  match outcome pre with Ok zr => [zr] | Throw _ => [] end.
Proof.
  intros Hpre HK Hh. rewrite events_try_catch, requests_sent_app, events_bind.
  rewrite requests_sent_app, (quiet_requests _ Hpre), outcome_bind.
  destruct (outcome pre) as [zr|e].
  - rewrite events_bind, outcome_bind. cbn [emit events outcome fst snd app].
    change (requests_sent (Fetch zr :: events (K zr)))
      with (zr :: requests_sent (events (K zr))).
    rewrite (HK zr). destruct (outcome (K zr)); [reflexivity|].
    rewrite (Hh e). reflexivity.
  - rewrite (Hh e). reflexivity.
Qed.

Lemma build_request_outcome (m : string) (streaming : bool)
    (request : GenerateContentParameters) :
  outcome (build_request m streaming request) =
  match outcome (extractToolsFromRequest request) with
  | Ok ts => Ok {| model := m; messages := convertToZhipuFormat request;
                   stream := streaming; tools := ts |}
  | Throw e => Throw e
  end.
Proof.
  unfold build_request. rewrite outcome_bind.
  destruct (outcome (extractToolsFromRequest request)); reflexivity.
Qed.

Lemma quiet_build_request (m : string) (streaming : bool)
    (request : GenerateContentParameters) :
  quiet (build_request m streaming request).
Proof.
  unfold build_request. apply quiet_bind; [apply quiet_extractToolsFromRequest|].
  intros. apply quiet_ret.
Qed.

Lemma no_requests_handler {A : Type} (prefix : string) (error : JSError) :
  no_requests (emit (LogApiResponse None (Some error)) ;; @throw A (Error prefix (Some error))).
Proof. reflexivity. Qed.

(** Each of the two calls sends one request, with the converted messages. *)
Lemma generateContent_requests (m : string) (fetch : ZhipuRequest -> FetchResult)
    (request : GenerateContentParameters) :
  requests_sent (events (generateContent m fetch request)) =
  match outcome (extractToolsFromRequest request) with
  | Ok ts => [{| model := m; messages := convertToZhipuFormat request;
                 stream := false; tools := ts |}]
  | Throw _ => []
  end.
Proof.
  unfold generateContent. rewrite requests_of_call.
  - rewrite build_request_outcome.
    destruct (outcome (extractToolsFromRequest request)); reflexivity.
  - apply quiet_build_request.
  - intros zr. destruct (fetch zr) as [e|response]; [reflexivity|].
    destruct (negb (ok response)); [reflexivity|].
    repeat (apply no_requests_bind;
            [first [ apply no_requests_quiet; quiet_steps;
                     apply quiet_array_map; intros; quiet_steps
                   | reflexivity ]
            | intros ]).
    reflexivity.
  - intros e. apply no_requests_handler.
Qed.

Lemma generateContentStream_requests (m : string) (fetch : ZhipuRequest -> FetchResult)
    (request : GenerateContentParameters) :
  requests_sent (events (generateContentStream m fetch request)) =
  match outcome (extractToolsFromRequest request) with
  | Ok ts => [{| model := m; messages := convertToZhipuFormat request;
                 stream := true; tools := ts |}]
  | Throw _ => []
  end.
Proof.
  unfold generateContentStream. rewrite requests_of_call.
  - rewrite build_request_outcome.
    destruct (outcome (extractToolsFromRequest request)); reflexivity.
  - apply quiet_build_request.
  - intros zr. destruct (fetch zr) as [e|response]; [reflexivity|].
    destruct (negb (ok response)); [reflexivity|].
    destruct (body response); reflexivity.
  - intros e. apply no_requests_handler.
Qed.

(** C8. When [request.contents] is not an array (a single string, a single
    content object, a single part), [convertToZhipuFormat] returns no message,
    and the request that [generateContent] and [generateContentStream] send
    has an empty message list. *)
Theorem C8_single_contents_give_no_messages
    (item : ContentItem) (tools : JSValue) (m : string)
    (fetch : ZhipuRequest -> FetchResult) :
  convertToZhipuFormat {| contents := Single item; config_tools := tools |} = [] /\
  requests_sent
    (events (generateContent m fetch {| contents := Single item; config_tools := tools |})) =
  match outcome (extractToolsFromRequest {| contents := Single item; config_tools := tools |})
  with
  | Ok ts => [{| model := m; messages := []; stream := false; tools := ts |}]
  | Throw _ => []
  end /\
  requests_sent
    (events (generateContentStream m fetch
               {| contents := Single item; config_tools := tools |})) =
  match outcome (extractToolsFromRequest {| contents := Single item; config_tools := tools |})
  with
  | Ok ts => [{| model := m; messages := []; stream := true; tools := ts |}]
  | Throw _ => []
  end /\
  extractToolsFromRequest {| contents := Single item; config_tools := JUndefined |} =
  ret None.
Proof.
  split; [reflexivity|].
  split; [apply generateContent_requests|].
  split; [apply generateContentStream_requests | reflexivity].
Qed.

Example single_content_sent_without_messages :
  requests_sent
    (events (generateContent "glm-4" (answering (message_payload (JString "hello") []))
               {| contents := Single (ItemString "hi"); config_tools := JUndefined |})) =
  [{| model := "glm-4"; messages := []; stream := false; tools := None |}].
Proof. vm_compute. reflexivity. Qed.

(** ** The auth dialog *)
Section Escape.
Import AuthDialog.

(** While the OpenAI key prompt shows, the handler of the dialog ignores
    every key. *)
Lemma useInput_while_prompting (env : Env) (st : State) (key : Key) :
  showOpenAIKeyPrompt st = true -> useInput env st key = (st, []).
Proof. intros H. unfold useInput. rewrite H. reflexivity. Qed.

(** Selecting OpenAI without its key shows the key prompt and invokes nothing;
    submitting the prompt stores what was entered and then invokes [onSelect]
    with OpenAI. *)
Lemma capture_then_select (apiKey baseUrl model : string) :
  handleAuthSelect new_user (initial None) USE_OPENAI = (prompting, []) /\
  handleOpenAIKeySubmit prompting apiKey baseUrl model =
  (initial None,
   [setOpenAIApiKey apiKey; setOpenAIBaseUrl baseUrl; setOpenAIModel model;
    onSelect (Some USE_OPENAI) User]).
Proof. split; reflexivity. Qed.

(** C7 (as amended). While the OpenAI key prompt is not showing: escape with
    no auth method configured never invokes [onSelect] and leaves an error
    message set, the message that a method must be selected when none was set
    before; escape while an error message is set changes nothing and invokes
    nothing; escape with a method configured and no error message set invokes
    [onSelect] once, with [undefined]. *)
Theorem C7_escape_in_the_auth_dialog (env : Env) (st : State) :
  showOpenAIKeyPrompt st = false ->
  (selectedAuthType env = None ->
     snd (useInput env st escape_key) = [] /\
     truthy_string (errorMessage (fst (useInput env st escape_key))) = true /\
     (truthy_string (errorMessage st) = false ->
        fst (useInput env st escape_key) = setErrorMessage (Some must_select) st)) /\
  (truthy_string (errorMessage st) = true -> useInput env st escape_key = (st, [])) /\
  (forall a, selectedAuthType env = Some a -> truthy_string (errorMessage st) = false ->
     useInput env st escape_key = (st, [onSelect None User])).
Proof.
  intros Hp. unfold useInput. rewrite Hp. cbn [escape escape_key].
  split; [|split].
  - intros Hs. rewrite Hs.
    destruct (truthy_string (errorMessage st)) eqn:E; cbn [fst snd].
    + repeat split; [exact E | discriminate].
    + repeat split.
  - intros E. rewrite E. reflexivity.
  - intros a Hs E. rewrite Hs, E. reflexivity.
Qed.

Lemma C7_escape_witness :
  useInput zhipu_user (initial None) escape_key = (initial None, [onSelect None User]) /\
  fst (useInput new_user (initial None) escape_key) =
    setErrorMessage (Some must_select) (initial None).
Proof.
  split.
  - exact (proj2 (proj2 (C7_escape_in_the_auth_dialog zhipu_user (initial None) eq_refl))
             USE_ZHIPU eq_refl eq_refl).
  - exact (proj2 (proj2 (proj1 (C7_escape_in_the_auth_dialog new_user (initial None) eq_refl)
                           eq_refl)) eq_refl).
Defined.

(** C7, as stated, fails while the OpenAI key prompt shows, a state reached
    by selecting OpenAI without its key: with a method configured and no
    error message displayed, escape does not invoke [onSelect]; with no
    method configured, escape sets no error message. *)
Lemma C7_escape_ignored_while_prompting :
  handleAuthSelect zhipu_user (initial None) USE_OPENAI = (prompting, []) /\
  selectedAuthType zhipu_user = Some USE_ZHIPU /\
  truthy_string (errorMessage prompting) = false /\
  useInput zhipu_user prompting escape_key = (prompting, []) /\
  handleAuthSelect new_user (initial None) USE_OPENAI = (prompting, []) /\
  selectedAuthType new_user = None /\
  useInput new_user prompting escape_key = (prompting, []).
Proof. repeat split. Qed.
End Escape.

(** ** Further properties of the adapter *)
Import Spec2.

Lemma mapM_ret {A B : Type} (f : A -> M B) (g : A -> B) (l : list A) :
  (forall x, In x l -> f x = ret (g x)) -> mapM f l = ret (map g l).
Proof.
  induction l as [|x l IH]; intros H; cbn [mapM map]; [reflexivity|].
  rewrite (H x (or_introl eq_refl)), bind_ret_l, IH, bind_ret_l; [reflexivity|].
  intros y Hy. apply H. right. exact Hy.
Qed.

Lemma mapM_throw {A B : Type} (f : A -> M B) (g : A -> B) (e : JSError)
    (pre : list A) (x : A) (post : list A) :
  (forall y, In y pre -> f y = ret (g y)) -> f x = throw e ->
  mapM f (pre ++ x :: post) = throw e.
Proof.
  induction pre as [|y pre IH]; intros Hpre Hx; cbn [mapM app].
  - rewrite Hx. reflexivity.
  - rewrite (Hpre y (or_introl eq_refl)), bind_ret_l, IH; [reflexivity | | exact Hx].
    intros z Hz. apply Hpre. right. exact Hz.
Qed.

Lemma declaration_tool (funcDecl : JSValue) :
  printable_declaration funcDecl = true ->
  (name <- get funcDecl "name" ;;
   description <- get funcDecl "description" ;;
   parameters <- get funcDecl "parameters" ;;
   let toolFunction :=
     {| tool_name := name;
        tool_description := or_else description (JString EmptyString);
        tool_parameters := or_else parameters (JObject []) |} in
   ToString (tool_name toolFunction) ;;
   ret toolFunction) = ret (tool_of funcDecl).
Proof.
  unfold printable_declaration. intros H. apply andb_true_iff in H. destruct H as [H Hp].
  apply negb_true_iff in H.
  rewrite !(get_not_nullish _ _ H), !bind_ret_l. cbn zeta. cbn [tool_name].
  rewrite (ToString_printable _ Hp), bind_ret_l. reflexivity.
Qed.

Lemma declaration_refused (funcDecl : JSValue) :
  printable_declaration funcDecl = false ->
  (name <- get funcDecl "name" ;;
   description <- get funcDecl "description" ;;
   parameters <- get funcDecl "parameters" ;;
   let toolFunction :=
     {| tool_name := name;
        tool_description := or_else description (JString EmptyString);
        tool_parameters := or_else parameters (JObject []) |} in
   ToString (tool_name toolFunction) ;;
   ret toolFunction) = throw TypeError.
Proof.
  unfold printable_declaration. intros H.
  destruct (is_nullish funcDecl) eqn:Hn; [unfold get; rewrite Hn; reflexivity|].
  cbn [negb andb] in H.
  rewrite !(get_not_nullish _ _ Hn), !bind_ret_l. cbn zeta. cbn [tool_name].
  rewrite (ToString_unprintable _ H). reflexivity.
Qed.

(** X1. [extractToolsFromRequest] gives no tools when the request has no
    tools or when their [functionDeclarations] is no array; otherwise, when
    every declaration is a value other than [null] and [undefined] whose name
    can be printed (any string can; an object with a [toString] of its own
    cannot), it gives one tool per declaration, in order, with the name as it
    is, the empty string for a missing description and the empty object for
    missing parameters; the first declaration that is [null] or [undefined],
    or whose name cannot be printed, makes it throw a type error. *)
Theorem X1_extractToolsFromRequest (request : GenerateContentParameters) :
  (truthy (config_tools request) = false ->
     extractToolsFromRequest request = ret None) /\
  (truthy (config_tools request) = true ->
     (forall decls, own_prop (config_tools request) "functionDeclarations" <> JArray decls) ->
     extractToolsFromRequest request = ret None) /\
  (forall decls,
     truthy (config_tools request) = true ->
     own_prop (config_tools request) "functionDeclarations" = JArray decls ->
     (forallb printable_declaration decls = true ->
        extractToolsFromRequest request = ret (Some (map tool_of decls))) /\
     (forall pre d post,
        decls = pre ++ d :: post ->
        forallb printable_declaration pre = true -> printable_declaration d = false ->
        extractToolsFromRequest request = throw TypeError)) /\
  (forall d, is_nullish d = true -> printable_declaration d = false) /\
  (forall d s, is_nullish d = false -> own_prop d "name" = JString s ->
     printable_declaration d = true) /\
  (forall d ps v, is_nullish d = false -> own_prop d "name" = JObject ps ->
     lookup "toString" ps = Some v -> printable_declaration d = false).
Proof.
  unfold extractToolsFromRequest. split; [|split; [|split; [|split; [|split]]]].
  - intros H. rewrite H. reflexivity.
  - intros H Hn. rewrite H. cbn [negb].
    destruct (own_prop (config_tools request) "functionDeclarations");
      try reflexivity.
    exfalso. exact (Hn _ eq_refl).
  - intros decls H Hd. rewrite H, Hd. cbn [negb]. split.
    + intros Hall. rewrite (mapM_ret _ tool_of), bind_ret_l; [reflexivity|].
      intros x Hx. apply declaration_tool.
      rewrite forallb_forall in Hall. exact (Hall x Hx).
    + intros pre d post -> Hpre Hbad.
      rewrite (mapM_throw _ tool_of TypeError); [reflexivity| |].
      * intros x Hx. apply declaration_tool.
        rewrite forallb_forall in Hpre. exact (Hpre x Hx).
      * apply declaration_refused. exact Hbad.
  - intros d H. unfold printable_declaration. rewrite H. reflexivity.
  - intros d t H Hname. unfold printable_declaration. rewrite H, Hname. reflexivity.
  - intros d ps v H Hname Hl. unfold printable_declaration.
    rewrite H, Hname. cbn [negb andb printable]. rewrite Hl. reflexivity.
Qed.

Lemma X1_tools_witness :
  extractToolsFromRequest {| contents := Many []; config_tools := tools_object |} =
  ret (Some [{| tool_name := JString "get_weather";
                tool_description := JString EmptyString;
                tool_parameters := JObject [("type", JString "object")] |}]) /\
  extractToolsFromRequest
    {| contents := Many [];
       config_tools :=
         JObject [("functionDeclarations",
                   JArray ([weather_declaration] ++ unprintable_declaration :: []))] |} =
  throw TypeError.
Proof.
  split.
  - exact (proj1 (proj1 (proj2 (proj2 (X1_extractToolsFromRequest
                                         {| contents := Many [];
                                            config_tools := tools_object |})))
                    [weather_declaration] eq_refl eq_refl) eq_refl).
  - exact (proj2 (proj1 (proj2 (proj2 (X1_extractToolsFromRequest
                                         {| contents := Many [];
                                            config_tools :=
                                              JObject [("functionDeclarations",
                                                        JArray ([weather_declaration] ++
                                                                unprintable_declaration :: []))]
                                         |})))
                    ([weather_declaration] ++ unprintable_declaration :: [])
                    eq_refl eq_refl)
             [weather_declaration] unprintable_declaration [] eq_refl eq_refl eq_refl).
Defined.

(** X2. Tools given as an array, as [@google/genai] types [config.tools],
    have no [functionDeclarations] of their own: none is extracted, and both
    calls send the request without tools. *)
Theorem X2_tool_arrays_are_not_sent (l : list JSValue) (cs : ContentListUnion) (m : string)
    (fetch : ZhipuRequest -> FetchResult) :
  extractToolsFromRequest {| contents := cs; config_tools := JArray l |} = ret None /\
  requests_sent
    (events (generateContent m fetch {| contents := cs; config_tools := JArray l |})) =
  [{| model := m;
      messages := convertToZhipuFormat {| contents := cs; config_tools := JArray l |};
      stream := false; tools := None |}] /\
  requests_sent
    (events (generateContentStream m fetch {| contents := cs; config_tools := JArray l |})) =
  [{| model := m;
      messages := convertToZhipuFormat {| contents := cs; config_tools := JArray l |};
      stream := true; tools := None |}].
Proof.
  split; [reflexivity|].
  split; [rewrite generateContent_requests | rewrite generateContentStream_requests];
    reflexivity.
Qed.

(** ** Telemetry *)

Lemma telemetry_app (a b : list Event) : telemetry (a ++ b) = telemetry a ++ telemetry b.
Proof. apply flat_map_app. Qed.

Lemma quiet_telemetry {A : Type} (m : M A) : quiet m -> telemetry (events m) = [].
Proof.
  unfold quiet. induction 1 as [|ev evs Hev _ IH]; [reflexivity|].
  cbn [telemetry flat_map]. fold (telemetry evs). rewrite IH.
  destruct ev; try contradiction; reflexivity.
Qed.

Lemma reports_throw (e : JSError) : reports (throw e).
Proof. reflexivity. Qed.

Lemma reports_bind {A : Type} (m : M A) (k : A -> M GenerateContentResponse) :
  telemetry (events m) = [] -> (forall a, reports (k a)) -> reports (bind m k).
Proof.
  unfold reports. intros Hm Hk. rewrite events_bind, outcome_bind, telemetry_app, Hm.
  destruct (outcome m); [apply Hk | reflexivity].
Qed.

Lemma reports_quiet_bind {A : Type} (m : M A) (k : A -> M GenerateContentResponse) :
  quiet m -> (forall a, reports (k a)) -> reports (bind m k).
Proof. intros Hm. apply reports_bind, quiet_telemetry, Hm. Qed.

(** What a [try] block that reports on success becomes under the handler that
    reports the error and throws it on, prefixed. *)
Lemma reported_call (body : M GenerateContentResponse) (prefix : string) :
  reports body ->
  (exists r,
     outcome body = Ok r /\
     try_catch body (fun error =>
       emit (LogApiResponse None (Some error)) ;; throw (Error prefix (Some error)))
     = (events body, Ok r) /\
     telemetry (events body) = [(usageMetadata r, None)]) \/
  (exists e,
     outcome body = Throw e /\
     try_catch body (fun error =>
       emit (LogApiResponse None (Some error)) ;; throw (Error prefix (Some error)))
     = (events body ++ [LogApiResponse None (Some e)], Throw (Error prefix (Some e))) /\
     telemetry (events body ++ [LogApiResponse None (Some e)]) = [(None, Some e)]).
Proof.
  unfold reports. destruct body as [evs [r|e]]; cbn [events outcome fst snd]; intros H.
  - left. exists r. repeat split. exact H.
  - right. exists e. repeat split. rewrite telemetry_app, H. reflexivity.
Qed.

Lemma quiet_json_or_throw (o : option JSValue) :
  quiet (match o with Some v => ret v | None => throw SyntaxError end).
Proof. destruct o; constructor. Qed.

(** The [try] block of [generateContent]. *)
Lemma generateContent_body_reports (m : string) (fetch : ZhipuRequest -> FetchResult)
    (request : GenerateContentParameters) :
  reports
    (zhipuRequest <- build_request m false request ;;
     emit (Fetch zhipuRequest) ;;
     match fetch zhipuRequest with
     | Rejected e => throw e
     | Responded response =>
         if negb (ok response) then
           throw (Error (String.append "Zhipu API error: " (status_line response)) None)
         else
           zhipuResponse <- match json response with
                            | Some v => ret v
                            | None => throw SyntaxError
                            end ;;
           log_tool_calls "ZHIPU: Received ${zhipuResponse.tool_calls.length} tool calls from API"
             "ZHIPU: Tool call ${index + 1}: ${toolCall.function.name}"
             (Some "ZHIPU: No tool calls received from API") zhipuResponse ;;
           i <- get zhipuResponse "id" ;;
           m <- get zhipuResponse "model" ;;
           choices <- get zhipuResponse "choices" ;;
           cs <- array_map choices (message_candidate zhipuResponse) ;;
           u <- usage_of zhipuResponse ;;
           emit (LogApiResponse u None) ;;
           ret {| responseId := i; modelVersion := m; candidates := cs; usageMetadata := u |}
     end).
Proof.
  apply reports_quiet_bind; [apply quiet_build_request|]. intros zr.
  apply reports_bind; [reflexivity|]. intros _.
  destruct (fetch zr) as [e|response]; [apply reports_throw|].
  destruct (negb (ok response)); [apply reports_throw|].
  apply reports_quiet_bind; [apply quiet_json_or_throw|]. intros v.
  apply reports_quiet_bind; [apply quiet_log_tool_calls|]. intros _.
  apply reports_quiet_bind; [apply quiet_get|]. intros i.
  apply reports_quiet_bind; [apply quiet_get|]. intros mv.
  apply reports_quiet_bind; [apply quiet_get|]. intros choices.
  apply reports_quiet_bind.
  { apply quiet_array_map. intros. apply quiet_message_candidate. }
  intros cs.
  apply reports_quiet_bind; [apply quiet_usage_of|]. intros u.
  reflexivity.
Qed.

(** X3. Every call of [generateContent] reports to telemetry exactly once:
    either it returns a response and has reported the usage metadata of that
    response, without an error, or it throws an error prefixed
    [Zhipu API error: ] and has reported the error it wraps, without usage.
    A rejected request is wrapped as it is; a status that is not ok is wrapped
    around the error that already carries the prefix and the status; a body
    that is no JSON is wrapped as a syntax error. *)
Theorem X3_generateContent_reports_once (m : string) (fetch : ZhipuRequest -> FetchResult)
    (request : GenerateContentParameters) :
  ((exists r,
      outcome (generateContent m fetch request) = Ok r /\
      telemetry (events (generateContent m fetch request)) = [(usageMetadata r, None)]) \/
   (exists e,
      outcome (generateContent m fetch request) = Throw (Error "Zhipu API error: " (Some e)) /\
      telemetry (events (generateContent m fetch request)) = [(None, Some e)])) /\
  (forall ts, outcome (extractToolsFromRequest request) = Ok ts ->
     (forall e, (forall zr, fetch zr = Rejected e) ->
        outcome (generateContent m fetch request) =
        Throw (Error "Zhipu API error: " (Some e))) /\
     (forall response, (forall zr, fetch zr = Responded response) -> ok response = false ->
        outcome (generateContent m fetch request) =
        Throw (Error "Zhipu API error: "
                 (Some (Error (String.append "Zhipu API error: " (status_line response))
                          None)))) /\
     (forall response, (forall zr, fetch zr = Responded response) -> ok response = true ->
        json response = None ->
        outcome (generateContent m fetch request) =
        Throw (Error "Zhipu API error: " (Some SyntaxError)))).
Proof.
  split.
  - unfold generateContent.
    destruct (reported_call _ "Zhipu API error: "
                (generateContent_body_reports m fetch request))
      as [(r & _ & -> & Ht) | (e & _ & -> & Ht)].
    + left. exists r. split; [reflexivity | exact Ht].
    + right. exists e. split; [reflexivity | exact Ht].
  - intros ts Hts. unfold generateContent.
    assert (Hb : forall K h,
               outcome (try_catch (zr <- build_request m false request ;;
                                   emit (Fetch zr) ;; K zr) h) =
               outcome (try_catch
                          (K {| model := m; messages := convertToZhipuFormat request;
                                stream := false; tools := ts |}) h)
               :> Outcome GenerateContentResponse).
    { intros K h. unfold build_request.
      destruct (extractToolsFromRequest request) as [evs [ts'|e']];
        cbn [outcome snd] in Hts; [|discriminate].
      injection Hts as ->. cbn [bind ret emit app].
      destruct (K _) as [evs' [r|e']]; cbn [try_catch outcome snd]; [reflexivity|].
      destruct (h e'). reflexivity. }
    repeat split.
    + intros e He. rewrite Hb, He. reflexivity.
    + intros response Hr Hok. rewrite Hb, Hr, Hok. reflexivity.
    + intros response Hr Hok Hj. rewrite Hb, Hr, Hok, Hj. reflexivity.
Qed.

Lemma X3_reports_witness :
  outcome (generateContent "glm-4"
             (fun _ => Responded {| ok := false; status_line := "401 Unauthorized";
                                    json := None; body := None |}) hello_request) =
  Throw (Error "Zhipu API error: "
           (Some (Error "Zhipu API error: 401 Unauthorized" None))).
Proof.
  exact (proj1 (proj2 (proj2 (X3_generateContent_reports_once "glm-4"
                                (fun _ => Responded {| ok := false;
                                                       status_line := "401 Unauthorized";
                                                       json := None; body := None |})
                                hello_request) None eq_refl))
           _ (fun _ => eq_refl) eq_refl).
Defined.


Lemma stream_events_process_line (line : string) :
  Forall stream_event (events (process_line line)).
Proof.
  rewrite process_line_run.
  destruct (startsWith "data: " line); [|constructor].
  destruct (String.eqb (slice 6 line) "[DONE]"); [constructor|].
  destruct (JSON_parse (slice 6 line)) as [v|]; [|repeat constructor].
  unfold events at 1. cbn [fst]. apply Forall_app. split.
  - eapply Forall_impl; [|exact (quiet_fragment_response v)].
    intros ev. destruct ev; cbn; auto.
  - destruct (outcome (fragment_response v)); repeat constructor.
Qed.

Lemma stream_events_flush (buffer : string) : Forall stream_event (events (flush buffer)).
Proof.
  rewrite flush_run.
  destruct (String.eqb (trim buffer) EmptyString); [constructor|].
  destruct (JSON_parse (trim buffer)) as [v|]; [|repeat constructor].
  unfold events at 1. cbn [fst]. apply Forall_app. split.
  - eapply Forall_impl; [|exact (quiet_final_response v)].
    intros ev. destruct ev; cbn; auto.
  - destruct (outcome (final_response v)); repeat constructor.
Qed.

(** Before the reader is released a run produces console output and
    fragments only. *)
Lemma streamGenerator_stream_events (chunks : list string) (rejection : option JSError) :
  exists evs,
    events (streamGenerator chunks rejection) = evs ++ [ReleaseLock] /\
    Forall stream_event evs.
Proof.
  exists (flat_map (fun l => events (process_line l)) (complete_lines (stream_body chunks)) ++
          match rejection with
          | None => events (flush (remainder (stream_body chunks)))
          | Some _ => []
          end).
  split; [rewrite streamGenerator_run, app_assoc; reflexivity|].
  apply Forall_app. split;
    [|destruct rejection; [constructor | apply stream_events_flush]].
  induction (complete_lines (stream_body chunks)) as [|l ls IH]; [constructor|].
  cbn [flat_map]. apply Forall_app. split; [apply stream_events_process_line | exact IH].
Qed.

Lemma stream_events_telemetry (evs : list Event) :
  Forall stream_event evs -> telemetry evs = [] /\ releases evs = 0.
Proof.
  induction 1 as [|ev evs Hev _ [IH1 IH2]]; [split; reflexivity|].
  unfold releases in *. cbn [telemetry flat_map filter]. fold (telemetry evs).
  destruct ev; try contradiction; cbn [app List.length]; split; assumption.
Qed.



(** X5. A run of the stream generator depends on the text the reader
    delivers and on how the reading ends, not on how that text is cut into
    chunks. The generator has no [catch] of its own around the reading: it
    ends normally when the body is read to its end, and it throws the error
    of the read when a read is rejected, after the lines completed before
    and without flushing the remainder. In both cases it releases the reader
    exactly once, as the last thing it does. *)
Theorem X5_chunking_does_not_matter (chunks chunks' : list string)
    (rejection : option JSError) :
  stream_body chunks = stream_body chunks' ->
  streamGenerator chunks rejection = streamGenerator chunks' rejection /\
  outcome (streamGenerator chunks rejection) =
    match rejection with
    | None => Ok tt
    | Some e => Throw e
    end /\
  events (streamGenerator chunks rejection) =
    flat_map (fun l => events (process_line l)) (complete_lines (stream_body chunks)) ++
    match rejection with
    | None => events (flush (remainder (stream_body chunks)))
    | Some _ => []
    end ++ [ReleaseLock] /\
  releases (events (streamGenerator chunks rejection)) = 1 /\
  exists evs,
    events (streamGenerator chunks rejection) = evs ++ [ReleaseLock] /\ releases evs = 0.
Proof.
  intros H. split; [rewrite !streamGenerator_lines, H; reflexivity|].
  split; [apply streamGenerator_ends|].
  split; [apply streamGenerator_run|].
  destruct (streamGenerator_stream_events chunks rejection) as (evs & He & Hevs).
  pose proof (proj2 (stream_events_telemetry evs Hevs)) as Hr.
  split.
  - rewrite He. unfold releases in *. rewrite filter_app, length_app, Hr. reflexivity.
  - exists evs. split; assumption.
Qed.

Lemma X5_chunking_witness :
  streamGenerator example_chunks None = streamGenerator [stream_body example_chunks] None /\
  outcome (streamGenerator example_chunks (Some TypeError)) = Throw TypeError /\
  events (streamGenerator ["data: [DONE]"] (Some TypeError)) = [ReleaseLock].
Proof.
  split; [|split].
  - exact (proj1 (X5_chunking_does_not_matter example_chunks [stream_body example_chunks]
                    None eq_refl)).
  - exact (proj1 (proj2 (X5_chunking_does_not_matter example_chunks example_chunks
                           (Some TypeError) eq_refl))).
  - exact (proj1 (proj2 (proj2 (X5_chunking_does_not_matter
                                  ["data: [DONE]"] ["data: [DONE]"]
                                  (Some TypeError) eq_refl)))).
Defined.

(** ** What a response carries over *)

Lemma outcome_try_catch_ok {A : Type} (body : M A) (h : JSError -> M A) (a : A) :
  (forall e, exists e', outcome (h e) = Throw e') ->
  outcome (try_catch body h) = Ok a -> outcome body = Ok a.
Proof.
  intros Hh. destruct body as [evs [x|e]]; cbn [try_catch outcome snd]; [auto|].
  destruct (Hh e) as [e' He']. destruct (h e) as [evs' r]. cbn [outcome snd] in *.
  rewrite He'. discriminate.
Qed.

Lemma outcome_usage_of (v : JSValue) (u : option UsageMetadata) :
  outcome (usage_of v) = Ok u -> u = copied_usage v.
Proof.
  unfold usage_of, copied_usage. intros H.
  apply outcome_bind_ok in H. destruct H as (usage & Hu & H).
  apply outcome_get_ok in Hu. subst usage.
  destruct (truthy (own_prop v "usage")); [|apply outcome_ret_ok in H; congruence].
  apply outcome_bind_ok in H. destruct H as (p & Hp & H).
  apply outcome_bind_ok in H. destruct H as (c & Hc & H).
  apply outcome_bind_ok in H. destruct H as (t & Ht & H).
  apply outcome_get_ok in Hp, Hc, Ht. apply outcome_ret_ok in H. subst. reflexivity.
Qed.

Lemma message_candidate_carries (v choice : JSValue) (c : Candidate) :
  outcome (message_candidate v choice) = Ok c -> carries choice c.
Proof.
  unfold message_candidate, carries. intros H.
  apply outcome_bind_ok in H. destruct H as (i & Hi & H).
  apply outcome_bind_ok in H. destruct H as (message & _ & H).
  apply outcome_bind_ok in H. destruct H as (tc & _ & H).
  apply outcome_bind_ok in H. destruct H as (ps & _ & H).
  apply outcome_bind_ok in H. destruct H as (reason & Hr & H).
  apply outcome_ret_ok in H. apply outcome_get_ok in Hi, Hr. subst. repeat split.
Qed.

Lemma delta_candidate_carries (choice : JSValue) (c : Candidate) :
  outcome (delta_candidate choice) = Ok c -> carries choice c.
Proof.
  unfold delta_candidate, carries. intros H.
  apply outcome_bind_ok in H. destruct H as (delta & _ & H).
  apply outcome_bind_ok in H. destruct H as (i & Hi & H).
  apply outcome_bind_ok in H. destruct H as (ps & _ & H).
  apply outcome_bind_ok in H. destruct H as (reason & Hr & H).
  apply outcome_ret_ok in H. apply outcome_get_ok in Hi, Hr. subst. repeat split.
Qed.

(** X6. A response that [generateContent] returns is built from the JSON of
    an ok answer to its request: the id and the model are copied; there is one
    candidate per choice, in the order of the choices, with the index of the
    choice, the role [model], the mapped finish reason, and the parts of the
    message content followed by the top-level tool calls; the usage counters
    are copied as they are when [usage] is truthy and left out otherwise. *)
Theorem X6_generateContent_carries_the_response
    (m : string) (fetch : ZhipuRequest -> FetchResult)
    (request : GenerateContentParameters) (r : GenerateContentResponse) :
  outcome (generateContent m fetch request) = Ok r ->
  exists zr response v choices,
    messages zr = convertToZhipuFormat request /\
    fetch zr = Responded response /\ ok response = true /\ json response = Some v /\
    own_prop v "choices" = JArray choices /\
    responseId r = own_prop v "id" /\
    modelVersion r = own_prop v "model" /\
    usageMetadata r = copied_usage v /\
    Forall2 (fun choice c =>
               carries choice c /\
               outcome (convertZhipuResponseToParts
                          (get_opt (own_prop choice "message") "content")
                          (own_prop v "tool_calls"))
               = Ok (content_parts c))
            choices (candidates r).
Proof.
  unfold generateContent. intros H.
  apply outcome_try_catch_ok in H; [|intros e; eexists; reflexivity].
  apply outcome_bind_ok in H. destruct H as (zr & Hzr & H).
  apply outcome_bind_ok in H. destruct H as (_ & _ & H).
  destruct (fetch zr) as [e|response] eqn:Hf; [discriminate|].
  destruct (ok response) eqn:Hok; [|discriminate]. cbn [negb] in H.
  apply outcome_bind_ok in H. destruct H as (v & Hv & H).
  destruct (json response) as [v'|] eqn:Hj; [|discriminate].
  apply outcome_ret_ok in Hv. subst v'.
  apply outcome_bind_ok in H. destruct H as (_ & _ & H).
  apply outcome_bind_ok in H. destruct H as (i & Hi & H).
  apply outcome_bind_ok in H. destruct H as (mv & Hm & H).
  apply outcome_bind_ok in H. destruct H as (choices & Hch & H).
  apply outcome_bind_ok in H. destruct H as (cs & Hcs & H).
  apply outcome_bind_ok in H. destruct H as (u & Hu & H).
  apply outcome_bind_ok in H. destruct H as (_ & _ & H).
  apply outcome_ret_ok in H. subst r.
  apply outcome_get_ok in Hi, Hm, Hch. subst.
  apply outcome_usage_of in Hu.
  apply outcome_array_map_ok in Hcs. destruct Hcs as (l & Hl & Hall).
  exists zr, response, v, l. cbn [responseId modelVersion usageMetadata candidates].
  rewrite build_request_outcome in Hzr.
  destruct (outcome (extractToolsFromRequest request)); [|discriminate].
  injection Hzr as <-. cbn [messages].
  repeat split; try assumption; try reflexivity.
  eapply Forall2_impl; [|exact Hall].
  intros choice c Hc. split.
  - exact (message_candidate_carries v choice c Hc).
  - exact (message_candidate_parts v choice c Hc).
Qed.

Lemma X6_response_witness :
  exists zr response v choices,
    messages zr = convertToZhipuFormat hello_request /\
    answering (message_payload (JString "hello") [tool_call "{}"]) zr = Responded response /\
    ok response = true /\ json response = Some v /\
    own_prop v "choices" = JArray choices /\
    JString "r1" = own_prop v "id" /\
    JString "glm-4" = own_prop v "model" /\
    None = copied_usage v /\
    Forall2 (fun choice c =>
               carries choice c /\
               outcome (convertZhipuResponseToParts
                          (get_opt (own_prop choice "message") "content")
                          (own_prop v "tool_calls"))
               = Ok (content_parts c))
            choices
            [{| index := JNumber "0"; content_role := "model";
                content_parts :=
                  [TextPart (JString "hello");
                   FunctionCallPart (JString "call_1") (JString "get_weather") (JObject [])];
                finishReason := STOP |}].
Proof.
  exact (X6_generateContent_carries_the_response "glm-4"
           (answering (message_payload (JString "hello") [tool_call "{}"])) hello_request
           {| responseId := JString "r1"; modelVersion := JString "glm-4";
              candidates :=
                [{| index := JNumber "0"; content_role := "model";
                    content_parts :=
                      [TextPart (JString "hello");
                       FunctionCallPart (JString "call_1") (JString "get_weather")
                         (JObject [])];
                    finishReason := STOP |}];
              usageMetadata := None |}
           eq_refl).
Defined.

(** X7. A fragment yielded for a line has one candidate per choice of the
    parsed payload, in order, with the index of the choice, the role [model]
    and the mapped finish reason, and it carries the usage counters of the
    payload when [usage] is truthy. The fragment yielded at the end of the
    stream has its candidates built the same way, but never carries usage
    metadata, whatever the remainder holds. *)
Theorem X7_fragments_carry_the_payload :
  (forall line r, In r (line_fragments line) ->
     exists v choices,
       JSON_parse (slice 6 line) = Some v /\
       own_prop v "choices" = JArray choices /\
       responseId r = own_prop v "id" /\
       modelVersion r = own_prop v "model" /\
       usageMetadata r = copied_usage v /\
       Forall2 carries choices (candidates r)) /\
  (forall buffer r, In r (remainder_fragments buffer) ->
     exists v choices,
       JSON_parse (trim buffer) = Some v /\
       own_prop v "choices" = JArray choices /\
       responseId r = own_prop v "id" /\
       modelVersion r = own_prop v "model" /\
       usageMetadata r = None /\
       Forall2 carries choices (candidates r)).
Proof.
  split.
  - intros line r. unfold line_fragments.
    destruct (startsWith "data: " line); [|intros []].
    destruct (String.eqb (slice 6 line) "[DONE]"); [intros []|].
    destruct (JSON_parse (slice 6 line)) as [v|]; [|intros []].
    destruct (outcome (fragment_response v)) as [r'|e] eqn:H; [|intros []].
    intros [<-|[]]. unfold fragment_response in H.
    apply outcome_bind_ok in H. destruct H as (_ & _ & H).
    apply outcome_bind_ok in H. destruct H as (i & Hi & H).
    apply outcome_bind_ok in H. destruct H as (mv & Hm & H).
    apply outcome_bind_ok in H. destruct H as (choices & Hch & H).
    apply outcome_bind_ok in H. destruct H as (cs & Hcs & H).
    apply outcome_bind_ok in H. destruct H as (u & Hu & H).
    apply outcome_ret_ok in H. subst r'.
    apply outcome_get_ok in Hi, Hm, Hch. subst.
    apply outcome_usage_of in Hu.
    apply outcome_array_map_ok in Hcs. destruct Hcs as (l & Hl & Hall).
    exists v, l. cbn [responseId modelVersion usageMetadata candidates].
    repeat split; try assumption; try reflexivity.
    eapply Forall2_impl; [|exact Hall]. exact delta_candidate_carries.
  - intros buffer r. unfold remainder_fragments.
    destruct (JSON_parse (trim buffer)) as [v|]; [|intros []].
    destruct (outcome (final_response v)) as [r'|e] eqn:H; [|intros []].
    intros [<-|[]]. unfold final_response in H.
    apply outcome_bind_ok in H. destruct H as (i & Hi & H).
    apply outcome_bind_ok in H. destruct H as (mv & Hm & H).
    apply outcome_bind_ok in H. destruct H as (choices & Hch & H).
    apply outcome_bind_ok in H. destruct H as (cs & Hcs & H).
    apply outcome_ret_ok in H. subst r'.
    apply outcome_get_ok in Hi, Hm, Hch. subst.
    apply outcome_array_map_ok in Hcs. destruct Hcs as (l & Hl & Hall).
    exists v, l. cbn [responseId modelVersion usageMetadata candidates].
    repeat split; try assumption; try reflexivity.
    eapply Forall2_impl; [|exact Hall]. exact (message_candidate_carries v).
Qed.

Lemma X7_fragment_witness :
  exists v choices,
    JSON_parse (slice 6 ("data: " ++ json_text (delta_payload "he"))) = Some v /\
    own_prop v "choices" = JArray choices /\
    responseId (delta_fragment "he") = own_prop v "id" /\
    modelVersion (delta_fragment "he") = own_prop v "model" /\
    usageMetadata (delta_fragment "he") = copied_usage v /\
    Forall2 carries choices (candidates (delta_fragment "he")).
Proof.
  exact (proj1 X7_fragments_carry_the_payload
           ("data: " ++ json_text (delta_payload "he"))%string (delta_fragment "he")
           (or_introl eq_refl)).
Defined.

(** ** Content parts first, tool calls after *)

Lemma convert_without_tool_calls (content : JSValue) :
  convertZhipuResponseToParts content JUndefined =
  (if truthy content then
     match content with
     | JString _ => ret [TextPart content]
     | JArray items => foldM push_content_item items []
     | _ => ret []
     end
   else ret []).
Proof.
  unfold convertZhipuResponseToParts.
  rewrite (truthy_with_length_falsy JUndefined eq_refl).
  destruct (if truthy content
            then match content with
                 | JString _ => ret [TextPart content]
                 | JArray items => foldM push_content_item items []
                 | _ => ret []
                 end
            else ret []) as [evs [parts|e]]; [|reflexivity].
  unfold bind at 1. rewrite bind_ret_l. cbn [ret]. rewrite app_nil_r. reflexivity.
Qed.

Lemma convert_with_tool_calls (content : JSValue) (l : list JSValue) :
  convertZhipuResponseToParts content (JArray l) =
  (parts <- convertZhipuResponseToParts content JUndefined ;;
   foldM push_tool_call l parts).
Proof.
  rewrite convert_without_tool_calls. unfold convertZhipuResponseToParts.
  rewrite truthy_with_length_array. cbn [iterate].
  destruct (if truthy content
            then match content with
                 | JString _ => ret [TextPart content]
                 | JArray items => foldM push_content_item items []
                 | _ => ret []
                 end
            else ret []) as [evs [parts|e]]; [|reflexivity].
  unfold bind at 1. rewrite bind_ret_l.
  destruct l as [|x l]; cbn [is_nil negb]; [reflexivity|].
  rewrite bind_ret_l. reflexivity.
Qed.

Lemma push_tool_call_ok (parts : list ResponsePart) (tc : JSValue) (ps : list ResponsePart) :
  outcome (push_tool_call parts tc) = Ok ps ->
  is_nullish tc = false /\ is_nullish (own_prop tc "function") = false /\
  ps = parts ++ [tool_call_part tc].
Proof.
  unfold tool_call_part.
  destruct (is_nullish tc) eqn:Ht.
  { unfold push_tool_call, get. rewrite Ht. cbn. discriminate. }
  destruct (is_nullish (own_prop tc "function")) eqn:Hf.
  { unfold push_tool_call. rewrite !(get_not_nullish tc _ Ht), !bind_ret_l.
    unfold get. rewrite Hf. cbn. discriminate. }
  destruct (JSON_parse_value (own_prop (own_prop tc "function") "arguments")) eqn:Hp.
  - rewrite (push_tool_call_good_arguments parts tc _ Ht Hf Hp).
    intros H. apply outcome_ret_ok in H. auto.
  - rewrite (push_tool_call_bad_arguments parts tc Ht Hf Hp).
    cbn [outcome snd]. intros H. injection H as <-. auto.
Qed.

Lemma foldM_push_tool_call_ok (l : list JSValue) (parts ps : list ResponsePart) :
  outcome (foldM push_tool_call l parts) = Ok ps ->
  Forall (fun tc => is_nullish tc = false /\ is_nullish (own_prop tc "function") = false) l /\
  ps = parts ++ map tool_call_part l.
Proof.
  revert parts. induction l as [|tc l IH]; intros parts; cbn [foldM map].
  - intros H. apply outcome_ret_ok in H. subst. rewrite app_nil_r. split; [constructor | reflexivity].
  - intros H. apply outcome_bind_ok in H. destruct H as (ps' & H1 & H2).
    apply push_tool_call_ok in H1. destruct H1 as (Ht & Hf & ->).
    apply IH in H2. destruct H2 as (Hall & ->).
    split; [constructor; auto|]. rewrite <- app_assoc. reflexivity.
Qed.

(** X8. The parts of a response are the parts of the message content
    followed by one function-call part per top-level tool call, in the order
    of the tool calls, with the parsed arguments, or the empty object when the
    arguments are no JSON. The conversion succeeds exactly when the content
    converts and every tool call is an object with a [function]. *)
Theorem X8_tool_calls_follow_the_content (content : JSValue) (l : list JSValue) :
  (forall ps,
     outcome (convertZhipuResponseToParts content (JArray l)) = Ok ps ->
     exists cps,
       outcome (convertZhipuResponseToParts content JUndefined) = Ok cps /\
       Forall (fun tc => is_nullish tc = false /\
                         is_nullish (own_prop tc "function") = false) l /\
       ps = cps ++ map tool_call_part l) /\
  (forall cps,
     outcome (convertZhipuResponseToParts content JUndefined) = Ok cps ->
     Forall (fun tc => is_nullish tc = false /\
                       is_nullish (own_prop tc "function") = false) l ->
     outcome (convertZhipuResponseToParts content (JArray l)) =
     Ok (cps ++ map tool_call_part l)).
Proof.
  rewrite convert_with_tool_calls. split.
  - intros ps H. apply outcome_bind_ok in H. destruct H as (cps & Hc & H).
    apply foldM_push_tool_call_ok in H. destruct H as (Hall & ->).
    exists cps. auto.
  - intros cps Hc Hall. rewrite outcome_bind, Hc.
    apply tool_calls_never_abort. exact Hall.
Qed.

Lemma X8_tool_calls_witness :
  outcome (convertZhipuResponseToParts (JString "hello")
             (JArray [tool_call "{}"; tool_call "{city"])) =
  Ok ([TextPart (JString "hello")] ++
      map tool_call_part [tool_call "{}"; tool_call "{city"]).
Proof.
  refine (proj2 (X8_tool_calls_follow_the_content (JString "hello")
                   [tool_call "{}"; tool_call "{city"]) _ eq_refl _).
  repeat constructor.
Defined.

(** ** Tool calls that the diagnostics cannot print *)

Lemma combine_seq_app {A : Type} (l1 l2 : list A) (n : nat) :
  combine (l1 ++ l2) (seq n (List.length (l1 ++ l2))) =
  combine l1 (seq n (List.length l1)) ++
  combine l2 (seq (n + List.length l1) (List.length l2)).
Proof.
  revert n. induction l1 as [|x l1 IH]; intros n.
  - cbn [app List.length combine seq]. rewrite Nat.add_0_r. reflexivity.
  - cbn [app List.length combine seq]. rewrite IH.
    replace (S n + List.length l1) with (n + S (List.length l1)) by lia. reflexivity.
Qed.

Lemma forM_tool_call_log_ends (each : string) (l : list (JSValue * nat)) :
  outcome (forM (fun xi : JSValue * nat => log_tool_call each (fst xi) (snd xi)) l) = Ok tt \/
  outcome (forM (fun xi : JSValue * nat => log_tool_call each (fst xi) (snd xi)) l) =
  Throw TypeError.
Proof.
  induction l as [|[tc i] l IH]; cbn [forM fst snd]; [left; reflexivity|].
  rewrite outcome_bind.
  destruct (log_tool_call_ends each tc i) as [-> | ->]; [exact IH | right; reflexivity].
Qed.

Lemma log_tool_call_without_function (each : string) (tc : JSValue) (i : nat) :
  is_nullish tc = true \/ is_nullish (own_prop tc "function") = true ->
  outcome (log_tool_call each tc i) = Throw TypeError.
Proof.
  intros Hbad. unfold log_tool_call. destruct Hbad as [Hn|Hn].
  - unfold get at 1. rewrite Hn. reflexivity.
  - destruct (is_nullish tc) eqn:Ht; [unfold get at 1; rewrite Ht; reflexivity|].
    rewrite (get_not_nullish tc _ Ht), bind_ret_l. unfold get at 1. rewrite Hn. reflexivity.
Qed.

Lemma log_tool_calls_undeclared (received each : string) (none : option string)
    (ps : list (string * JSValue)) (pre : list JSValue) (tc : JSValue) (post : list JSValue) :
  lookup "tool_calls" ps = Some (JArray (pre ++ tc :: post)) ->
  is_nullish tc = true \/ is_nullish (own_prop tc "function") = true ->
  outcome (log_tool_calls received each none (JObject ps)) = Throw TypeError.
Proof.
  intros Hl Hbad. unfold log_tool_calls.
  rewrite get_not_nullish by reflexivity. rewrite bind_ret_l. cbn [own_prop]. rewrite Hl.
  rewrite truthy_with_length_array, bind_ret_l.
  replace (negb (is_nil (pre ++ tc :: post))) with true by (destruct pre; reflexivity).
  rewrite outcome_bind. cbn [emit outcome snd array_forEach].
  rewrite combine_seq_app, forM_app, outcome_bind.
  destruct (forM_tool_call_log_ends each (combine pre (seq 0 (List.length pre))))
    as [-> | ->]; [|reflexivity].
  cbn [List.length seq combine forM fst snd]. rewrite outcome_bind.
  rewrite (log_tool_call_without_function each tc _ Hbad). reflexivity.
Qed.

(** X9. The diagnostics on tool calls can cost a fragment: when the
    [tool_calls] of a streamed payload hold an element that is [null] or has
    no [function], printing its name throws, so the line is logged as an error
    and yields no fragment, although the parts of a streamed fragment never
    use the tool calls. *)
Theorem X9_unprintable_tool_call_drops_the_line
    (payload : string) (ps : list (string * JSValue))
    (pre : list JSValue) (tc : JSValue) (post : list JSValue) :
  payload <> "[DONE]" ->
  JSON_parse payload = Some (JObject ps) ->
  lookup "tool_calls" ps = Some (JArray (pre ++ tc :: post)) ->
  is_nullish tc = true \/ is_nullish (own_prop tc "function") = true ->
  outcome (fragment_response (JObject ps)) = Throw TypeError /\
  line_fragments ("data: " ++ payload) = [] /\
  exists evs,
    process_line ("data: " ++ payload) =
    (evs ++ [ConsoleError "Error parsing Zhipu streaming response:" TypeError], Ok tt).
Proof.
  intros Hne Hp Hl Hbad.
  assert (Ho : outcome (fragment_response (JObject ps)) = Throw TypeError).
  { unfold fragment_response. rewrite outcome_bind.
    rewrite (log_tool_calls_undeclared _ _ None ps pre tc post Hl Hbad). reflexivity. }
  apply String.eqb_neq in Hne.
  split; [exact Ho|]. split.
  - unfold line_fragments. destruct (data_line_payload payload) as [-> ->].
    rewrite Hne, Hp, Ho. reflexivity.
  - rewrite process_line_run. destruct (data_line_payload payload) as [-> ->].
    rewrite Hne, Hp, Ho. eexists. reflexivity.
Qed.

Lemma X9_dropped_line_witness :
  line_fragments ("data: " ++ json_text nameless_payload) = [].
Proof.
  refine (proj1 (proj2 (X9_unprintable_tool_call_drops_the_line
                          (json_text nameless_payload)
                          [("choices",
                            JArray [JObject [("index", JNumber "0");
                                             ("delta", JObject [("content", JString "he")])]]);
                           ("tool_calls", JArray [JObject [("id", JString "call_1")]])]
                          [] (JObject [("id", JString "call_1")]) [] _ _ _ _))).
  - vm_compute. intros H. discriminate H.
  - vm_compute. reflexivity.
  - reflexivity.
  - right. reflexivity.
Defined.

(** ** Function calls and responses, there and back *)

Lemma back_to_parts_items (r : ZhipuRole) (l : list ZhipuItem) :
  back_to_parts (message r (ContentItems l)) = foldM push_content_item (map js_of_item l) [].
Proof.
  unfold back_to_parts, message. cbn [msg_content js_of_content].
  rewrite convert_without_tool_calls. reflexivity.
Qed.

Lemma push_response_item (parts : list ResponsePart) (fr : FunctionResponse) :
  push_content_item parts (js_of_item (function_response_item fr)) =
  ret (parts ++ [response_part_back fr]).
Proof. reflexivity. Qed.

Lemma foldM_response_items (frs : list FunctionResponse) (parts : list ResponsePart) :
  foldM push_content_item (map js_of_item (map function_response_item frs)) parts =
  ret (parts ++ map response_part_back frs).
Proof.
  revert parts. induction frs as [|fr frs IH]; intros parts; cbn [map foldM].
  - rewrite app_nil_r. reflexivity.
  - rewrite push_response_item, bind_ret_l, IH, <- app_assoc. reflexivity.
Qed.

(** X10. A message of function responses built by [convertToZhipuFormat]
    converts back without error to one function-response part per response,
    in order, with the same name and id; the payload does not come back as the
    object it was: it is the text that was sent, the string itself when the
    response was a string and its JSON otherwise. *)
Theorem X10_function_responses_come_back_as_text (r : ZhipuRole)
    (frs : list FunctionResponse) :
  back_to_parts (message r (ContentItems (map function_response_item frs))) =
  ret (map (fun fr =>
              FunctionResponsePart (js_of_option (fr_id fr)) (js_of_option (fr_name fr))
                (js_of_option (response_text fr))) frs) /\
  (forall fr s, fr_response fr = JString s -> response_text fr = Some s) /\
  (forall fr, (forall s, fr_response fr <> JString s) ->
     response_text fr = JSON_stringify (fr_response fr)).
Proof.
  split; [rewrite back_to_parts_items; apply foldM_response_items|].
  split.
  - intros fr s H. unfold response_text. rewrite H. reflexivity.
  - intros fr H. unfold response_text.
    destruct (fr_response fr); try reflexivity. exfalso. exact (H _ eq_refl).
Qed.

Lemma push_call_item (parts : list ResponsePart) (fc : FunctionCall) :
  push_content_item parts (js_of_item (function_call_item fc)) =
  match call_arguments fc with
  | Some args => ret (parts ++ [call_part_back fc args])
  | None => throw SyntaxError
  end.
Proof.
  unfold call_arguments.
  cbv -[JSON_stringify JSON_parse_value JSON_parse_or_throw js_of_option app].
  rewrite JSON_parse_or_throw_run.
  destruct (JSON_stringify _) as [t|]; cbn [js_of_option printable];
    destruct (JSON_parse_value _); reflexivity.
Qed.

Lemma foldM_call_items (fcs : list FunctionCall) (args : list JSValue)
    (parts : list ResponsePart) :
  Forall2 (fun fc a => call_arguments fc = Some a) fcs args ->
  foldM push_content_item (map js_of_item (map function_call_item fcs)) parts =
  ret (parts ++ map (fun p => call_part_back (fst p) (snd p)) (combine fcs args)).
Proof.
  intros H. revert parts. induction H as [|fc a fcs args Hfc _ IH]; intros parts.
  - cbn. rewrite app_nil_r. reflexivity.
  - cbn [map foldM combine fst snd].
    rewrite push_call_item, Hfc, bind_ret_l, IH, <- app_assoc. reflexivity.
Qed.

Lemma foldM_call_items_throw (pre : list FunctionCall) (fc : FunctionCall)
    (post : list FunctionCall) (parts : list ResponsePart) :
  Forall (fun fc => call_arguments fc <> None) pre ->
  call_arguments fc = None ->
  outcome (foldM push_content_item
             (map js_of_item (map function_call_item (pre ++ fc :: post))) parts) =
  Throw SyntaxError.
Proof.
  intros Hpre Hfc. revert parts. induction Hpre as [|x pre Hx _ IH]; intros parts.
  - cbn [app map foldM]. rewrite push_call_item, Hfc. reflexivity.
  - cbn [app map foldM]. rewrite push_call_item.
    destruct (call_arguments x) as [a|]; [|contradiction].
    rewrite bind_ret_l. apply IH.
Qed.

(** X11. A message of function calls built by [convertToZhipuFormat]
    converts back to one function-call part per call, in order, with the same
    name and id and with the arguments parsed again from their JSON, when
    every call has arguments whose JSON parses. A call without arguments has
    no JSON: its item carries no arguments text, and converting the message
    back throws a syntax error. *)
Theorem X11_function_calls_come_back_parsed (r : ZhipuRole) :
  (forall fcs args,
     Forall2 (fun fc a => call_arguments fc = Some a) fcs args ->
     back_to_parts (message r (ContentItems (map function_call_item fcs))) =
     ret (map (fun p => call_part_back (fst p) (snd p)) (combine fcs args))) /\
  (forall pre fc post,
     Forall (fun fc => call_arguments fc <> None) pre ->
     call_arguments fc = None ->
     outcome (back_to_parts
                (message r (ContentItems (map function_call_item (pre ++ fc :: post))))) =
     Throw SyntaxError) /\
  (forall fc, fc_args fc = JUndefined ->
     function_call_item fc = function_call (fc_name fc) None (fc_id fc) /\
     call_arguments fc = None).
Proof.
  split; [|split].
  - intros fcs args H. rewrite back_to_parts_items. apply (foldM_call_items fcs args [] H).
  - intros pre fc post Hpre Hfc. rewrite back_to_parts_items.
    apply foldM_call_items_throw; assumption.
  - intros fc H. unfold function_call_item, call_arguments. rewrite H.
    split; vm_compute; reflexivity.
Qed.

Lemma X11_calls_witness :
  back_to_parts (message assistant (ContentItems (map function_call_item [weather_call]))) =
  ret [FunctionCallPart (JString "call_1") (JString "get_weather")
         (JObject [("city", JString "Paris")])] /\
  outcome (back_to_parts
             (message assistant
                (ContentItems (map function_call_item ([weather_call] ++ call_without_args :: [])))))
  = Throw SyntaxError.
Proof.
  split.
  - refine (proj1 (X11_function_calls_come_back_parsed assistant) [weather_call]
              [JObject [("city", JString "Paris")]] _).
    constructor; [vm_compute; reflexivity | constructor].
  - refine (proj1 (proj2 (X11_function_calls_come_back_parsed assistant))
              [weather_call] call_without_args [] _ _).
    + constructor; [vm_compute; intros H; discriminate H | constructor].
    + vm_compute. reflexivity.
Defined.

(** ** Embeddings *)
Import Embedding.

Lemma concat_texts_of (ps : list PartUnion) :
  String.concat EmptyString (texts_of ps) = String.concat EmptyString (map part_text ps).
Proof.
  unfold texts_of.
  induction ps as [|p ps IH]; [reflexivity|].
  cbn [flat_map map]. rewrite (concat_cons (part_text p)), <- IH.
  destruct p as [s | [t fc fr]].
  - cbn [sorted_as app part_text]. apply concat_cons.
  - cbn [sorted_as part_text text functionCall functionResponse].
    destruct t as [t|].
    + destruct (String.eqb t EmptyString) eqn:E.
      * apply String.eqb_eq in E. subst t. destruct fc, fr; reflexivity.
      * cbn [app]. apply concat_cons.
    + destruct fc, fr; reflexivity.
Qed.

Lemma item_input_embedded (item : ContentItem) :
  parts_defined item = true -> item_input item = ret (embedded item).
Proof.
  destruct item as [s | c | p]; cbn [item_input embedded parts_defined]; try reflexivity.
  unfold content_text, parts_of, joined_parts.
  destruct (parts c); [reflexivity | discriminate | reflexivity].
Qed.

Lemma item_input_undefined (item : ContentItem) :
  parts_defined item = false -> item_input item = throw TypeError.
Proof.
  destruct item as [s | c | p]; cbn [item_input parts_defined]; try discriminate.
  destruct (parts c); try discriminate. reflexivity.
Qed.

Lemma forallb_In {A : Type} (f : A -> bool) (l : list A) (x : A) :
  forallb f l = true -> In x l -> f x = true.
Proof. intros H Hx. rewrite forallb_forall in H. exact (H x Hx). Qed.

(** X12. The text embedded for a content is the text a chat request carries
    for it: a string as it is, and for a content the joined text of its parts
    (function calls and responses add nothing), which is also the content of
    the text message [convertToZhipuFormat] builds for it. An array gives one
    string per item, in order; a bare part embeds as the empty string, its
    text left out. A content whose [parts] is [undefined] makes building the
    input throw a type error. *)
Theorem X12_embedded_text_is_the_chat_text :
  (forall items, forallb parts_defined items = true ->
     embedding_input (Many items) = ret (InputStrings (map embedded items))) /\
  (forall item, parts_defined item = true ->
     embedding_input (Single item) = ret (InputString (embedded item))) /\
  (forall pre item post, forallb parts_defined pre = true -> parts_defined item = false ->
     embedding_input (Many (pre ++ item :: post)) = throw TypeError) /\
  (forall c tools m t,
     In m (convertToZhipuFormat (request_of [ItemContent c] tools)) ->
     msg_content m = ContentString t -> t = embedded (ItemContent c)).
Proof.
  split; [|split; [|split]].
  - intros items H. unfold embedding_input.
    rewrite (mapM_ret item_input embedded), bind_ret_l; [reflexivity|].
    intros x Hx. apply item_input_embedded. exact (forallb_In _ _ _ H Hx).
  - intros [s | c | p] H; cbn [embedding_input embedded]; try reflexivity.
    cbn [parts_defined] in H. unfold content_text, parts_of, joined_parts.
    destruct (parts c); [reflexivity | discriminate | reflexivity].
  - intros pre item post Hpre Hitem. unfold embedding_input.
    rewrite (mapM_throw item_input embedded TypeError); [reflexivity | |].
    + intros y Hy. apply item_input_embedded. exact (forallb_In _ _ _ Hpre Hy).
    + apply item_input_undefined. exact Hitem.
  - intros c tools m t Hm Ht. rewrite convertToZhipuFormat_items in Hm.
    cbn [flat_map item_messages] in Hm. rewrite app_nil_r in Hm.
    destruct (has_key (role c) && has_key (parts c)); [|destruct Hm].
    unfold content_messages in Hm. cbn [embedded]. unfold content_text.
    rewrite <- concat_texts_of.
    apply in_app_or in Hm. destruct Hm as [Hm | Hm].
    + destruct (is_nil (texts_of (parts_of c))); [destruct Hm|].
      destruct Hm as [<- | []]. cbn [message msg_content] in Ht. congruence.
    + apply in_app_or in Hm. destruct Hm as [Hm | Hm];
        match type of Hm with In _ (if ?b then _ else _) => destruct b end;
        try destruct Hm as [<- | []]; try destruct Hm;
        cbn [message msg_content] in Ht; discriminate Ht.
Qed.

Lemma X12_embedded_witness :
  embedding_input (Many [ItemString "hello"; ItemContent greeting; ItemPart bare_part]) =
  ret (InputStrings ["hello"; "good day"; EmptyString]) /\
  embedding_input
    (Many ([ItemString "hello"] ++
           ItemContent {| role := val "user"; parts := undef |} :: [])) = throw TypeError.
Proof.
  split.
  - refine (proj1 X12_embedded_text_is_the_chat_text
              [ItemString "hello"; ItemContent greeting; ItemPart bare_part] _).
    reflexivity.
  - refine (proj1 (proj2 (proj2 X12_embedded_text_is_the_chat_text))
              [ItemString "hello"]
              (ItemContent {| role := val "user"; parts := undef |}) [] _ _);
      reflexivity.
Defined.

Lemma events_ret_nil {A : Type} (a : A) : events (ret a) = [].
Proof. reflexivity. Qed.

Lemma events_throw_nil {A : Type} (e : JSError) : events (throw e : M A) = [].
Proof. reflexivity. Qed.

Lemma events_bind_nil {A B : Type} (m : M A) (k : A -> M B) :
  events m = [] -> (forall a, events (k a) = []) -> events (bind m k) = [].
Proof.
  intros Hm Hk. rewrite events_bind, Hm.
  destruct (outcome m); [apply Hk | reflexivity].
Qed.

Lemma events_get_nil (v : JSValue) (k : string) : events (get v k) = [].
Proof. unfold get. destruct (is_nullish v); reflexivity. Qed.

Lemma events_mapM_nil {A B : Type} (f : A -> M B) (l : list A) :
  (forall x, events (f x) = []) -> events (mapM f l) = [].
Proof.
  intros Hf. induction l as [|x l IH]; cbn [mapM]; [reflexivity|].
  apply events_bind_nil; [apply Hf|]. intros y.
  apply events_bind_nil; [exact IH|]. intros ys. reflexivity.
Qed.

Lemma events_item_input (item : ContentItem) : events (item_input item) = [].
Proof.
  destruct item as [s | c | p]; cbn [item_input]; try reflexivity.
  destruct (parts c); reflexivity.
Qed.

Lemma events_embedding_input (contents : ContentListUnion) :
  events (embedding_input contents) = [].
Proof.
  destruct contents as [[s | c | p] | items]; cbn [embedding_input]; try reflexivity.
  - destruct (parts c); reflexivity.
  - apply events_bind_nil; [|reflexivity].
    apply events_mapM_nil. exact events_item_input.
Qed.

Lemma embedContent_unfold (fetch : ZhipuEmbeddingRequest -> FetchResult)
    (contents : ContentListUnion) (i : EmbeddingInput) :
  embedding_input contents = ret i ->
  embedContent fetch contents =
  try_catch
    (match fetch {| embedding_model := embeddingModel; input := i |} with
     | Rejected e => throw e
     | Responded response =>
         if negb (ok response) then
           throw (Error (String.append "Zhipu Embedding API error: " (status_line response))
                    None)
         else
           zhipuResponse <- match json response with
                            | Some v => ret v
                            | None => throw SyntaxError
                            end ;;
           data <- get zhipuResponse "data" ;;
           l <- array_map data (fun item =>
                  e <- get item "embedding" ;; ret {| values := e |}) ;;
           ret {| embeddings := l |}
     end)
    (fun error => throw (embedding_error error)).
Proof. intros H. unfold embedContent. rewrite H, bind_ret_l. reflexivity. Qed.

Lemma embedding_input_run (contents : ContentListUnion) :
  (exists i, embedding_input contents = ret i) \/
  (exists e, embedding_input contents = throw e).
Proof.
  pose proof (events_embedding_input contents) as H.
  destruct (embedding_input contents) as [evs [i|e]]; cbn [events fst] in H; subst evs.
  - left. exists i. reflexivity.
  - right. exists e. reflexivity.
Qed.

(** X13. [embedContent] sends one request with the input built from the
    contents. When it returns, the answer was a successful response whose
    JSON has an array [data], and the result holds one embedding per item of
    [data], in order, with that item's [embedding] as its values. Every
    failure, whether building the input, a rejected request, a status that is
    not ok, a body that is no JSON or an answer of another shape, is thrown as
    an error with the message prefix of the embedding API and the original
    error as its cause; a status that is not ok so carries the prefix twice.
    No call, failed or not, is reported to the telemetry. *)
Theorem X13_embedContent (fetch : ZhipuEmbeddingRequest -> FetchResult)
    (contents : ContentListUnion) :
  events (embedContent fetch contents) = [] /\
  (forall r, outcome (embedContent fetch contents) = Ok r ->
     exists i response v data,
       embedding_input contents = ret i /\
       fetch {| embedding_model := embeddingModel; input := i |} = Responded response /\
       ok response = true /\ json response = Some v /\
       own_prop v "data" = JArray data /\
       Forall2 (fun item e => values e = own_prop item "embedding") data (embeddings r)) /\
  (forall e, outcome (embedContent fetch contents) = Throw e ->
     exists cause, e = embedding_error cause) /\
  (forall i response,
     embedding_input contents = ret i ->
     fetch {| embedding_model := embeddingModel; input := i |} = Responded response ->
     ok response = false ->
     outcome (embedContent fetch contents) =
     Throw (embedding_error
              (Error (String.append "Zhipu Embedding API error: " (status_line response))
                 None))) /\
  (forall i e,
     embedding_input contents = ret i ->
     fetch {| embedding_model := embeddingModel; input := i |} = Rejected e ->
     outcome (embedContent fetch contents) = Throw (embedding_error e)).
Proof.
  split; [|split; [|split; [|split]]].
  - unfold embedContent. rewrite events_try_catch.
    assert (Hbody : forall i,
      events (match fetch {| embedding_model := embeddingModel; input := i |} with
              | Rejected e => throw e
              | Responded response =>
                  if negb (ok response) then
                    throw (Error (String.append "Zhipu Embedding API error: "
                                    (status_line response)) None)
                  else
                    zhipuResponse <- match json response with
                                     | Some v => ret v
                                     | None => throw SyntaxError
                                     end ;;
                    data <- get zhipuResponse "data" ;;
                    l <- array_map data (fun item =>
                           e <- get item "embedding" ;; ret {| values := e |}) ;;
                    ret {| embeddings := l |}
              end : M EmbedContentResponse) = []).
    { intros i. destruct (fetch _) as [e | response]; [reflexivity|].
      destruct (negb (ok response)); [reflexivity|].
      apply events_bind_nil; [destruct (json response); reflexivity|]. intros v.
      apply events_bind_nil; [apply events_get_nil|]. intros data.
      apply events_bind_nil; [|reflexivity].
      destruct data; try reflexivity. cbn [array_map].
      apply events_mapM_nil. intros item.
      apply events_bind_nil; [apply events_get_nil | reflexivity]. }
    rewrite (events_bind_nil _ _ (events_embedding_input contents) Hbody).
    destruct (outcome _); reflexivity.
  - intros r H.
    destruct (embedding_input_run contents) as [[i Hi] | [e He]].
    + rewrite (embedContent_unfold fetch contents i Hi) in H.
      apply outcome_try_catch_ok in H; [|intros e; eexists; reflexivity].
      exists i. destruct (fetch _) as [e | response]; [discriminate H|].
      destruct (ok response) eqn:Hok; cbn [negb] in H; [|discriminate H].
      apply outcome_bind_ok in H. destruct H as (v & Hv & H).
      destruct (json response) as [v'|] eqn:Hjson; [|discriminate Hv].
      apply outcome_ret_ok in Hv. subst v'.
      apply outcome_bind_ok in H. destruct H as (data & Hdata & H).
      apply outcome_get_ok in Hdata.
      apply outcome_bind_ok in H. destruct H as (l & Hl & H).
      apply outcome_ret_ok in H. subst r. cbn [embeddings].
      apply outcome_array_map_ok in Hl. destruct Hl as (items & Hitems & Hl).
      exists response, v, items. repeat split; try reflexivity; try congruence.
      clear - Hl. induction Hl as [|item e items l He _ IH]; constructor; [|exact IH].
      apply outcome_bind_ok in He. destruct He as (x & Hx & He).
      apply outcome_get_ok in Hx. apply outcome_ret_ok in He. subst. reflexivity.
    + unfold embedContent in H. rewrite He, bind_throw in H. discriminate H.
  - intros e H. unfold embedContent in H.
    match type of H with outcome (try_catch ?b _) = _ => destruct b as [evs [a|e']] end;
      cbn [try_catch outcome snd throw] in H; [discriminate H|].
    exists e'. unfold embedding_error. injection H as <-. reflexivity.
  - intros i response Hi Hf Hok.
    rewrite (embedContent_unfold fetch contents i Hi), Hf, Hok. reflexivity.
  - intros i e Hi Hf.
    rewrite (embedContent_unfold fetch contents i Hi), Hf. reflexivity.
Qed.

Lemma X13_embedContent_witness :
  exists i response v data,
    embedding_input (Single (ItemString "hello")) = ret i /\
    (fun _ => Responded embedding_answer)
      {| embedding_model := embeddingModel; input := i |} = Responded response /\
    ok response = true /\ json response = Some v /\
    own_prop v "data" = JArray data /\
    Forall2 (fun item e => values e = own_prop item "embedding") data
      [{| values := JArray [JNumber "1"; JNumber "2"] |}].
Proof.
  exact (proj1 (proj2 (X13_embedContent (fun _ => Responded embedding_answer)
                         (Single (ItemString "hello"))))
           {| embeddings := [{| values := JArray [JNumber "1"; JNumber "2"] |}] |}
           eq_refl).
Defined.

(** ** The generator without tools *)




Lemma simple_candidate_carries (choice : JSValue) (c : Candidate) :
  outcome (Simple.candidate_of choice) = Ok c ->
  carries choice c /\ content_parts c = [only_part choice].
Proof.
  unfold Simple.candidate_of, carries, only_part. intros H.
  apply outcome_bind_ok in H. destruct H as (i & Hi & H).
  apply outcome_bind_ok in H. destruct H as (message & Hm & H).
  apply outcome_bind_ok in H. destruct H as (reason & Hr & H).
  apply outcome_ret_ok in H. apply outcome_get_ok in Hi, Hm, Hr. subst. repeat split.
Qed.

(** X15. A response that the generator without tools returns has one
    candidate per choice of the answer, in order, and every candidate has
    exactly one part, a text part holding the message content of the choice
    as it is, or the empty string when that content is missing or falsy. For a
    choice whose message content is a non-empty string, in a response without
    top-level tool calls, this is the candidate the generator with tools
    builds. *)
Theorem X15_one_text_part_per_candidate
    (m : string) (fetch : ZhipuRequest -> FetchResult)
    (request : GenerateContentParameters) (r : GenerateContentResponse) :
  outcome (Simple.generateContent m fetch request) = Ok r ->
  (exists response v choices,
     fetch {| model := m; messages := Simple.convertToZhipuFormat request;
              stream := false; tools := None |} = Responded response /\
     ok response = true /\ json response = Some v /\
     own_prop v "choices" = JArray choices /\
     responseId r = own_prop v "id" /\
     modelVersion r = own_prop v "model" /\
     usageMetadata r = copied_usage v /\
     Forall2 (fun choice c => carries choice c /\ content_parts c = [only_part choice])
       choices (candidates r)) /\
  (forall v choice s,
     is_nullish v = false -> truthy (own_prop v "tool_calls") = false ->
     get_opt (own_prop choice "message") "content" = JString s -> s <> EmptyString ->
     message_candidate v choice = Simple.candidate_of choice).
Proof.
  intros H. split.
  - unfold Simple.generateContent in H.
    apply outcome_try_catch_ok in H;
      [|intros e; eexists; rewrite outcome_bind; reflexivity].
    apply outcome_bind_ok in H. destruct H as (_ & _ & H).
    destruct (fetch _) as [e|response] eqn:Hf; [discriminate|].
    destruct (ok response) eqn:Hok; [|discriminate]. cbn [negb] in H.
    apply outcome_bind_ok in H. destruct H as (v & Hv & H).
    destruct (json response) as [v'|] eqn:Hj; [|discriminate].
    apply outcome_ret_ok in Hv. subst v'.
    apply outcome_bind_ok in H. destruct H as (i & Hi & H).
    apply outcome_bind_ok in H. destruct H as (mv & Hm & H).
    apply outcome_bind_ok in H. destruct H as (choices & Hch & H).
    apply outcome_bind_ok in H. destruct H as (cs & Hcs & H).
    apply outcome_bind_ok in H. destruct H as (u & Hu & H).
    apply outcome_bind_ok in H. destruct H as (_ & _ & H).
    apply outcome_ret_ok in H. subst r.
    apply outcome_get_ok in Hi, Hm, Hch. subst.
    apply outcome_usage_of in Hu.
    apply outcome_array_map_ok in Hcs. destruct Hcs as (l & Hl & Hall).
    exists response, v, l. cbn [responseId modelVersion usageMetadata candidates].
    repeat split; try assumption; try reflexivity.
    eapply Forall2_impl; [|exact Hall].
    intros choice c Hc. exact (simple_candidate_carries choice c Hc).
  - intros v choice s Hv Htc Hcontent Hs.
    unfold message_candidate, Simple.candidate_of.
    destruct (is_nullish choice) eqn:Hchoice.
    + unfold get at 1 5. rewrite Hchoice. reflexivity.
    + rewrite !(get_not_nullish choice _ Hchoice), (get_not_nullish v _ Hv), !bind_ret_l.
      rewrite Hcontent. unfold convertZhipuResponseToParts, or_else.
      assert (Ht : truthy (JString s) = true).
      { cbn [truthy]. destruct (String.eqb s EmptyString) eqn:E; [|reflexivity].
        apply String.eqb_eq in E. contradiction. }
      rewrite Ht, (truthy_with_length_falsy _ Htc). rewrite !bind_ret_l. reflexivity.
Qed.

Lemma X15_candidates_witness :
  exists response v choices,
    answering (message_payload (JString "hello") [])
      {| model := "glm-4"; messages := Simple.convertToZhipuFormat hello_request;
         stream := false; tools := None |} = Responded response /\
    ok response = true /\ json response = Some v /\
    own_prop v "choices" = JArray choices /\
    JString "r1" = own_prop v "id" /\
    JString "glm-4" = own_prop v "model" /\
    None = copied_usage v /\
    Forall2 (fun choice c => carries choice c /\ content_parts c = [only_part choice])
      choices
      [{| index := JNumber "0"; content_role := "model";
          content_parts := [TextPart (JString "hello")]; finishReason := STOP |}].
Proof.
  exact (proj1 (X15_one_text_part_per_candidate "glm-4"
                  (answering (message_payload (JString "hello") [])) hello_request
                  {| responseId := JString "r1"; modelVersion := JString "glm-4";
                     candidates :=
                       [{| index := JNumber "0"; content_role := "model";
                           content_parts := [TextPart (JString "hello")];
                           finishReason := STOP |}];
                     usageMetadata := None |}
                  eq_refl)).
Defined.

(** ** The auth dialog as a whole *)
Import AuthDialog AuthFlow.

Lemma possible_view (st : State) (act : Action) :
  possible st act = true ->
  match act with
  | Press _ => True
  | Pick a => view st = AuthList /\ listed a = true
  | SubmitOpenAIKey _ _ _ | CancelOpenAIKey => view st = KeyPromptOpenAI
  | SubmitZhipuKey _ _ | CancelZhipuKey => view st = KeyPromptZhipu
  end.
Proof.
  unfold possible. destruct act, (view st); try discriminate; auto.
Qed.

Lemma view_AuthList (st : State) :
  view st = AuthList -> showOpenAIKeyPrompt st = false /\ showZhipuKeyPrompt st = false.
Proof.
  unfold view. destruct (showOpenAIKeyPrompt st), (showZhipuKeyPrompt st);
    try discriminate; auto.
Qed.

Lemma view_KeyPromptZhipu (st : State) :
  view st = KeyPromptZhipu -> showOpenAIKeyPrompt st = false.
Proof.
  unfold view. destruct (showOpenAIKeyPrompt st), (showZhipuKeyPrompt st);
    try discriminate; auto.
Qed.

(** X16. Whatever the user does, the dialog never has both key prompts open,
    and while the OpenAI key prompt is open no error message is set. The
    Zhipu key prompt has no such guarantee: with it open, escape still sets
    the message that a method must be selected. *)
Theorem X16_key_prompt_invariants (env : Env) (initialErrorMessage : option string)
    (st : State) :
  reachable env initialErrorMessage st ->
  showOpenAIKeyPrompt st && showZhipuKeyPrompt st = false /\
  (showOpenAIKeyPrompt st = true -> errorMessage st = None) /\
  (exists st', reachable keyless_user None st' /\
               showZhipuKeyPrompt st' = true /\ errorMessage st' = Some must_select).
Proof.
  intros H. split; [|split].
  - induction H as [|st act _ IH Hp]; [reflexivity|].
    apply possible_view in Hp. destruct act as [key | a | k u m | | k m | ].
    + cbn [handle]. unfold useInput.
      destruct (showOpenAIKeyPrompt st) eqn:Ho; [cbn [fst]; rewrite Ho; exact IH|].
      destruct (escape key); [|cbn [fst]; rewrite Ho; reflexivity].
      destruct (truthy_string (errorMessage st)); [cbn [fst]; rewrite Ho; reflexivity|].
      destruct (selectedAuthType env); cbn [fst setErrorMessage showOpenAIKeyPrompt];
        rewrite Ho; reflexivity.
    + destruct Hp as [Hv _]. apply view_AuthList in Hv. destruct Hv as [Ho Hz].
      cbn [handle]. unfold handleAuthSelect.
      destruct (truthy_string _); [|cbn; rewrite Ho; reflexivity].
      destruct (is_openai a && _); [cbn; exact Hz|].
      destruct (is_zhipu a && _); cbn; rewrite Ho; reflexivity.
    + reflexivity.
    + reflexivity.
    + apply view_KeyPromptZhipu in Hp. cbn. rewrite Hp. reflexivity.
    + apply view_KeyPromptZhipu in Hp. cbn. rewrite Hp. reflexivity.
  - induction H as [|st act _ IH Hp]; [discriminate|].
    apply possible_view in Hp. destruct act as [key | a | k u m | | k m | ].
    + cbn [handle]. unfold useInput.
      destruct (showOpenAIKeyPrompt st) eqn:Ho; [cbn [fst]; intros _; exact (IH eq_refl)|].
      destruct (escape key); [|cbn [fst]; rewrite Ho; discriminate].
      destruct (truthy_string (errorMessage st)); [cbn [fst]; rewrite Ho; discriminate|].
      destruct (selectedAuthType env); cbn [fst setErrorMessage showOpenAIKeyPrompt];
        rewrite Ho; discriminate.
    + destruct Hp as [Hv _]. apply view_AuthList in Hv. destruct Hv as [Ho Hz].
      cbn [handle]. unfold handleAuthSelect.
      destruct (truthy_string _); [|cbn; rewrite Ho; discriminate].
      destruct (is_openai a && _); [reflexivity|].
      destruct (is_zhipu a && _); cbn; rewrite Ho; discriminate.
    + discriminate.
    + discriminate.
    + apply view_KeyPromptZhipu in Hp. cbn. rewrite Hp. discriminate.
    + apply view_KeyPromptZhipu in Hp. cbn. rewrite Hp. discriminate.
  - exists (fst (handle keyless_user
                   (fst (handle keyless_user (initial None) (Pick USE_ZHIPU)))
                   (Press escape_key))).
    split; [|split; reflexivity].
    apply reachable_step; [|reflexivity].
    apply reachable_step; [|reflexivity].
    apply reachable_initial.
Qed.

Lemma X16_prompt_witness :
  showOpenAIKeyPrompt prompting && showZhipuKeyPrompt prompting = false /\
  (showOpenAIKeyPrompt prompting = true -> errorMessage prompting = None) /\
  (exists st', reachable keyless_user None st' /\
               showZhipuKeyPrompt st' = true /\ errorMessage st' = Some must_select).
Proof.
  exact (X16_key_prompt_invariants new_user None
           (fst (handle new_user (initial None) (Pick USE_OPENAI)))
           (@reachable_step new_user None (initial None) (Pick USE_OPENAI)
              (@reachable_initial new_user None) eq_refl)).
Defined.

(** X17. One thing the user does makes the dialog report at most one
    selection. It reports that nothing was selected only on escape, outside
    the OpenAI key prompt, with a method configured and no error message
    shown. It reports a method only when that method is one of the two listed
    and either was picked and passed the validation, or its key was submitted
    in its key prompt. *)
Theorem X17_what_the_dialog_reports (env : Env) (st : State) (act : Action) :
  possible st act = true ->
  List.length (selections (snd (handle env st act))) <= 1 /\
  (In None (selections (snd (handle env st act))) ->
   exists key, act = Press key /\ escape key = true /\
               selectedAuthType env <> None /\
               truthy_string (errorMessage st) = false /\
               showOpenAIKeyPrompt st = false) /\
  (forall a, In (Some a) (selections (snd (handle env st act))) ->
     listed a = true /\
     ((act = Pick a /\ truthy_string (validateAuthMethod env a) = false) \/
      (a = USE_OPENAI /\ view st = KeyPromptOpenAI /\
       exists k u m, act = SubmitOpenAIKey k u m) \/
      (a = USE_ZHIPU /\ view st = KeyPromptZhipu /\
       exists k m, act = SubmitZhipuKey k m))).
Proof.
  intros Hp. apply possible_view in Hp.
  destruct act as [key | a | k u m | | k m | ]; cbn [handle].
  - unfold useInput.
    destruct (showOpenAIKeyPrompt st) eqn:Ho; [cbn; intuition lia|].
    destruct (escape key) eqn:He; [|cbn; intuition lia].
    destruct (truthy_string (errorMessage st)) eqn:Hm; [cbn; intuition lia|].
    destruct (selectedAuthType env) eqn:Hs; [|cbn; intuition lia].
    cbn. split; [lia|]. split.
    + intros _. exists key. repeat split; try assumption. discriminate.
    + intros a' [H | []]. discriminate H.
  - destruct Hp as [Hv Hl]. unfold handleAuthSelect.
    destruct (truthy_string (validateAuthMethod env a)) eqn:Hval.
    + destruct (is_openai a && _); [cbn; intuition lia|].
      destruct (is_zhipu a && _); cbn; intuition lia.
    + cbn. split; [lia|]. split.
      * intros [H | []]. discriminate H.
      * intros a' [H | []]. injection H as <-. split; [exact Hl|]. left. split; auto.
  - cbn. split; [lia|]. split.
    + intros [H | []]. discriminate H.
    + intros a [H | []]. injection H as <-. split; [reflexivity|].
      right. left. repeat split; [exact Hp|]. exists k, u, m. reflexivity.
  - cbn. intuition lia.
  - unfold handleZhipuKeySubmit. cbn [snd].
    assert (Hsel : selections
              ([setZhipuApiKey k] ++
               match m with
               | Some m0 => if truthy_string m then [setZhipuModel m0] else []
               | None => []
               end ++ [onSelect (Some USE_ZHIPU) User]) = [Some USE_ZHIPU]).
    { destruct m as [m0|]; [destruct (truthy_string (Some m0))|]; reflexivity. }
    rewrite Hsel. cbn. split; [lia|]. split.
    + intros [H | []]. discriminate H.
    + intros a [H | []]. injection H as <-. split; [reflexivity|].
      right. right. repeat split; [exact Hp|]. exists k, m. reflexivity.
  - cbn. intuition lia.
Qed.

Lemma X17_reports_witness :
  List.length (selections (snd (handle zhipu_user (initial None) (Press escape_key)))) <= 1 /\
  (In None (selections (snd (handle zhipu_user (initial None) (Press escape_key)))) ->
   exists key, Press escape_key = Press key /\ escape key = true /\
               selectedAuthType zhipu_user <> None /\
               truthy_string (errorMessage (initial None)) = false /\
               showOpenAIKeyPrompt (initial None) = false) /\
  (forall a, In (Some a) (selections (snd (handle zhipu_user (initial None)
                                             (Press escape_key)))) ->
     listed a = true /\
     ((Press escape_key = Pick a /\
       truthy_string (validateAuthMethod zhipu_user a) = false) \/
      (a = USE_OPENAI /\ view (initial None) = KeyPromptOpenAI /\
       exists k u m, Press escape_key = SubmitOpenAIKey k u m) \/
      (a = USE_ZHIPU /\ view (initial None) = KeyPromptZhipu /\
       exists k m, Press escape_key = SubmitZhipuKey k m))).
Proof.
  exact (X17_what_the_dialog_reports zhipu_user (initial None) (Press escape_key) eq_refl).
Defined.

(** ** The item the auth list starts on *)

Section InitialItem.
Import InitialIndex.
Variables USE_OPENAI USE_ZHIPU USE_GEMINI LOGIN_WITH_GOOGLE : string.
Variable auth_values : list string.
Variables selectedAuthType GEMINI_DEFAULT_AUTH_TYPE GEMINI_API_KEY : option string.

Lemma chosen_wanted (value : string) :
  chosen USE_GEMINI LOGIN_WITH_GOOGLE auth_values
    selectedAuthType GEMINI_DEFAULT_AUTH_TYPE GEMINI_API_KEY value =
  String.eqb value
    (wanted USE_GEMINI LOGIN_WITH_GOOGLE auth_values
       selectedAuthType GEMINI_DEFAULT_AUTH_TYPE GEMINI_API_KEY).
Proof.
  unfold chosen, wanted.
  destruct selectedAuthType as [s|]; cbn [InitialIndex.truthy_string].
  - destruct (negb (String.eqb s EmptyString)); [reflexivity|].
    destruct (parseDefaultAuthType auth_values GEMINI_DEFAULT_AUTH_TYPE); [reflexivity|].
    destruct GEMINI_API_KEY as [k|]; cbn [InitialIndex.truthy_string];
      [destruct (negb (String.eqb k EmptyString))|]; reflexivity.
  - destruct (parseDefaultAuthType auth_values GEMINI_DEFAULT_AUTH_TYPE); [reflexivity|].
    destruct GEMINI_API_KEY as [k|]; cbn [InitialIndex.truthy_string];
      [destruct (negb (String.eqb k EmptyString))|]; reflexivity.
Qed.

(** X18. The auth list starts on one of its two items. It starts on the
    second, Zhipu AI, exactly when the method looked for, the configured one
    or else the valid default of the environment, is Zhipu's; in every other
    case, also when the method looked for is not listed at all, it starts on
    the first, OpenAI. With nothing configured and no valid default, it
    starts on the first item whether a Gemini key is set or not, since
    neither fallback is listed. *)
Theorem X18_initialAuthIndex :
  USE_OPENAI <> USE_ZHIPU ->
  let index :=
    initialAuthIndex USE_OPENAI USE_ZHIPU USE_GEMINI LOGIN_WITH_GOOGLE auth_values
      selectedAuthType GEMINI_DEFAULT_AUTH_TYPE GEMINI_API_KEY in
  let method :=
    wanted USE_GEMINI LOGIN_WITH_GOOGLE auth_values
      selectedAuthType GEMINI_DEFAULT_AUTH_TYPE GEMINI_API_KEY in
  (index = 0 \/ index = 1)%Z /\
  (method = USE_ZHIPU -> index = 1%Z) /\
  (method <> USE_ZHIPU -> index = 0%Z) /\
  (USE_GEMINI <> USE_ZHIPU -> LOGIN_WITH_GOOGLE <> USE_ZHIPU ->
   InitialIndex.truthy_string selectedAuthType = false ->
   parseDefaultAuthType auth_values GEMINI_DEFAULT_AUTH_TYPE = None ->
   index = 0%Z).
Proof.
  intros Hoz index method.
  assert (Hindex : index =
                   if String.eqb USE_OPENAI method then 0%Z
                   else if String.eqb USE_ZHIPU method then 1%Z else 0%Z).
  { unfold index, initialAuthIndex, items. cbn [findIndex].
    rewrite !chosen_wanted. fold method.
    destruct (String.eqb USE_OPENAI method); [reflexivity|].
    destruct (String.eqb USE_ZHIPU method); reflexivity. }
  assert (Hz : method = USE_ZHIPU -> index = 1%Z).
  { intros Hm. rewrite Hindex, Hm, String.eqb_refl.
    destruct (String.eqb USE_OPENAI USE_ZHIPU) eqn:E; [|reflexivity].
    apply String.eqb_eq in E. contradiction. }
  assert (Hn : method <> USE_ZHIPU -> index = 0%Z).
  { intros Hm. rewrite Hindex.
    destruct (String.eqb USE_OPENAI method); [reflexivity|].
    destruct (String.eqb USE_ZHIPU method) eqn:E; [|reflexivity].
    apply String.eqb_eq in E. symmetry in E. contradiction. }
  split; [|split; [exact Hz | split; [exact Hn|]]].
  - rewrite Hindex. destruct (String.eqb USE_OPENAI method); [left; reflexivity|].
    destruct (String.eqb USE_ZHIPU method); [right | left]; reflexivity.
  - intros Hg Hl Hsel Hdef. apply Hn. unfold method, wanted. rewrite Hsel, Hdef.
    destruct (InitialIndex.truthy_string GEMINI_API_KEY); assumption.
Qed.

End InitialItem.

Lemma X18_initial_item_witness :
  let index :=
    InitialIndex.initialAuthIndex "openai" "zhipu" "gemini-api-key" "oauth-personal"
      ["oauth-personal"; "gemini-api-key"; "openai"; "zhipu"]
      None (Some "zhipu") (Some "key") in
  let method :=
    InitialIndex.wanted "gemini-api-key" "oauth-personal"
      ["oauth-personal"; "gemini-api-key"; "openai"; "zhipu"]
      None (Some "zhipu") (Some "key") in
  (index = 0 \/ index = 1)%Z /\
  (method = "zhipu" -> index = 1%Z) /\
  (method <> "zhipu" -> index = 0%Z) /\
  ("gemini-api-key" <> "zhipu" -> "oauth-personal" <> "zhipu" ->
   InitialIndex.truthy_string None = false ->
   InitialIndex.parseDefaultAuthType
     ["oauth-personal"; "gemini-api-key"; "openai"; "zhipu"] (Some "zhipu") = None ->
   index = 0%Z).
Proof.
  refine (X18_initialAuthIndex "openai" "zhipu" "gemini-api-key" "oauth-personal"
            ["oauth-personal"; "gemini-api-key"; "openai"; "zhipu"]
            None (Some "zhipu") (Some "key") _).
  intros H. discriminate H.
Defined.
